(** * BIDS_creator_tool: the DICOM sorting, anonymising and filtering scripts

    A shallow embedding of the four Python tools

      - [dicom_sorting_tool.py]
      - [DICOMDIR_creation_tool.py]
      - [dicom_sort_series_filtering.py]
      - [modify_protocol_name.py]

    and the properties of their anonymiser, counter registry, collision
    handling, series filter and dispatchers.

    Modelling choices:
      - a Python [str] is a [string] that holds the UTF-8 encoding of its
        code points; [upper], [lower], [strip], [repr] and the class [\s]
        follow the tables of Unicode 14, the strict decoder of a text file
        is that of a UTF-8 locale;
      - a pydicom [Dataset] is a finite map from names to data elements,
        whose value is one string or several, and to attributes of the
        Python object, given by what reading them gives or raises;
      - the file system is a finite map from path strings to directories and
        files, each entry under the one spelling of its path; a file is a
        DICOM file, a file that decodes as a dataset only when the reader is
        forced, or other bytes; a file that holds a dataset is given by the
        dataset that reading it yields, which has no padding at the end of
        its values;
      - the module-level globals and the console form one record, threaded
        through a monad of state and exceptions: a computation returns the
        world it leaves together with its value or the exception it raised;
      - [pathvalidate.sanitize_filepath], [Dataset.decompress], what the
        forced reader of pydicom makes of bytes that are no DICOM file, the
        datasets its writer refuses in the protocol-name tool and the order
        in which a pool completes its tasks are parameters;
      - a task of a process pool runs to its end before the next one starts,
        on its own copy of the globals;
      - the [while] loop of [generate_unique_filename] takes a bound on its
        iterations. *)

From Stdlib Require Import Ascii String Decimal DecimalNat DecimalString NArith.
From stdpp Require Import base option gmap sets list strings.

#[local] Set Warnings "-clear-no-such-hyp".

(** ** Python built-ins on [str] *)

Module Py.

(** [s.startswith(p)] *)
Fixpoint startswith (s p : string) {struct p} : bool :=
  match p with
  | EmptyString => true
  | String a p' =>
      match s with
      | String b s' => if decide (a = b) then startswith s' p' else false
      | EmptyString => false
      end
  end.

(** [s.endswith(suffix)] *)
Fixpoint endswith (s suffix : string) : bool :=
  if decide (s = suffix) then true
  else match s with
       | EmptyString => false
       | String _ s' => endswith s' suffix
       end.

(** [sub in s] *)
Fixpoint contains (sub s : string) : bool :=
  if startswith s sub then true
  else match s with
       | EmptyString => false
       | String _ s' => contains sub s'
       end.

(** *** Code points

    A [str] is held as the UTF-8 encoding of its code points; a byte that
    belongs to no well-formed sequence stands for the lone surrogate the
    [surrogateescape] error handler gives it, as in [os.fsdecode]. *)

Definition byte (c : ascii) : N := N_of_ascii c.

Definition in_range (lo hi cp : N) : bool := (lo <=? cp)%N && (cp <=? hi)%N.

Definition in_ranges (ranges : list (N * N)) (cp : N) : bool :=
  existsb (λ r, in_range r.1 r.2 cp) ranges.

Definition is_continuation (b : N) : bool := in_range 0x80 0xBF b.

(** A Unicode scalar value: a code point that is no surrogate. *)
Definition is_scalar (cp : N) : bool :=
  (cp <? 0xD800)%N || in_range 0xE000 0x10FFFF cp.

(** The code point of the well-formed sequence the string starts with, and
    the number of its bytes. *)
Definition decode_first (s : string) : option (N * nat) :=
  match s with
  | EmptyString => None
  | String c1 s1 =>
      let b1 := byte c1 in
      if (b1 <? 0x80)%N then Some (b1, 1) else
      match s1 with
      | EmptyString => None
      | String c2 s2 =>
          let b2 := byte c2 in
          if negb (is_continuation b2) then None
          else if in_range 0xC0 0xDF b1 then
            let v := ((b1 - 0xC0) * 0x40 + (b2 - 0x80))%N in
            if (0x80 <=? v)%N then Some (v, 2) else None
          else
          match s2 with
          | EmptyString => None
          | String c3 s3 =>
              let b3 := byte c3 in
              if negb (is_continuation b3) then None
              else if in_range 0xE0 0xEF b1 then
                let v := ((b1 - 0xE0) * 0x1000 + (b2 - 0x80) * 0x40
                          + (b3 - 0x80))%N in
                if (0x800 <=? v)%N && is_scalar v then Some (v, 3) else None
              else
              match s3 with
              | EmptyString => None
              | String c4 _ =>
                  let b4 := byte c4 in
                  if negb (is_continuation b4) then None
                  else if in_range 0xF0 0xF7 b1 then
                    let v := ((b1 - 0xF0) * 0x40000 + (b2 - 0x80) * 0x1000
                              + (b3 - 0x80) * 0x40 + (b4 - 0x80))%N in
                    if in_range 0x10000 0x10FFFF v then Some (v, 4) else None
                  else None
              end
          end
      end
  end.

(** The code points of a string; [skip] counts the bytes of a decoded
    sequence still to be passed. *)
Fixpoint code_points_go (skip : nat) (s : string) : list N :=
  match s with
  | EmptyString => []
  | String c s' =>
      match skip with
      | S k => code_points_go k s'
      | O =>
          match decode_first s with
          | Some (cp, n) => cp :: code_points_go (n - 1) s'
          | None => (0xDC00 + byte c)%N :: code_points_go 0 s'
          end
      end
  end.

Definition code_points (s : string) : list N := code_points_go 0 s.

Definition of_bytes (bytes : list N) : string :=
  foldr (λ b s, String (ascii_of_N b) s) EmptyString bytes.

(** The bytes of one code point. *)
Definition utf8 (cp : N) : string :=
  if (cp <? 0x80)%N then of_bytes [cp]
  else if (cp <? 0x800)%N then of_bytes [0xC0 + cp / 0x40; 0x80 + cp mod 0x40]%N
  else if in_range 0xDC80 0xDCFF cp then of_bytes [cp - 0xDC00]%N
  else if (cp <? 0x10000)%N then
    of_bytes [0xE0 + cp / 0x1000; 0x80 + (cp / 0x40) mod 0x40; 0x80 + cp mod 0x40]%N
  else
    of_bytes [0xF0 + cp / 0x40000; 0x80 + (cp / 0x1000) mod 0x40;
           0x80 + (cp / 0x40) mod 0x40; 0x80 + cp mod 0x40]%N.

Definition encode (l : list N) : string :=
  foldr (λ cp s, utf8 cp +:+ s) EmptyString l.

(** No byte of the string is left outside a well-formed sequence: the
    strict decoder accepts it. *)
Definition well_formed (s : string) : bool :=
  forallb (λ cp, negb (in_range 0xDC80 0xDCFF cp)) (code_points s).

(** The code points [str.isspace] holds of, as ranges. *)
Definition whitespace : list (N * N) :=
  [(0x9, 0xD); (0x1C, 0x20); (0x85, 0x85); (0xA0, 0xA0); (0x1680, 0x1680); (0x2000, 0x200A);
   (0x2028, 0x2029); (0x202F, 0x202F); (0x205F, 0x205F); (0x3000, 0x3000)]%N.

(** The simple upper-case mappings beyond ASCII and within: every [stride]-th code point from [first] to [last] goes to [image] plus its distance from [first]. *)
Definition uppercase : list (N * N * N * N) :=
  [(0x61, 0x7A, 1, 0x41); (0xB5, 0xB5, 1, 0x39C); (0xE0, 0xF6, 1, 0xC0);
   (0xF8, 0xFE, 1, 0xD8); (0xFF, 0xFF, 1, 0x178); (0x101, 0x12F, 2, 0x100);
   (0x131, 0x131, 1, 0x49); (0x133, 0x137, 2, 0x132); (0x13A, 0x148, 2, 0x139);
   (0x14B, 0x177, 2, 0x14A); (0x17A, 0x17E, 2, 0x179); (0x17F, 0x17F, 1, 0x53);
   (0x180, 0x180, 1, 0x243); (0x183, 0x185, 2, 0x182); (0x188, 0x188, 1, 0x187);
   (0x18C, 0x18C, 1, 0x18B); (0x192, 0x192, 1, 0x191); (0x195, 0x195, 1, 0x1F6);
   (0x199, 0x199, 1, 0x198); (0x19A, 0x19A, 1, 0x23D); (0x19E, 0x19E, 1, 0x220);
   (0x1A1, 0x1A5, 2, 0x1A0); (0x1A8, 0x1A8, 1, 0x1A7); (0x1AD, 0x1AD, 1, 0x1AC);
   (0x1B0, 0x1B0, 1, 0x1AF); (0x1B4, 0x1B6, 2, 0x1B3); (0x1B9, 0x1B9, 1, 0x1B8);
   (0x1BD, 0x1BD, 1, 0x1BC); (0x1BF, 0x1BF, 1, 0x1F7); (0x1C5, 0x1C5, 1, 0x1C4);
   (0x1C6, 0x1C6, 1, 0x1C4); (0x1C8, 0x1C8, 1, 0x1C7); (0x1C9, 0x1C9, 1, 0x1C7);
   (0x1CB, 0x1CB, 1, 0x1CA); (0x1CC, 0x1CC, 1, 0x1CA); (0x1CE, 0x1DC, 2, 0x1CD);
   (0x1DD, 0x1DD, 1, 0x18E); (0x1DF, 0x1EF, 2, 0x1DE); (0x1F2, 0x1F2, 1, 0x1F1);
   (0x1F3, 0x1F3, 1, 0x1F1); (0x1F5, 0x1F5, 1, 0x1F4); (0x1F9, 0x21F, 2, 0x1F8);
   (0x223, 0x233, 2, 0x222); (0x23C, 0x23C, 1, 0x23B); (0x23F, 0x240, 1, 0x2C7E);
   (0x242, 0x242, 1, 0x241); (0x247, 0x24F, 2, 0x246); (0x250, 0x250, 1, 0x2C6F);
   (0x251, 0x251, 1, 0x2C6D); (0x252, 0x252, 1, 0x2C70); (0x253, 0x253, 1, 0x181);
   (0x254, 0x254, 1, 0x186); (0x256, 0x257, 1, 0x189); (0x259, 0x259, 1, 0x18F);
   (0x25B, 0x25B, 1, 0x190); (0x25C, 0x25C, 1, 0xA7AB); (0x260, 0x260, 1, 0x193);
   (0x261, 0x261, 1, 0xA7AC); (0x263, 0x263, 1, 0x194); (0x265, 0x265, 1, 0xA78D);
   (0x266, 0x266, 1, 0xA7AA); (0x268, 0x268, 1, 0x197); (0x269, 0x269, 1, 0x196);
   (0x26A, 0x26A, 1, 0xA7AE); (0x26B, 0x26B, 1, 0x2C62); (0x26C, 0x26C, 1, 0xA7AD);
   (0x26F, 0x26F, 1, 0x19C); (0x271, 0x271, 1, 0x2C6E); (0x272, 0x272, 1, 0x19D);
   (0x275, 0x275, 1, 0x19F); (0x27D, 0x27D, 1, 0x2C64); (0x280, 0x280, 1, 0x1A6);
   (0x282, 0x282, 1, 0xA7C5); (0x283, 0x283, 1, 0x1A9); (0x287, 0x287, 1, 0xA7B1);
   (0x288, 0x288, 1, 0x1AE); (0x289, 0x289, 1, 0x244); (0x28A, 0x28B, 1, 0x1B1);
   (0x28C, 0x28C, 1, 0x245); (0x292, 0x292, 1, 0x1B7); (0x29D, 0x29D, 1, 0xA7B2);
   (0x29E, 0x29E, 1, 0xA7B0); (0x345, 0x345, 1, 0x399); (0x371, 0x373, 2, 0x370);
   (0x377, 0x377, 1, 0x376); (0x37B, 0x37D, 1, 0x3FD); (0x3AC, 0x3AC, 1, 0x386);
   (0x3AD, 0x3AF, 1, 0x388); (0x3B1, 0x3C1, 1, 0x391); (0x3C2, 0x3C2, 1, 0x3A3);
   (0x3C3, 0x3CB, 1, 0x3A3); (0x3CC, 0x3CC, 1, 0x38C); (0x3CD, 0x3CE, 1, 0x38E);
   (0x3D0, 0x3D0, 1, 0x392); (0x3D1, 0x3D1, 1, 0x398); (0x3D5, 0x3D5, 1, 0x3A6);
   (0x3D6, 0x3D6, 1, 0x3A0); (0x3D7, 0x3D7, 1, 0x3CF); (0x3D9, 0x3EF, 2, 0x3D8);
   (0x3F0, 0x3F0, 1, 0x39A); (0x3F1, 0x3F1, 1, 0x3A1); (0x3F2, 0x3F2, 1, 0x3F9);
   (0x3F3, 0x3F3, 1, 0x37F); (0x3F5, 0x3F5, 1, 0x395); (0x3F8, 0x3F8, 1, 0x3F7);
   (0x3FB, 0x3FB, 1, 0x3FA); (0x430, 0x44F, 1, 0x410); (0x450, 0x45F, 1, 0x400);
   (0x461, 0x481, 2, 0x460); (0x48B, 0x4BF, 2, 0x48A); (0x4C2, 0x4CE, 2, 0x4C1);
   (0x4CF, 0x4CF, 1, 0x4C0); (0x4D1, 0x52F, 2, 0x4D0); (0x561, 0x586, 1, 0x531);
   (0x10D0, 0x10FA, 1, 0x1C90); (0x10FD, 0x10FF, 1, 0x1CBD); (0x13F8, 0x13FD, 1, 0x13F0);
   (0x1C80, 0x1C80, 1, 0x412); (0x1C81, 0x1C81, 1, 0x414); (0x1C82, 0x1C82, 1, 0x41E);
   (0x1C83, 0x1C84, 1, 0x421); (0x1C85, 0x1C85, 1, 0x422); (0x1C86, 0x1C86, 1, 0x42A);
   (0x1C87, 0x1C87, 1, 0x462); (0x1C88, 0x1C88, 1, 0xA64A); (0x1D79, 0x1D79, 1, 0xA77D);
   (0x1D7D, 0x1D7D, 1, 0x2C63); (0x1D8E, 0x1D8E, 1, 0xA7C6); (0x1E01, 0x1E95, 2, 0x1E00);
   (0x1E9B, 0x1E9B, 1, 0x1E60); (0x1EA1, 0x1EFF, 2, 0x1EA0); (0x1F00, 0x1F07, 1, 0x1F08);
   (0x1F10, 0x1F15, 1, 0x1F18); (0x1F20, 0x1F27, 1, 0x1F28); (0x1F30, 0x1F37, 1, 0x1F38);
   (0x1F40, 0x1F45, 1, 0x1F48); (0x1F51, 0x1F57, 2, 0x1F59); (0x1F60, 0x1F67, 1, 0x1F68);
   (0x1F70, 0x1F71, 1, 0x1FBA); (0x1F72, 0x1F75, 1, 0x1FC8); (0x1F76, 0x1F77, 1, 0x1FDA);
   (0x1F78, 0x1F79, 1, 0x1FF8); (0x1F7A, 0x1F7B, 1, 0x1FEA); (0x1F7C, 0x1F7D, 1, 0x1FFA);
   (0x1FB0, 0x1FB1, 1, 0x1FB8); (0x1FBE, 0x1FBE, 1, 0x399); (0x1FD0, 0x1FD1, 1, 0x1FD8);
   (0x1FE0, 0x1FE1, 1, 0x1FE8); (0x1FE5, 0x1FE5, 1, 0x1FEC); (0x214E, 0x214E, 1, 0x2132);
   (0x2170, 0x217F, 1, 0x2160); (0x2184, 0x2184, 1, 0x2183); (0x24D0, 0x24E9, 1, 0x24B6);
   (0x2C30, 0x2C5F, 1, 0x2C00); (0x2C61, 0x2C61, 1, 0x2C60); (0x2C65, 0x2C65, 1, 0x23A);
   (0x2C66, 0x2C66, 1, 0x23E); (0x2C68, 0x2C6C, 2, 0x2C67); (0x2C73, 0x2C73, 1, 0x2C72);
   (0x2C76, 0x2C76, 1, 0x2C75); (0x2C81, 0x2CE3, 2, 0x2C80); (0x2CEC, 0x2CEE, 2, 0x2CEB);
   (0x2CF3, 0x2CF3, 1, 0x2CF2); (0x2D00, 0x2D25, 1, 0x10A0); (0x2D27, 0x2D27, 1, 0x10C7);
   (0x2D2D, 0x2D2D, 1, 0x10CD); (0xA641, 0xA66D, 2, 0xA640); (0xA681, 0xA69B, 2, 0xA680);
   (0xA723, 0xA72F, 2, 0xA722); (0xA733, 0xA76F, 2, 0xA732); (0xA77A, 0xA77C, 2, 0xA779);
   (0xA77F, 0xA787, 2, 0xA77E); (0xA78C, 0xA78C, 1, 0xA78B); (0xA791, 0xA793, 2, 0xA790);
   (0xA794, 0xA794, 1, 0xA7C4); (0xA797, 0xA7A9, 2, 0xA796); (0xA7B5, 0xA7C3, 2, 0xA7B4);
   (0xA7C8, 0xA7CA, 2, 0xA7C7); (0xA7D1, 0xA7D1, 1, 0xA7D0); (0xA7D7, 0xA7D9, 2, 0xA7D6);
   (0xA7F6, 0xA7F6, 1, 0xA7F5); (0xAB53, 0xAB53, 1, 0xA7B3); (0xAB70, 0xABBF, 1, 0x13A0);
   (0xFF41, 0xFF5A, 1, 0xFF21); (0x10428, 0x1044F, 1, 0x10400); (0x104D8, 0x104FB, 1, 0x104B0);
   (0x10597, 0x105A1, 1, 0x10570); (0x105A3, 0x105B1, 1, 0x1057C); (0x105B3, 0x105B9, 1, 0x1058C);
   (0x105BB, 0x105BC, 1, 0x10594); (0x10CC0, 0x10CF2, 1, 0x10C80); (0x118C0, 0x118DF, 1, 0x118A0);
   (0x16E60, 0x16E7F, 1, 0x16E40); (0x1E922, 0x1E943, 1, 0x1E900)]%N.

(** The code points whose upper case is more than one code point. *)
Definition uppercase_special : list (N * list N) :=
  [(0xDF, [0x53; 0x53]); (0x149, [0x2BC; 0x4E]); (0x1F0, [0x4A; 0x30C]);
   (0x390, [0x399; 0x308; 0x301]); (0x3B0, [0x3A5; 0x308; 0x301]); (0x587, [0x535; 0x552]);
   (0x1E96, [0x48; 0x331]); (0x1E97, [0x54; 0x308]); (0x1E98, [0x57; 0x30A]);
   (0x1E99, [0x59; 0x30A]); (0x1E9A, [0x41; 0x2BE]); (0x1F50, [0x3A5; 0x313]);
   (0x1F52, [0x3A5; 0x313; 0x300]); (0x1F54, [0x3A5; 0x313; 0x301]); (0x1F56, [0x3A5; 0x313; 0x342]);
   (0x1F80, [0x1F08; 0x399]); (0x1F81, [0x1F09; 0x399]); (0x1F82, [0x1F0A; 0x399]);
   (0x1F83, [0x1F0B; 0x399]); (0x1F84, [0x1F0C; 0x399]); (0x1F85, [0x1F0D; 0x399]);
   (0x1F86, [0x1F0E; 0x399]); (0x1F87, [0x1F0F; 0x399]); (0x1F88, [0x1F08; 0x399]);
   (0x1F89, [0x1F09; 0x399]); (0x1F8A, [0x1F0A; 0x399]); (0x1F8B, [0x1F0B; 0x399]);
   (0x1F8C, [0x1F0C; 0x399]); (0x1F8D, [0x1F0D; 0x399]); (0x1F8E, [0x1F0E; 0x399]);
   (0x1F8F, [0x1F0F; 0x399]); (0x1F90, [0x1F28; 0x399]); (0x1F91, [0x1F29; 0x399]);
   (0x1F92, [0x1F2A; 0x399]); (0x1F93, [0x1F2B; 0x399]); (0x1F94, [0x1F2C; 0x399]);
   (0x1F95, [0x1F2D; 0x399]); (0x1F96, [0x1F2E; 0x399]); (0x1F97, [0x1F2F; 0x399]);
   (0x1F98, [0x1F28; 0x399]); (0x1F99, [0x1F29; 0x399]); (0x1F9A, [0x1F2A; 0x399]);
   (0x1F9B, [0x1F2B; 0x399]); (0x1F9C, [0x1F2C; 0x399]); (0x1F9D, [0x1F2D; 0x399]);
   (0x1F9E, [0x1F2E; 0x399]); (0x1F9F, [0x1F2F; 0x399]); (0x1FA0, [0x1F68; 0x399]);
   (0x1FA1, [0x1F69; 0x399]); (0x1FA2, [0x1F6A; 0x399]); (0x1FA3, [0x1F6B; 0x399]);
   (0x1FA4, [0x1F6C; 0x399]); (0x1FA5, [0x1F6D; 0x399]); (0x1FA6, [0x1F6E; 0x399]);
   (0x1FA7, [0x1F6F; 0x399]); (0x1FA8, [0x1F68; 0x399]); (0x1FA9, [0x1F69; 0x399]);
   (0x1FAA, [0x1F6A; 0x399]); (0x1FAB, [0x1F6B; 0x399]); (0x1FAC, [0x1F6C; 0x399]);
   (0x1FAD, [0x1F6D; 0x399]); (0x1FAE, [0x1F6E; 0x399]); (0x1FAF, [0x1F6F; 0x399]);
   (0x1FB2, [0x1FBA; 0x399]); (0x1FB3, [0x391; 0x399]); (0x1FB4, [0x386; 0x399]);
   (0x1FB6, [0x391; 0x342]); (0x1FB7, [0x391; 0x342; 0x399]); (0x1FBC, [0x391; 0x399]);
   (0x1FC2, [0x1FCA; 0x399]); (0x1FC3, [0x397; 0x399]); (0x1FC4, [0x389; 0x399]);
   (0x1FC6, [0x397; 0x342]); (0x1FC7, [0x397; 0x342; 0x399]); (0x1FCC, [0x397; 0x399]);
   (0x1FD2, [0x399; 0x308; 0x300]); (0x1FD3, [0x399; 0x308; 0x301]); (0x1FD6, [0x399; 0x342]);
   (0x1FD7, [0x399; 0x308; 0x342]); (0x1FE2, [0x3A5; 0x308; 0x300]); (0x1FE3, [0x3A5; 0x308; 0x301]);
   (0x1FE4, [0x3A1; 0x313]); (0x1FE6, [0x3A5; 0x342]); (0x1FE7, [0x3A5; 0x308; 0x342]);
   (0x1FF2, [0x1FFA; 0x399]); (0x1FF3, [0x3A9; 0x399]); (0x1FF4, [0x38F; 0x399]);
   (0x1FF6, [0x3A9; 0x342]); (0x1FF7, [0x3A9; 0x342; 0x399]); (0x1FFC, [0x3A9; 0x399]);
   (0xFB00, [0x46; 0x46]); (0xFB01, [0x46; 0x49]); (0xFB02, [0x46; 0x4C]);
   (0xFB03, [0x46; 0x46; 0x49]); (0xFB04, [0x46; 0x46; 0x4C]); (0xFB05, [0x53; 0x54]);
   (0xFB06, [0x53; 0x54]); (0xFB13, [0x544; 0x546]); (0xFB14, [0x544; 0x535]);
   (0xFB15, [0x544; 0x53B]); (0xFB16, [0x54E; 0x546]); (0xFB17, [0x544; 0x53D])]%N.

(** The simple lower-case mappings. *)
Definition lowercase : list (N * N * N * N) :=
  [(0x41, 0x5A, 1, 0x61); (0xC0, 0xD6, 1, 0xE0); (0xD8, 0xDE, 1, 0xF8);
   (0x100, 0x12E, 2, 0x101); (0x132, 0x136, 2, 0x133); (0x139, 0x147, 2, 0x13A);
   (0x14A, 0x176, 2, 0x14B); (0x178, 0x178, 1, 0xFF); (0x179, 0x17D, 2, 0x17A);
   (0x181, 0x181, 1, 0x253); (0x182, 0x184, 2, 0x183); (0x186, 0x186, 1, 0x254);
   (0x187, 0x187, 1, 0x188); (0x189, 0x18A, 1, 0x256); (0x18B, 0x18B, 1, 0x18C);
   (0x18E, 0x18E, 1, 0x1DD); (0x18F, 0x18F, 1, 0x259); (0x190, 0x190, 1, 0x25B);
   (0x191, 0x191, 1, 0x192); (0x193, 0x193, 1, 0x260); (0x194, 0x194, 1, 0x263);
   (0x196, 0x196, 1, 0x269); (0x197, 0x197, 1, 0x268); (0x198, 0x198, 1, 0x199);
   (0x19C, 0x19C, 1, 0x26F); (0x19D, 0x19D, 1, 0x272); (0x19F, 0x19F, 1, 0x275);
   (0x1A0, 0x1A4, 2, 0x1A1); (0x1A6, 0x1A6, 1, 0x280); (0x1A7, 0x1A7, 1, 0x1A8);
   (0x1A9, 0x1A9, 1, 0x283); (0x1AC, 0x1AC, 1, 0x1AD); (0x1AE, 0x1AE, 1, 0x288);
   (0x1AF, 0x1AF, 1, 0x1B0); (0x1B1, 0x1B2, 1, 0x28A); (0x1B3, 0x1B5, 2, 0x1B4);
   (0x1B7, 0x1B7, 1, 0x292); (0x1B8, 0x1B8, 1, 0x1B9); (0x1BC, 0x1BC, 1, 0x1BD);
   (0x1C4, 0x1C4, 1, 0x1C6); (0x1C5, 0x1C5, 1, 0x1C6); (0x1C7, 0x1C7, 1, 0x1C9);
   (0x1C8, 0x1C8, 1, 0x1C9); (0x1CA, 0x1CA, 1, 0x1CC); (0x1CB, 0x1DB, 2, 0x1CC);
   (0x1DE, 0x1EE, 2, 0x1DF); (0x1F1, 0x1F1, 1, 0x1F3); (0x1F2, 0x1F4, 2, 0x1F3);
   (0x1F6, 0x1F6, 1, 0x195); (0x1F7, 0x1F7, 1, 0x1BF); (0x1F8, 0x21E, 2, 0x1F9);
   (0x220, 0x220, 1, 0x19E); (0x222, 0x232, 2, 0x223); (0x23A, 0x23A, 1, 0x2C65);
   (0x23B, 0x23B, 1, 0x23C); (0x23D, 0x23D, 1, 0x19A); (0x23E, 0x23E, 1, 0x2C66);
   (0x241, 0x241, 1, 0x242); (0x243, 0x243, 1, 0x180); (0x244, 0x244, 1, 0x289);
   (0x245, 0x245, 1, 0x28C); (0x246, 0x24E, 2, 0x247); (0x370, 0x372, 2, 0x371);
   (0x376, 0x376, 1, 0x377); (0x37F, 0x37F, 1, 0x3F3); (0x386, 0x386, 1, 0x3AC);
   (0x388, 0x38A, 1, 0x3AD); (0x38C, 0x38C, 1, 0x3CC); (0x38E, 0x38F, 1, 0x3CD);
   (0x391, 0x3A1, 1, 0x3B1); (0x3A3, 0x3AB, 1, 0x3C3); (0x3CF, 0x3CF, 1, 0x3D7);
   (0x3D8, 0x3EE, 2, 0x3D9); (0x3F4, 0x3F4, 1, 0x3B8); (0x3F7, 0x3F7, 1, 0x3F8);
   (0x3F9, 0x3F9, 1, 0x3F2); (0x3FA, 0x3FA, 1, 0x3FB); (0x3FD, 0x3FF, 1, 0x37B);
   (0x400, 0x40F, 1, 0x450); (0x410, 0x42F, 1, 0x430); (0x460, 0x480, 2, 0x461);
   (0x48A, 0x4BE, 2, 0x48B); (0x4C0, 0x4C0, 1, 0x4CF); (0x4C1, 0x4CD, 2, 0x4C2);
   (0x4D0, 0x52E, 2, 0x4D1); (0x531, 0x556, 1, 0x561); (0x10A0, 0x10C5, 1, 0x2D00);
   (0x10C7, 0x10C7, 1, 0x2D27); (0x10CD, 0x10CD, 1, 0x2D2D); (0x13A0, 0x13EF, 1, 0xAB70);
   (0x13F0, 0x13F5, 1, 0x13F8); (0x1C90, 0x1CBA, 1, 0x10D0); (0x1CBD, 0x1CBF, 1, 0x10FD);
   (0x1E00, 0x1E94, 2, 0x1E01); (0x1E9E, 0x1E9E, 1, 0xDF); (0x1EA0, 0x1EFE, 2, 0x1EA1);
   (0x1F08, 0x1F0F, 1, 0x1F00); (0x1F18, 0x1F1D, 1, 0x1F10); (0x1F28, 0x1F2F, 1, 0x1F20);
   (0x1F38, 0x1F3F, 1, 0x1F30); (0x1F48, 0x1F4D, 1, 0x1F40); (0x1F59, 0x1F5F, 2, 0x1F51);
   (0x1F68, 0x1F6F, 1, 0x1F60); (0x1F88, 0x1F8F, 1, 0x1F80); (0x1F98, 0x1F9F, 1, 0x1F90);
   (0x1FA8, 0x1FAF, 1, 0x1FA0); (0x1FB8, 0x1FB9, 1, 0x1FB0); (0x1FBA, 0x1FBB, 1, 0x1F70);
   (0x1FBC, 0x1FBC, 1, 0x1FB3); (0x1FC8, 0x1FCB, 1, 0x1F72); (0x1FCC, 0x1FCC, 1, 0x1FC3);
   (0x1FD8, 0x1FD9, 1, 0x1FD0); (0x1FDA, 0x1FDB, 1, 0x1F76); (0x1FE8, 0x1FE9, 1, 0x1FE0);
   (0x1FEA, 0x1FEB, 1, 0x1F7A); (0x1FEC, 0x1FEC, 1, 0x1FE5); (0x1FF8, 0x1FF9, 1, 0x1F78);
   (0x1FFA, 0x1FFB, 1, 0x1F7C); (0x1FFC, 0x1FFC, 1, 0x1FF3); (0x2126, 0x2126, 1, 0x3C9);
   (0x212A, 0x212A, 1, 0x6B); (0x212B, 0x212B, 1, 0xE5); (0x2132, 0x2132, 1, 0x214E);
   (0x2160, 0x216F, 1, 0x2170); (0x2183, 0x2183, 1, 0x2184); (0x24B6, 0x24CF, 1, 0x24D0);
   (0x2C00, 0x2C2F, 1, 0x2C30); (0x2C60, 0x2C60, 1, 0x2C61); (0x2C62, 0x2C62, 1, 0x26B);
   (0x2C63, 0x2C63, 1, 0x1D7D); (0x2C64, 0x2C64, 1, 0x27D); (0x2C67, 0x2C6B, 2, 0x2C68);
   (0x2C6D, 0x2C6D, 1, 0x251); (0x2C6E, 0x2C6E, 1, 0x271); (0x2C6F, 0x2C6F, 1, 0x250);
   (0x2C70, 0x2C70, 1, 0x252); (0x2C72, 0x2C72, 1, 0x2C73); (0x2C75, 0x2C75, 1, 0x2C76);
   (0x2C7E, 0x2C7F, 1, 0x23F); (0x2C80, 0x2CE2, 2, 0x2C81); (0x2CEB, 0x2CED, 2, 0x2CEC);
   (0x2CF2, 0x2CF2, 1, 0x2CF3); (0xA640, 0xA66C, 2, 0xA641); (0xA680, 0xA69A, 2, 0xA681);
   (0xA722, 0xA72E, 2, 0xA723); (0xA732, 0xA76E, 2, 0xA733); (0xA779, 0xA77B, 2, 0xA77A);
   (0xA77D, 0xA77D, 1, 0x1D79); (0xA77E, 0xA786, 2, 0xA77F); (0xA78B, 0xA78B, 1, 0xA78C);
   (0xA78D, 0xA78D, 1, 0x265); (0xA790, 0xA792, 2, 0xA791); (0xA796, 0xA7A8, 2, 0xA797);
   (0xA7AA, 0xA7AA, 1, 0x266); (0xA7AB, 0xA7AB, 1, 0x25C); (0xA7AC, 0xA7AC, 1, 0x261);
   (0xA7AD, 0xA7AD, 1, 0x26C); (0xA7AE, 0xA7AE, 1, 0x26A); (0xA7B0, 0xA7B0, 1, 0x29E);
   (0xA7B1, 0xA7B1, 1, 0x287); (0xA7B2, 0xA7B2, 1, 0x29D); (0xA7B3, 0xA7B3, 1, 0xAB53);
   (0xA7B4, 0xA7C2, 2, 0xA7B5); (0xA7C4, 0xA7C4, 1, 0xA794); (0xA7C5, 0xA7C5, 1, 0x282);
   (0xA7C6, 0xA7C6, 1, 0x1D8E); (0xA7C7, 0xA7C9, 2, 0xA7C8); (0xA7D0, 0xA7D0, 1, 0xA7D1);
   (0xA7D6, 0xA7D8, 2, 0xA7D7); (0xA7F5, 0xA7F5, 1, 0xA7F6); (0xFF21, 0xFF3A, 1, 0xFF41);
   (0x10400, 0x10427, 1, 0x10428); (0x104B0, 0x104D3, 1, 0x104D8); (0x10570, 0x1057A, 1, 0x10597);
   (0x1057C, 0x1058A, 1, 0x105A3); (0x1058C, 0x10592, 1, 0x105B3); (0x10594, 0x10595, 1, 0x105BB);
   (0x10C80, 0x10CB2, 1, 0x10CC0); (0x118A0, 0x118BF, 1, 0x118C0); (0x16E40, 0x16E5F, 1, 0x16E60);
   (0x1E900, 0x1E921, 1, 0x1E922)]%N.

(** The code points whose lower case is more than one code point. *)
Definition lowercase_special : list (N * list N) :=
  [(0x130, [0x69; 0x307])]%N.

(** The case-ignorable code points. *)
Definition case_ignorable : list (N * N) :=
  [(0x27, 0x27); (0x2E, 0x2E); (0x3A, 0x3A); (0x5E, 0x5E); (0x60, 0x60);
   (0xA8, 0xA8); (0xAD, 0xAD); (0xAF, 0xAF); (0xB4, 0xB4); (0xB7, 0xB8);
   (0x2B0, 0x36F); (0x374, 0x375); (0x37A, 0x37A); (0x384, 0x385); (0x387, 0x387);
   (0x483, 0x489); (0x559, 0x559); (0x55F, 0x55F); (0x591, 0x5BD); (0x5BF, 0x5BF);
   (0x5C1, 0x5C2); (0x5C4, 0x5C5); (0x5C7, 0x5C7); (0x5F4, 0x5F4); (0x600, 0x605);
   (0x610, 0x61A); (0x61C, 0x61C); (0x640, 0x640); (0x64B, 0x65F); (0x670, 0x670);
   (0x6D6, 0x6DD); (0x6DF, 0x6E8); (0x6EA, 0x6ED); (0x70F, 0x70F); (0x711, 0x711);
   (0x730, 0x74A); (0x7A6, 0x7B0); (0x7EB, 0x7F5); (0x7FA, 0x7FA); (0x7FD, 0x7FD);
   (0x816, 0x82D); (0x859, 0x85B); (0x888, 0x888); (0x890, 0x891); (0x898, 0x89F);
   (0x8C9, 0x902); (0x93A, 0x93A); (0x93C, 0x93C); (0x941, 0x948); (0x94D, 0x94D);
   (0x951, 0x957); (0x962, 0x963); (0x971, 0x971); (0x981, 0x981); (0x9BC, 0x9BC);
   (0x9C1, 0x9C4); (0x9CD, 0x9CD); (0x9E2, 0x9E3); (0x9FE, 0x9FE); (0xA01, 0xA02);
   (0xA3C, 0xA3C); (0xA41, 0xA42); (0xA47, 0xA48); (0xA4B, 0xA4D); (0xA51, 0xA51);
   (0xA70, 0xA71); (0xA75, 0xA75); (0xA81, 0xA82); (0xABC, 0xABC); (0xAC1, 0xAC5);
   (0xAC7, 0xAC8); (0xACD, 0xACD); (0xAE2, 0xAE3); (0xAFA, 0xAFF); (0xB01, 0xB01);
   (0xB3C, 0xB3C); (0xB3F, 0xB3F); (0xB41, 0xB44); (0xB4D, 0xB4D); (0xB55, 0xB56);
   (0xB62, 0xB63); (0xB82, 0xB82); (0xBC0, 0xBC0); (0xBCD, 0xBCD); (0xC00, 0xC00);
   (0xC04, 0xC04); (0xC3C, 0xC3C); (0xC3E, 0xC40); (0xC46, 0xC48); (0xC4A, 0xC4D);
   (0xC55, 0xC56); (0xC62, 0xC63); (0xC81, 0xC81); (0xCBC, 0xCBC); (0xCBF, 0xCBF);
   (0xCC6, 0xCC6); (0xCCC, 0xCCD); (0xCE2, 0xCE3); (0xD00, 0xD01); (0xD3B, 0xD3C);
   (0xD41, 0xD44); (0xD4D, 0xD4D); (0xD62, 0xD63); (0xD81, 0xD81); (0xDCA, 0xDCA);
   (0xDD2, 0xDD4); (0xDD6, 0xDD6); (0xE31, 0xE31); (0xE34, 0xE3A); (0xE46, 0xE4E);
   (0xEB1, 0xEB1); (0xEB4, 0xEBC); (0xEC6, 0xEC6); (0xEC8, 0xECD); (0xF18, 0xF19);
   (0xF35, 0xF35); (0xF37, 0xF37); (0xF39, 0xF39); (0xF71, 0xF7E); (0xF80, 0xF84);
   (0xF86, 0xF87); (0xF8D, 0xF97); (0xF99, 0xFBC); (0xFC6, 0xFC6); (0x102D, 0x1030);
   (0x1032, 0x1037); (0x1039, 0x103A); (0x103D, 0x103E); (0x1058, 0x1059); (0x105E, 0x1060);
   (0x1071, 0x1074); (0x1082, 0x1082); (0x1085, 0x1086); (0x108D, 0x108D); (0x109D, 0x109D);
   (0x10FC, 0x10FC); (0x135D, 0x135F); (0x1712, 0x1714); (0x1732, 0x1733); (0x1752, 0x1753);
   (0x1772, 0x1773); (0x17B4, 0x17B5); (0x17B7, 0x17BD); (0x17C6, 0x17C6); (0x17C9, 0x17D3);
   (0x17D7, 0x17D7); (0x17DD, 0x17DD); (0x180B, 0x180F); (0x1843, 0x1843); (0x1885, 0x1886);
   (0x18A9, 0x18A9); (0x1920, 0x1922); (0x1927, 0x1928); (0x1932, 0x1932); (0x1939, 0x193B);
   (0x1A17, 0x1A18); (0x1A1B, 0x1A1B); (0x1A56, 0x1A56); (0x1A58, 0x1A5E); (0x1A60, 0x1A60);
   (0x1A62, 0x1A62); (0x1A65, 0x1A6C); (0x1A73, 0x1A7C); (0x1A7F, 0x1A7F); (0x1AA7, 0x1AA7);
   (0x1AB0, 0x1ACE); (0x1B00, 0x1B03); (0x1B34, 0x1B34); (0x1B36, 0x1B3A); (0x1B3C, 0x1B3C);
   (0x1B42, 0x1B42); (0x1B6B, 0x1B73); (0x1B80, 0x1B81); (0x1BA2, 0x1BA5); (0x1BA8, 0x1BA9);
   (0x1BAB, 0x1BAD); (0x1BE6, 0x1BE6); (0x1BE8, 0x1BE9); (0x1BED, 0x1BED); (0x1BEF, 0x1BF1);
   (0x1C2C, 0x1C33); (0x1C36, 0x1C37); (0x1C78, 0x1C7D); (0x1CD0, 0x1CD2); (0x1CD4, 0x1CE0);
   (0x1CE2, 0x1CE8); (0x1CED, 0x1CED); (0x1CF4, 0x1CF4); (0x1CF8, 0x1CF9); (0x1D2C, 0x1D6A);
   (0x1D78, 0x1D78); (0x1D9B, 0x1DFF); (0x1FBD, 0x1FBD); (0x1FBF, 0x1FC1); (0x1FCD, 0x1FCF);
   (0x1FDD, 0x1FDF); (0x1FED, 0x1FEF); (0x1FFD, 0x1FFE); (0x200B, 0x200F); (0x2018, 0x2019);
   (0x2024, 0x2024); (0x2027, 0x2027); (0x202A, 0x202E); (0x2060, 0x2064); (0x2066, 0x206F);
   (0x2071, 0x2071); (0x207F, 0x207F); (0x2090, 0x209C); (0x20D0, 0x20F0); (0x2C7C, 0x2C7D);
   (0x2CEF, 0x2CF1); (0x2D6F, 0x2D6F); (0x2D7F, 0x2D7F); (0x2DE0, 0x2DFF); (0x2E2F, 0x2E2F);
   (0x3005, 0x3005); (0x302A, 0x302D); (0x3031, 0x3035); (0x303B, 0x303B); (0x3099, 0x309E);
   (0x30FC, 0x30FE); (0xA015, 0xA015); (0xA4F8, 0xA4FD); (0xA60C, 0xA60C); (0xA66F, 0xA672);
   (0xA674, 0xA67D); (0xA67F, 0xA67F); (0xA69C, 0xA69F); (0xA6F0, 0xA6F1); (0xA700, 0xA721);
   (0xA770, 0xA770); (0xA788, 0xA78A); (0xA7F2, 0xA7F4); (0xA7F8, 0xA7F9); (0xA802, 0xA802);
   (0xA806, 0xA806); (0xA80B, 0xA80B); (0xA825, 0xA826); (0xA82C, 0xA82C); (0xA8C4, 0xA8C5);
   (0xA8E0, 0xA8F1); (0xA8FF, 0xA8FF); (0xA926, 0xA92D); (0xA947, 0xA951); (0xA980, 0xA982);
   (0xA9B3, 0xA9B3); (0xA9B6, 0xA9B9); (0xA9BC, 0xA9BD); (0xA9CF, 0xA9CF); (0xA9E5, 0xA9E6);
   (0xAA29, 0xAA2E); (0xAA31, 0xAA32); (0xAA35, 0xAA36); (0xAA43, 0xAA43); (0xAA4C, 0xAA4C);
   (0xAA70, 0xAA70); (0xAA7C, 0xAA7C); (0xAAB0, 0xAAB0); (0xAAB2, 0xAAB4); (0xAAB7, 0xAAB8);
   (0xAABE, 0xAABF); (0xAAC1, 0xAAC1); (0xAADD, 0xAADD); (0xAAEC, 0xAAED); (0xAAF3, 0xAAF4);
   (0xAAF6, 0xAAF6); (0xAB5B, 0xAB5F); (0xAB69, 0xAB6B); (0xABE5, 0xABE5); (0xABE8, 0xABE8);
   (0xABED, 0xABED); (0xFB1E, 0xFB1E); (0xFBB2, 0xFBC2); (0xFE00, 0xFE0F); (0xFE13, 0xFE13);
   (0xFE20, 0xFE2F); (0xFE52, 0xFE52); (0xFE55, 0xFE55); (0xFEFF, 0xFEFF); (0xFF07, 0xFF07);
   (0xFF0E, 0xFF0E); (0xFF1A, 0xFF1A); (0xFF3E, 0xFF3E); (0xFF40, 0xFF40); (0xFF70, 0xFF70);
   (0xFF9E, 0xFF9F); (0xFFE3, 0xFFE3); (0xFFF9, 0xFFFB); (0x101FD, 0x101FD); (0x102E0, 0x102E0);
   (0x10376, 0x1037A); (0x10780, 0x10785); (0x10787, 0x107B0); (0x107B2, 0x107BA); (0x10A01, 0x10A03);
   (0x10A05, 0x10A06); (0x10A0C, 0x10A0F); (0x10A38, 0x10A3A); (0x10A3F, 0x10A3F); (0x10AE5, 0x10AE6);
   (0x10D24, 0x10D27); (0x10EAB, 0x10EAC); (0x10F46, 0x10F50); (0x10F82, 0x10F85); (0x11001, 0x11001);
   (0x11038, 0x11046); (0x11070, 0x11070); (0x11073, 0x11074); (0x1107F, 0x11081); (0x110B3, 0x110B6);
   (0x110B9, 0x110BA); (0x110BD, 0x110BD); (0x110C2, 0x110C2); (0x110CD, 0x110CD); (0x11100, 0x11102);
   (0x11127, 0x1112B); (0x1112D, 0x11134); (0x11173, 0x11173); (0x11180, 0x11181); (0x111B6, 0x111BE);
   (0x111C9, 0x111CC); (0x111CF, 0x111CF); (0x1122F, 0x11231); (0x11234, 0x11234); (0x11236, 0x11237);
   (0x1123E, 0x1123E); (0x112DF, 0x112DF); (0x112E3, 0x112EA); (0x11300, 0x11301); (0x1133B, 0x1133C);
   (0x11340, 0x11340); (0x11366, 0x1136C); (0x11370, 0x11374); (0x11438, 0x1143F); (0x11442, 0x11444);
   (0x11446, 0x11446); (0x1145E, 0x1145E); (0x114B3, 0x114B8); (0x114BA, 0x114BA); (0x114BF, 0x114C0);
   (0x114C2, 0x114C3); (0x115B2, 0x115B5); (0x115BC, 0x115BD); (0x115BF, 0x115C0); (0x115DC, 0x115DD);
   (0x11633, 0x1163A); (0x1163D, 0x1163D); (0x1163F, 0x11640); (0x116AB, 0x116AB); (0x116AD, 0x116AD);
   (0x116B0, 0x116B5); (0x116B7, 0x116B7); (0x1171D, 0x1171F); (0x11722, 0x11725); (0x11727, 0x1172B);
   (0x1182F, 0x11837); (0x11839, 0x1183A); (0x1193B, 0x1193C); (0x1193E, 0x1193E); (0x11943, 0x11943);
   (0x119D4, 0x119D7); (0x119DA, 0x119DB); (0x119E0, 0x119E0); (0x11A01, 0x11A0A); (0x11A33, 0x11A38);
   (0x11A3B, 0x11A3E); (0x11A47, 0x11A47); (0x11A51, 0x11A56); (0x11A59, 0x11A5B); (0x11A8A, 0x11A96);
   (0x11A98, 0x11A99); (0x11C30, 0x11C36); (0x11C38, 0x11C3D); (0x11C3F, 0x11C3F); (0x11C92, 0x11CA7);
   (0x11CAA, 0x11CB0); (0x11CB2, 0x11CB3); (0x11CB5, 0x11CB6); (0x11D31, 0x11D36); (0x11D3A, 0x11D3A);
   (0x11D3C, 0x11D3D); (0x11D3F, 0x11D45); (0x11D47, 0x11D47); (0x11D90, 0x11D91); (0x11D95, 0x11D95);
   (0x11D97, 0x11D97); (0x11EF3, 0x11EF4); (0x13430, 0x13438); (0x16AF0, 0x16AF4); (0x16B30, 0x16B36);
   (0x16B40, 0x16B43); (0x16F4F, 0x16F4F); (0x16F8F, 0x16F9F); (0x16FE0, 0x16FE1); (0x16FE3, 0x16FE4);
   (0x1AFF0, 0x1AFF3); (0x1AFF5, 0x1AFFB); (0x1AFFD, 0x1AFFE); (0x1BC9D, 0x1BC9E); (0x1BCA0, 0x1BCA3);
   (0x1CF00, 0x1CF2D); (0x1CF30, 0x1CF46); (0x1D167, 0x1D169); (0x1D173, 0x1D182); (0x1D185, 0x1D18B);
   (0x1D1AA, 0x1D1AD); (0x1D242, 0x1D244); (0x1DA00, 0x1DA36); (0x1DA3B, 0x1DA6C); (0x1DA75, 0x1DA75);
   (0x1DA84, 0x1DA84); (0x1DA9B, 0x1DA9F); (0x1DAA1, 0x1DAAF); (0x1E000, 0x1E006); (0x1E008, 0x1E018);
   (0x1E01B, 0x1E021); (0x1E023, 0x1E024); (0x1E026, 0x1E02A); (0x1E130, 0x1E13D); (0x1E2AE, 0x1E2AE);
   (0x1E2EC, 0x1E2EF); (0x1E8D0, 0x1E8D6); (0x1E944, 0x1E94B); (0x1F3FB, 0x1F3FF); (0xE0001, 0xE0001);
   (0xE0020, 0xE007F); (0xE0100, 0xE01EF)]%N.

(** The cased code points that are not case-ignorable. *)
Definition cased : list (N * N) :=
  [(0x41, 0x5A); (0x61, 0x7A); (0xAA, 0xAA); (0xB5, 0xB5); (0xBA, 0xBA);
   (0xC0, 0xD6); (0xD8, 0xF6); (0xF8, 0x1BA); (0x1BC, 0x1BF); (0x1C4, 0x293);
   (0x295, 0x2AF); (0x370, 0x373); (0x376, 0x377); (0x37B, 0x37D); (0x37F, 0x37F);
   (0x386, 0x386); (0x388, 0x38A); (0x38C, 0x38C); (0x38E, 0x3A1); (0x3A3, 0x3F5);
   (0x3F7, 0x481); (0x48A, 0x52F); (0x531, 0x556); (0x560, 0x588); (0x10A0, 0x10C5);
   (0x10C7, 0x10C7); (0x10CD, 0x10CD); (0x10D0, 0x10FA); (0x10FD, 0x10FF); (0x13A0, 0x13F5);
   (0x13F8, 0x13FD); (0x1C80, 0x1C88); (0x1C90, 0x1CBA); (0x1CBD, 0x1CBF); (0x1D00, 0x1D2B);
   (0x1D6B, 0x1D77); (0x1D79, 0x1D9A); (0x1E00, 0x1F15); (0x1F18, 0x1F1D); (0x1F20, 0x1F45);
   (0x1F48, 0x1F4D); (0x1F50, 0x1F57); (0x1F59, 0x1F59); (0x1F5B, 0x1F5B); (0x1F5D, 0x1F5D);
   (0x1F5F, 0x1F7D); (0x1F80, 0x1FB4); (0x1FB6, 0x1FBC); (0x1FBE, 0x1FBE); (0x1FC2, 0x1FC4);
   (0x1FC6, 0x1FCC); (0x1FD0, 0x1FD3); (0x1FD6, 0x1FDB); (0x1FE0, 0x1FEC); (0x1FF2, 0x1FF4);
   (0x1FF6, 0x1FFC); (0x2102, 0x2102); (0x2107, 0x2107); (0x210A, 0x2113); (0x2115, 0x2115);
   (0x2119, 0x211D); (0x2124, 0x2124); (0x2126, 0x2126); (0x2128, 0x2128); (0x212A, 0x212D);
   (0x212F, 0x2134); (0x2139, 0x2139); (0x213C, 0x213F); (0x2145, 0x2149); (0x214E, 0x214E);
   (0x2160, 0x217F); (0x2183, 0x2184); (0x24B6, 0x24E9); (0x2C00, 0x2C7B); (0x2C7E, 0x2CE4);
   (0x2CEB, 0x2CEE); (0x2CF2, 0x2CF3); (0x2D00, 0x2D25); (0x2D27, 0x2D27); (0x2D2D, 0x2D2D);
   (0xA640, 0xA66D); (0xA680, 0xA69B); (0xA722, 0xA76F); (0xA771, 0xA787); (0xA78B, 0xA78E);
   (0xA790, 0xA7CA); (0xA7D0, 0xA7D1); (0xA7D3, 0xA7D3); (0xA7D5, 0xA7D9); (0xA7F5, 0xA7F6);
   (0xA7FA, 0xA7FA); (0xAB30, 0xAB5A); (0xAB60, 0xAB68); (0xAB70, 0xABBF); (0xFB00, 0xFB06);
   (0xFB13, 0xFB17); (0xFF21, 0xFF3A); (0xFF41, 0xFF5A); (0x10400, 0x1044F); (0x104B0, 0x104D3);
   (0x104D8, 0x104FB); (0x10570, 0x1057A); (0x1057C, 0x1058A); (0x1058C, 0x10592); (0x10594, 0x10595);
   (0x10597, 0x105A1); (0x105A3, 0x105B1); (0x105B3, 0x105B9); (0x105BB, 0x105BC); (0x10C80, 0x10CB2);
   (0x10CC0, 0x10CF2); (0x118A0, 0x118DF); (0x16E40, 0x16E7F); (0x1D400, 0x1D454); (0x1D456, 0x1D49C);
   (0x1D49E, 0x1D49F); (0x1D4A2, 0x1D4A2); (0x1D4A5, 0x1D4A6); (0x1D4A9, 0x1D4AC); (0x1D4AE, 0x1D4B9);
   (0x1D4BB, 0x1D4BB); (0x1D4BD, 0x1D4C3); (0x1D4C5, 0x1D505); (0x1D507, 0x1D50A); (0x1D50D, 0x1D514);
   (0x1D516, 0x1D51C); (0x1D51E, 0x1D539); (0x1D53B, 0x1D53E); (0x1D540, 0x1D544); (0x1D546, 0x1D546);
   (0x1D54A, 0x1D550); (0x1D552, 0x1D6A5); (0x1D6A8, 0x1D6C0); (0x1D6C2, 0x1D6DA); (0x1D6DC, 0x1D6FA);
   (0x1D6FC, 0x1D714); (0x1D716, 0x1D734); (0x1D736, 0x1D74E); (0x1D750, 0x1D76E); (0x1D770, 0x1D788);
   (0x1D78A, 0x1D7A8); (0x1D7AA, 0x1D7C2); (0x1D7C4, 0x1D7CB); (0x1DF00, 0x1DF09); (0x1DF0B, 0x1DF1E);
   (0x1E900, 0x1E943); (0x1F130, 0x1F149); (0x1F150, 0x1F169); (0x1F170, 0x1F189)]%N.

(** The code points [str.isprintable] holds of. *)
Definition printable : list (N * N) :=
  [(0x20, 0x7E); (0xA1, 0xAC); (0xAE, 0x377); (0x37A, 0x37F); (0x384, 0x38A);
   (0x38C, 0x38C); (0x38E, 0x3A1); (0x3A3, 0x52F); (0x531, 0x556); (0x559, 0x58A);
   (0x58D, 0x58F); (0x591, 0x5C7); (0x5D0, 0x5EA); (0x5EF, 0x5F4); (0x606, 0x61B);
   (0x61D, 0x6DC); (0x6DE, 0x70D); (0x710, 0x74A); (0x74D, 0x7B1); (0x7C0, 0x7FA);
   (0x7FD, 0x82D); (0x830, 0x83E); (0x840, 0x85B); (0x85E, 0x85E); (0x860, 0x86A);
   (0x870, 0x88E); (0x898, 0x8E1); (0x8E3, 0x983); (0x985, 0x98C); (0x98F, 0x990);
   (0x993, 0x9A8); (0x9AA, 0x9B0); (0x9B2, 0x9B2); (0x9B6, 0x9B9); (0x9BC, 0x9C4);
   (0x9C7, 0x9C8); (0x9CB, 0x9CE); (0x9D7, 0x9D7); (0x9DC, 0x9DD); (0x9DF, 0x9E3);
   (0x9E6, 0x9FE); (0xA01, 0xA03); (0xA05, 0xA0A); (0xA0F, 0xA10); (0xA13, 0xA28);
   (0xA2A, 0xA30); (0xA32, 0xA33); (0xA35, 0xA36); (0xA38, 0xA39); (0xA3C, 0xA3C);
   (0xA3E, 0xA42); (0xA47, 0xA48); (0xA4B, 0xA4D); (0xA51, 0xA51); (0xA59, 0xA5C);
   (0xA5E, 0xA5E); (0xA66, 0xA76); (0xA81, 0xA83); (0xA85, 0xA8D); (0xA8F, 0xA91);
   (0xA93, 0xAA8); (0xAAA, 0xAB0); (0xAB2, 0xAB3); (0xAB5, 0xAB9); (0xABC, 0xAC5);
   (0xAC7, 0xAC9); (0xACB, 0xACD); (0xAD0, 0xAD0); (0xAE0, 0xAE3); (0xAE6, 0xAF1);
   (0xAF9, 0xAFF); (0xB01, 0xB03); (0xB05, 0xB0C); (0xB0F, 0xB10); (0xB13, 0xB28);
   (0xB2A, 0xB30); (0xB32, 0xB33); (0xB35, 0xB39); (0xB3C, 0xB44); (0xB47, 0xB48);
   (0xB4B, 0xB4D); (0xB55, 0xB57); (0xB5C, 0xB5D); (0xB5F, 0xB63); (0xB66, 0xB77);
   (0xB82, 0xB83); (0xB85, 0xB8A); (0xB8E, 0xB90); (0xB92, 0xB95); (0xB99, 0xB9A);
   (0xB9C, 0xB9C); (0xB9E, 0xB9F); (0xBA3, 0xBA4); (0xBA8, 0xBAA); (0xBAE, 0xBB9);
   (0xBBE, 0xBC2); (0xBC6, 0xBC8); (0xBCA, 0xBCD); (0xBD0, 0xBD0); (0xBD7, 0xBD7);
   (0xBE6, 0xBFA); (0xC00, 0xC0C); (0xC0E, 0xC10); (0xC12, 0xC28); (0xC2A, 0xC39);
   (0xC3C, 0xC44); (0xC46, 0xC48); (0xC4A, 0xC4D); (0xC55, 0xC56); (0xC58, 0xC5A);
   (0xC5D, 0xC5D); (0xC60, 0xC63); (0xC66, 0xC6F); (0xC77, 0xC8C); (0xC8E, 0xC90);
   (0xC92, 0xCA8); (0xCAA, 0xCB3); (0xCB5, 0xCB9); (0xCBC, 0xCC4); (0xCC6, 0xCC8);
   (0xCCA, 0xCCD); (0xCD5, 0xCD6); (0xCDD, 0xCDE); (0xCE0, 0xCE3); (0xCE6, 0xCEF);
   (0xCF1, 0xCF2); (0xD00, 0xD0C); (0xD0E, 0xD10); (0xD12, 0xD44); (0xD46, 0xD48);
   (0xD4A, 0xD4F); (0xD54, 0xD63); (0xD66, 0xD7F); (0xD81, 0xD83); (0xD85, 0xD96);
   (0xD9A, 0xDB1); (0xDB3, 0xDBB); (0xDBD, 0xDBD); (0xDC0, 0xDC6); (0xDCA, 0xDCA);
   (0xDCF, 0xDD4); (0xDD6, 0xDD6); (0xDD8, 0xDDF); (0xDE6, 0xDEF); (0xDF2, 0xDF4);
   (0xE01, 0xE3A); (0xE3F, 0xE5B); (0xE81, 0xE82); (0xE84, 0xE84); (0xE86, 0xE8A);
   (0xE8C, 0xEA3); (0xEA5, 0xEA5); (0xEA7, 0xEBD); (0xEC0, 0xEC4); (0xEC6, 0xEC6);
   (0xEC8, 0xECD); (0xED0, 0xED9); (0xEDC, 0xEDF); (0xF00, 0xF47); (0xF49, 0xF6C);
   (0xF71, 0xF97); (0xF99, 0xFBC); (0xFBE, 0xFCC); (0xFCE, 0xFDA); (0x1000, 0x10C5);
   (0x10C7, 0x10C7); (0x10CD, 0x10CD); (0x10D0, 0x1248); (0x124A, 0x124D); (0x1250, 0x1256);
   (0x1258, 0x1258); (0x125A, 0x125D); (0x1260, 0x1288); (0x128A, 0x128D); (0x1290, 0x12B0);
   (0x12B2, 0x12B5); (0x12B8, 0x12BE); (0x12C0, 0x12C0); (0x12C2, 0x12C5); (0x12C8, 0x12D6);
   (0x12D8, 0x1310); (0x1312, 0x1315); (0x1318, 0x135A); (0x135D, 0x137C); (0x1380, 0x1399);
   (0x13A0, 0x13F5); (0x13F8, 0x13FD); (0x1400, 0x167F); (0x1681, 0x169C); (0x16A0, 0x16F8);
   (0x1700, 0x1715); (0x171F, 0x1736); (0x1740, 0x1753); (0x1760, 0x176C); (0x176E, 0x1770);
   (0x1772, 0x1773); (0x1780, 0x17DD); (0x17E0, 0x17E9); (0x17F0, 0x17F9); (0x1800, 0x180D);
   (0x180F, 0x1819); (0x1820, 0x1878); (0x1880, 0x18AA); (0x18B0, 0x18F5); (0x1900, 0x191E);
   (0x1920, 0x192B); (0x1930, 0x193B); (0x1940, 0x1940); (0x1944, 0x196D); (0x1970, 0x1974);
   (0x1980, 0x19AB); (0x19B0, 0x19C9); (0x19D0, 0x19DA); (0x19DE, 0x1A1B); (0x1A1E, 0x1A5E);
   (0x1A60, 0x1A7C); (0x1A7F, 0x1A89); (0x1A90, 0x1A99); (0x1AA0, 0x1AAD); (0x1AB0, 0x1ACE);
   (0x1B00, 0x1B4C); (0x1B50, 0x1B7E); (0x1B80, 0x1BF3); (0x1BFC, 0x1C37); (0x1C3B, 0x1C49);
   (0x1C4D, 0x1C88); (0x1C90, 0x1CBA); (0x1CBD, 0x1CC7); (0x1CD0, 0x1CFA); (0x1D00, 0x1F15);
   (0x1F18, 0x1F1D); (0x1F20, 0x1F45); (0x1F48, 0x1F4D); (0x1F50, 0x1F57); (0x1F59, 0x1F59);
   (0x1F5B, 0x1F5B); (0x1F5D, 0x1F5D); (0x1F5F, 0x1F7D); (0x1F80, 0x1FB4); (0x1FB6, 0x1FC4);
   (0x1FC6, 0x1FD3); (0x1FD6, 0x1FDB); (0x1FDD, 0x1FEF); (0x1FF2, 0x1FF4); (0x1FF6, 0x1FFE);
   (0x2010, 0x2027); (0x2030, 0x205E); (0x2070, 0x2071); (0x2074, 0x208E); (0x2090, 0x209C);
   (0x20A0, 0x20C0); (0x20D0, 0x20F0); (0x2100, 0x218B); (0x2190, 0x2426); (0x2440, 0x244A);
   (0x2460, 0x2B73); (0x2B76, 0x2B95); (0x2B97, 0x2CF3); (0x2CF9, 0x2D25); (0x2D27, 0x2D27);
   (0x2D2D, 0x2D2D); (0x2D30, 0x2D67); (0x2D6F, 0x2D70); (0x2D7F, 0x2D96); (0x2DA0, 0x2DA6);
   (0x2DA8, 0x2DAE); (0x2DB0, 0x2DB6); (0x2DB8, 0x2DBE); (0x2DC0, 0x2DC6); (0x2DC8, 0x2DCE);
   (0x2DD0, 0x2DD6); (0x2DD8, 0x2DDE); (0x2DE0, 0x2E5D); (0x2E80, 0x2E99); (0x2E9B, 0x2EF3);
   (0x2F00, 0x2FD5); (0x2FF0, 0x2FFB); (0x3001, 0x303F); (0x3041, 0x3096); (0x3099, 0x30FF);
   (0x3105, 0x312F); (0x3131, 0x318E); (0x3190, 0x31E3); (0x31F0, 0x321E); (0x3220, 0xA48C);
   (0xA490, 0xA4C6); (0xA4D0, 0xA62B); (0xA640, 0xA6F7); (0xA700, 0xA7CA); (0xA7D0, 0xA7D1);
   (0xA7D3, 0xA7D3); (0xA7D5, 0xA7D9); (0xA7F2, 0xA82C); (0xA830, 0xA839); (0xA840, 0xA877);
   (0xA880, 0xA8C5); (0xA8CE, 0xA8D9); (0xA8E0, 0xA953); (0xA95F, 0xA97C); (0xA980, 0xA9CD);
   (0xA9CF, 0xA9D9); (0xA9DE, 0xA9FE); (0xAA00, 0xAA36); (0xAA40, 0xAA4D); (0xAA50, 0xAA59);
   (0xAA5C, 0xAAC2); (0xAADB, 0xAAF6); (0xAB01, 0xAB06); (0xAB09, 0xAB0E); (0xAB11, 0xAB16);
   (0xAB20, 0xAB26); (0xAB28, 0xAB2E); (0xAB30, 0xAB6B); (0xAB70, 0xABED); (0xABF0, 0xABF9);
   (0xAC00, 0xD7A3); (0xD7B0, 0xD7C6); (0xD7CB, 0xD7FB); (0xF900, 0xFA6D); (0xFA70, 0xFAD9);
   (0xFB00, 0xFB06); (0xFB13, 0xFB17); (0xFB1D, 0xFB36); (0xFB38, 0xFB3C); (0xFB3E, 0xFB3E);
   (0xFB40, 0xFB41); (0xFB43, 0xFB44); (0xFB46, 0xFBC2); (0xFBD3, 0xFD8F); (0xFD92, 0xFDC7);
   (0xFDCF, 0xFDCF); (0xFDF0, 0xFE19); (0xFE20, 0xFE52); (0xFE54, 0xFE66); (0xFE68, 0xFE6B);
   (0xFE70, 0xFE74); (0xFE76, 0xFEFC); (0xFF01, 0xFFBE); (0xFFC2, 0xFFC7); (0xFFCA, 0xFFCF);
   (0xFFD2, 0xFFD7); (0xFFDA, 0xFFDC); (0xFFE0, 0xFFE6); (0xFFE8, 0xFFEE); (0xFFFC, 0xFFFD);
   (0x10000, 0x1000B); (0x1000D, 0x10026); (0x10028, 0x1003A); (0x1003C, 0x1003D); (0x1003F, 0x1004D);
   (0x10050, 0x1005D); (0x10080, 0x100FA); (0x10100, 0x10102); (0x10107, 0x10133); (0x10137, 0x1018E);
   (0x10190, 0x1019C); (0x101A0, 0x101A0); (0x101D0, 0x101FD); (0x10280, 0x1029C); (0x102A0, 0x102D0);
   (0x102E0, 0x102FB); (0x10300, 0x10323); (0x1032D, 0x1034A); (0x10350, 0x1037A); (0x10380, 0x1039D);
   (0x1039F, 0x103C3); (0x103C8, 0x103D5); (0x10400, 0x1049D); (0x104A0, 0x104A9); (0x104B0, 0x104D3);
   (0x104D8, 0x104FB); (0x10500, 0x10527); (0x10530, 0x10563); (0x1056F, 0x1057A); (0x1057C, 0x1058A);
   (0x1058C, 0x10592); (0x10594, 0x10595); (0x10597, 0x105A1); (0x105A3, 0x105B1); (0x105B3, 0x105B9);
   (0x105BB, 0x105BC); (0x10600, 0x10736); (0x10740, 0x10755); (0x10760, 0x10767); (0x10780, 0x10785);
   (0x10787, 0x107B0); (0x107B2, 0x107BA); (0x10800, 0x10805); (0x10808, 0x10808); (0x1080A, 0x10835);
   (0x10837, 0x10838); (0x1083C, 0x1083C); (0x1083F, 0x10855); (0x10857, 0x1089E); (0x108A7, 0x108AF);
   (0x108E0, 0x108F2); (0x108F4, 0x108F5); (0x108FB, 0x1091B); (0x1091F, 0x10939); (0x1093F, 0x1093F);
   (0x10980, 0x109B7); (0x109BC, 0x109CF); (0x109D2, 0x10A03); (0x10A05, 0x10A06); (0x10A0C, 0x10A13);
   (0x10A15, 0x10A17); (0x10A19, 0x10A35); (0x10A38, 0x10A3A); (0x10A3F, 0x10A48); (0x10A50, 0x10A58);
   (0x10A60, 0x10A9F); (0x10AC0, 0x10AE6); (0x10AEB, 0x10AF6); (0x10B00, 0x10B35); (0x10B39, 0x10B55);
   (0x10B58, 0x10B72); (0x10B78, 0x10B91); (0x10B99, 0x10B9C); (0x10BA9, 0x10BAF); (0x10C00, 0x10C48);
   (0x10C80, 0x10CB2); (0x10CC0, 0x10CF2); (0x10CFA, 0x10D27); (0x10D30, 0x10D39); (0x10E60, 0x10E7E);
   (0x10E80, 0x10EA9); (0x10EAB, 0x10EAD); (0x10EB0, 0x10EB1); (0x10F00, 0x10F27); (0x10F30, 0x10F59);
   (0x10F70, 0x10F89); (0x10FB0, 0x10FCB); (0x10FE0, 0x10FF6); (0x11000, 0x1104D); (0x11052, 0x11075);
   (0x1107F, 0x110BC); (0x110BE, 0x110C2); (0x110D0, 0x110E8); (0x110F0, 0x110F9); (0x11100, 0x11134);
   (0x11136, 0x11147); (0x11150, 0x11176); (0x11180, 0x111DF); (0x111E1, 0x111F4); (0x11200, 0x11211);
   (0x11213, 0x1123E); (0x11280, 0x11286); (0x11288, 0x11288); (0x1128A, 0x1128D); (0x1128F, 0x1129D);
   (0x1129F, 0x112A9); (0x112B0, 0x112EA); (0x112F0, 0x112F9); (0x11300, 0x11303); (0x11305, 0x1130C);
   (0x1130F, 0x11310); (0x11313, 0x11328); (0x1132A, 0x11330); (0x11332, 0x11333); (0x11335, 0x11339);
   (0x1133B, 0x11344); (0x11347, 0x11348); (0x1134B, 0x1134D); (0x11350, 0x11350); (0x11357, 0x11357);
   (0x1135D, 0x11363); (0x11366, 0x1136C); (0x11370, 0x11374); (0x11400, 0x1145B); (0x1145D, 0x11461);
   (0x11480, 0x114C7); (0x114D0, 0x114D9); (0x11580, 0x115B5); (0x115B8, 0x115DD); (0x11600, 0x11644);
   (0x11650, 0x11659); (0x11660, 0x1166C); (0x11680, 0x116B9); (0x116C0, 0x116C9); (0x11700, 0x1171A);
   (0x1171D, 0x1172B); (0x11730, 0x11746); (0x11800, 0x1183B); (0x118A0, 0x118F2); (0x118FF, 0x11906);
   (0x11909, 0x11909); (0x1190C, 0x11913); (0x11915, 0x11916); (0x11918, 0x11935); (0x11937, 0x11938);
   (0x1193B, 0x11946); (0x11950, 0x11959); (0x119A0, 0x119A7); (0x119AA, 0x119D7); (0x119DA, 0x119E4);
   (0x11A00, 0x11A47); (0x11A50, 0x11AA2); (0x11AB0, 0x11AF8); (0x11C00, 0x11C08); (0x11C0A, 0x11C36);
   (0x11C38, 0x11C45); (0x11C50, 0x11C6C); (0x11C70, 0x11C8F); (0x11C92, 0x11CA7); (0x11CA9, 0x11CB6);
   (0x11D00, 0x11D06); (0x11D08, 0x11D09); (0x11D0B, 0x11D36); (0x11D3A, 0x11D3A); (0x11D3C, 0x11D3D);
   (0x11D3F, 0x11D47); (0x11D50, 0x11D59); (0x11D60, 0x11D65); (0x11D67, 0x11D68); (0x11D6A, 0x11D8E);
   (0x11D90, 0x11D91); (0x11D93, 0x11D98); (0x11DA0, 0x11DA9); (0x11EE0, 0x11EF8); (0x11FB0, 0x11FB0);
   (0x11FC0, 0x11FF1); (0x11FFF, 0x12399); (0x12400, 0x1246E); (0x12470, 0x12474); (0x12480, 0x12543);
   (0x12F90, 0x12FF2); (0x13000, 0x1342E); (0x14400, 0x14646); (0x16800, 0x16A38); (0x16A40, 0x16A5E);
   (0x16A60, 0x16A69); (0x16A6E, 0x16ABE); (0x16AC0, 0x16AC9); (0x16AD0, 0x16AED); (0x16AF0, 0x16AF5);
   (0x16B00, 0x16B45); (0x16B50, 0x16B59); (0x16B5B, 0x16B61); (0x16B63, 0x16B77); (0x16B7D, 0x16B8F);
   (0x16E40, 0x16E9A); (0x16F00, 0x16F4A); (0x16F4F, 0x16F87); (0x16F8F, 0x16F9F); (0x16FE0, 0x16FE4);
   (0x16FF0, 0x16FF1); (0x17000, 0x187F7); (0x18800, 0x18CD5); (0x18D00, 0x18D08); (0x1AFF0, 0x1AFF3);
   (0x1AFF5, 0x1AFFB); (0x1AFFD, 0x1AFFE); (0x1B000, 0x1B122); (0x1B150, 0x1B152); (0x1B164, 0x1B167);
   (0x1B170, 0x1B2FB); (0x1BC00, 0x1BC6A); (0x1BC70, 0x1BC7C); (0x1BC80, 0x1BC88); (0x1BC90, 0x1BC99);
   (0x1BC9C, 0x1BC9F); (0x1CF00, 0x1CF2D); (0x1CF30, 0x1CF46); (0x1CF50, 0x1CFC3); (0x1D000, 0x1D0F5);
   (0x1D100, 0x1D126); (0x1D129, 0x1D172); (0x1D17B, 0x1D1EA); (0x1D200, 0x1D245); (0x1D2E0, 0x1D2F3);
   (0x1D300, 0x1D356); (0x1D360, 0x1D378); (0x1D400, 0x1D454); (0x1D456, 0x1D49C); (0x1D49E, 0x1D49F);
   (0x1D4A2, 0x1D4A2); (0x1D4A5, 0x1D4A6); (0x1D4A9, 0x1D4AC); (0x1D4AE, 0x1D4B9); (0x1D4BB, 0x1D4BB);
   (0x1D4BD, 0x1D4C3); (0x1D4C5, 0x1D505); (0x1D507, 0x1D50A); (0x1D50D, 0x1D514); (0x1D516, 0x1D51C);
   (0x1D51E, 0x1D539); (0x1D53B, 0x1D53E); (0x1D540, 0x1D544); (0x1D546, 0x1D546); (0x1D54A, 0x1D550);
   (0x1D552, 0x1D6A5); (0x1D6A8, 0x1D7CB); (0x1D7CE, 0x1DA8B); (0x1DA9B, 0x1DA9F); (0x1DAA1, 0x1DAAF);
   (0x1DF00, 0x1DF1E); (0x1E000, 0x1E006); (0x1E008, 0x1E018); (0x1E01B, 0x1E021); (0x1E023, 0x1E024);
   (0x1E026, 0x1E02A); (0x1E100, 0x1E12C); (0x1E130, 0x1E13D); (0x1E140, 0x1E149); (0x1E14E, 0x1E14F);
   (0x1E290, 0x1E2AE); (0x1E2C0, 0x1E2F9); (0x1E2FF, 0x1E2FF); (0x1E7E0, 0x1E7E6); (0x1E7E8, 0x1E7EB);
   (0x1E7ED, 0x1E7EE); (0x1E7F0, 0x1E7FE); (0x1E800, 0x1E8C4); (0x1E8C7, 0x1E8D6); (0x1E900, 0x1E94B);
   (0x1E950, 0x1E959); (0x1E95E, 0x1E95F); (0x1EC71, 0x1ECB4); (0x1ED01, 0x1ED3D); (0x1EE00, 0x1EE03);
   (0x1EE05, 0x1EE1F); (0x1EE21, 0x1EE22); (0x1EE24, 0x1EE24); (0x1EE27, 0x1EE27); (0x1EE29, 0x1EE32);
   (0x1EE34, 0x1EE37); (0x1EE39, 0x1EE39); (0x1EE3B, 0x1EE3B); (0x1EE42, 0x1EE42); (0x1EE47, 0x1EE47);
   (0x1EE49, 0x1EE49); (0x1EE4B, 0x1EE4B); (0x1EE4D, 0x1EE4F); (0x1EE51, 0x1EE52); (0x1EE54, 0x1EE54);
   (0x1EE57, 0x1EE57); (0x1EE59, 0x1EE59); (0x1EE5B, 0x1EE5B); (0x1EE5D, 0x1EE5D); (0x1EE5F, 0x1EE5F);
   (0x1EE61, 0x1EE62); (0x1EE64, 0x1EE64); (0x1EE67, 0x1EE6A); (0x1EE6C, 0x1EE72); (0x1EE74, 0x1EE77);
   (0x1EE79, 0x1EE7C); (0x1EE7E, 0x1EE7E); (0x1EE80, 0x1EE89); (0x1EE8B, 0x1EE9B); (0x1EEA1, 0x1EEA3);
   (0x1EEA5, 0x1EEA9); (0x1EEAB, 0x1EEBB); (0x1EEF0, 0x1EEF1); (0x1F000, 0x1F02B); (0x1F030, 0x1F093);
   (0x1F0A0, 0x1F0AE); (0x1F0B1, 0x1F0BF); (0x1F0C1, 0x1F0CF); (0x1F0D1, 0x1F0F5); (0x1F100, 0x1F1AD);
   (0x1F1E6, 0x1F202); (0x1F210, 0x1F23B); (0x1F240, 0x1F248); (0x1F250, 0x1F251); (0x1F260, 0x1F265);
   (0x1F300, 0x1F6D7); (0x1F6DD, 0x1F6EC); (0x1F6F0, 0x1F6FC); (0x1F700, 0x1F773); (0x1F780, 0x1F7D8);
   (0x1F7E0, 0x1F7EB); (0x1F7F0, 0x1F7F0); (0x1F800, 0x1F80B); (0x1F810, 0x1F847); (0x1F850, 0x1F859);
   (0x1F860, 0x1F887); (0x1F890, 0x1F8AD); (0x1F8B0, 0x1F8B1); (0x1F900, 0x1FA53); (0x1FA60, 0x1FA6D);
   (0x1FA70, 0x1FA74); (0x1FA78, 0x1FA7C); (0x1FA80, 0x1FA86); (0x1FA90, 0x1FAAC); (0x1FAB0, 0x1FABA);
   (0x1FAC0, 0x1FAC5); (0x1FAD0, 0x1FAD9); (0x1FAE0, 0x1FAE7); (0x1FAF0, 0x1FAF6); (0x1FB00, 0x1FB92);
   (0x1FB94, 0x1FBCA); (0x1FBF0, 0x1FBF9); (0x20000, 0x2A6DF); (0x2A700, 0x2B738); (0x2B740, 0x2B81D);
   (0x2B820, 0x2CEA1); (0x2CEB0, 0x2EBE0); (0x2F800, 0x2FA1D); (0x30000, 0x3134A); (0xE0100, 0xE01EF)]%N.

(** *** The Unicode-aware methods of [str] *)

(** [c.isspace()], which is also the class [\s] of [re]. *)
Definition is_space (cp : N) : bool := in_ranges whitespace cp.

Fixpoint lstrip_points (l : list N) : list N :=
  match l with
  | [] => []
  | cp :: l' => if is_space cp then lstrip_points l' else l
  end.

Fixpoint rstrip_points (l : list N) : list N :=
  match l with
  | [] => []
  | cp :: l' =>
      match rstrip_points l' with
      | [] => if is_space cp then [] else [cp]
      | r => cp :: r
      end
  end.

(** [s.strip()] *)
Definition strip (s : string) : string :=
  encode (rstrip_points (lstrip_points (code_points s))).

(** The image of a code point under a table of simple case mappings. *)
Definition simple_case (table : list (N * N * N * N)) (cp : N) : option N :=
  match
    find (λ g, let '(first, last, stride, _) := g in
               in_range first last cp && ((cp - first) mod stride =? 0)%N) table
  with
  | Some (first, _, _, image) => Some (image + (cp - first))%N
  | None => None
  end.

Definition full_case (special : list (N * list N)) (table : list (N * N * N * N))
    (cp : N) : list N :=
  match find (λ e, (e.1 =? cp)%N) special with
  | Some (_, image) => image
  | None => [default cp (simple_case table cp)]
  end.

(** [s.upper()] *)
Definition upper_point : N → list N := full_case uppercase_special uppercase.

Definition upper (s : string) : string :=
  encode (flat_map upper_point (code_points s)).

(** [s.lower()]: a capital sigma becomes the final sigma after a cased
    letter that no cased letter follows, case-ignorable code points apart. *)
Definition lower_point : N → list N := full_case lowercase_special lowercase.

Fixpoint cased_ahead (l : list N) : bool :=
  match l with
  | [] => false
  | cp :: l' => if in_ranges case_ignorable cp then cased_ahead l'
                else in_ranges cased cp
  end.

Fixpoint lower_points (after_cased : bool) (l : list N) : list N :=
  match l with
  | [] => []
  | cp :: l' =>
      (if (cp =? 0x3A3)%N
       then [if after_cased && negb (cased_ahead l') then 0x3C2 else 0x3C3]%N
       else lower_point cp)
      ++ lower_points (if in_ranges case_ignorable cp then after_cased
                       else in_ranges cased cp) l'
  end.

Definition lower (s : string) : string :=
  encode (lower_points false (code_points s)).

(** [repr(s)] *)
Definition hex_digit (d : N) : N := if (d <? 10)%N then (48 + d)%N else (87 + d)%N.

Fixpoint hex_digits (width : nat) (n : N) : list N :=
  match width with
  | O => []
  | S k => hex_digits k (n / 16)%N ++ [hex_digit (n mod 16)%N]
  end.

Definition repr_point (quote cp : N) : list N :=
  if (cp =? quote)%N || (cp =? 92)%N then [92; cp]%N
  else if (cp =? 9)%N then [92; 116]%N
  else if (cp =? 10)%N then [92; 110]%N
  else if (cp =? 13)%N then [92; 114]%N
  else if in_ranges printable cp then [cp]
  else if (cp <=? 0xFF)%N then [92; 120]%N ++ hex_digits 2 cp
  else if (cp <=? 0xFFFF)%N then [92; 117]%N ++ hex_digits 4 cp
  else [92; 85]%N ++ hex_digits 8 cp.

Definition repr_points (l : list N) : list N :=
  let quote := if bool_decide (39%N ∈ l) && negb (bool_decide (34%N ∈ l))
               then 34%N else 39%N in
  quote :: flat_map (repr_point quote) l ++ [quote].

Definition repr (s : string) : string := encode (repr_points (code_points s)).

(** [s.replace(old, new)]: leftmost, non-overlapping occurrences.  [skip]
    counts the characters of a matched occurrence still to be dropped. *)
Fixpoint replace_go (old new : string) (skip : nat) (s : string) : string :=
  match s with
  | EmptyString => EmptyString
  | String c s' =>
      match skip with
      | S k => replace_go old new k s'
      | O => if startswith s old
             then new +:+ replace_go old new (String.length old - 1) s'
             else String c (replace_go old new 0 s')
      end
  end.

(** With an empty [old] the new text goes in front of every code point and
    at the end. *)
Definition intersperse_str (new s : string) : string :=
  foldr (λ cp t, new +:+ utf8 cp +:+ t) new (code_points s).

Definition replace (s old new : string) : string :=
  match old with
  | EmptyString => intersperse_str new s
  | _ => replace_go old new 0 s
  end.

(** [str(n)] for a non-negative [int]. *)
Definition str_of_nat (n : nat) : string :=
  NilEmpty.string_of_uint (Nat.to_uint n).

Fixpoint zeros (n : nat) : string :=
  match n with
  | O => EmptyString
  | S n' => String "0"%char (zeros n')
  end.

(** [f"{n:0{width}d}"] for a non-negative [int]. *)
Definition format_0d (width n : nat) : string :=
  let digits := str_of_nat n in
  zeros (width - String.length digits) +:+ digits.

(** Truthiness of a [str]. *)
Definition truthy (s : string) : bool := negb (String.eqb s EmptyString).

(** [re.sub('[' + re.escape(chars) + ']', '', s)]: drop every character of
    the class. *)
Fixpoint re_sub_class (chars : string) (s : string) : string :=
  match s with
  | EmptyString => EmptyString
  | String c s' =>
      if contains (String c EmptyString) chars
      then re_sub_class chars s'
      else String c (re_sub_class chars s')
  end.

End Py.

(** ** [os.path] on POSIX *)

Module posixpath.

(** [(p[:i], p[i:])] for [i = p.rfind('/') + 1]. *)
Fixpoint rsplit_sep (p : string) : string * string :=
  match p with
  | EmptyString => (EmptyString, EmptyString)
  | String c p' =>
      match rsplit_sep p' with
      | (EmptyString, t) =>
          if decide (c = "/"%char) then (String c EmptyString, t)
          else (EmptyString, String c t)
      | (h, t) => (String c h, t)
      end
  end.

Fixpoint rstrip_sep (s : string) : string :=
  match s with
  | EmptyString => EmptyString
  | String c s' =>
      match rstrip_sep s' with
      | EmptyString => if decide (c = "/"%char) then EmptyString else String c EmptyString
      | r => String c r
      end
  end.

Fixpoint all_char (a : ascii) (s : string) : bool :=
  match s with
  | EmptyString => true
  | String c s' => if decide (c = a) then all_char a s' else false
  end.

Definition dirname (p : string) : string :=
  let head := (rsplit_sep p).1 in
  if Py.truthy head && negb (all_char "/"%char head) then rstrip_sep head else head.

Definition basename (p : string) : string := (rsplit_sep p).2.

Definition join (a b : string) : string :=
  if Py.startswith b "/" then b
  else if negb (Py.truthy a) || Py.endswith a "/" then a +:+ b
  else a +:+ "/" +:+ b.

(** [(p[:i], p[i:])] for [i = p.rfind('.')], when there is a dot. *)
Fixpoint rsplit_dot (p : string) : option (string * string) :=
  match p with
  | EmptyString => None
  | String c p' =>
      match rsplit_dot p' with
      | Some (h, t) => Some (String c h, t)
      | None => if decide (c = "."%char) then Some (EmptyString, p) else None
      end
  end.

(** [os.path.splitext]: the extension starts at the last dot, provided
    that dot comes after the last separator and after a character of the
    file name that is not a dot. *)
Definition splitext (p : string) : string * string :=
  match rsplit_dot p with
  | Some (root, ext) =>
      if Py.contains "/" ext then (p, EmptyString)
      else if all_char "."%char (rsplit_sep root).2 then (p, EmptyString)
      else (root, ext)
  | None => (p, EmptyString)
  end.

End posixpath.

(** ** Exceptions and results *)

Inductive exn_class :=
  | AttributeError | KeyError | TypeError | UnicodeDecodeError
  | FileNotFoundError | FileExistsError | NotADirectoryError | IsADirectoryError
  | SameFileError | shutil_Error | InvalidDicomError | NotImplementedError
  | RuntimeError.

Global Instance exn_class_eq_dec : EqDecision exn_class.
Proof. solve_decision. Defined.

Record exn := Exception { exn_cls : exn_class; exn_msg : string }.

Inductive result (A : Type) : Type :=
  | Ok (a : A)
  | Raise (e : exn).
Global Arguments Ok {A} a.
Global Arguments Raise {A} e.

Global Instance result_ret : MRet result := λ A a, Ok a.
Global Instance result_bind : MBind result := λ A B f r,
  match r with Ok a => f a | Raise e => Raise e end.
Global Instance result_fmap : FMap result := λ A B f r,
  match r with Ok a => Ok (f a) | Raise e => Raise e end.

(** [try: body except cls: handler] on a pure computation. *)
Definition try_except_cls {A} (body : result A) (cls : exn_class)
    (handler : result A) : result A :=
  match body with
  | Ok a => Ok a
  | Raise e => if decide (exn_cls e = cls) then handler else Raise e
  end.

(** ** Datasets *)

(** What a dataset object holds under a name: a data element whose value is
    one string, a data element with several values, which is shown by [str]
    as [shown], or an attribute of the Python object itself ([filename],
    [pixel_array], a method), given by the text of its value or the
    exception that reading it raises. *)
Inductive attribute :=
  | Text (s : string)
  | Multi (items : list string) (shown : string)
  | Python (outcome : result string).

Abbreviation Dataset := (gmap string attribute).

(** A value the tools get from a dataset: a [str], a [MultiValue], or
    another object, given by what [str] makes of it. *)
Inductive value :=
  | Str (s : string)
  | MultiValue (items : list string) (shown : string)
  | Object (shown : string).

(** The keywords of data elements start with a capital letter and the
    attributes of the Python object do not: a name with a capital letter is
    looked up among the data elements only. *)
Definition element_keyword (name : string) : bool :=
  match name with
  | EmptyString => false
  | String c _ => Py.in_range 65 90 (Py.byte c)
  end.

Definition no_attribute (name : string) : exn :=
  Exception AttributeError
    ("'FileDataset' object has no attribute '" +:+ name +:+ "'").

(** [getattr(dataset, name)] *)
Definition getattr (dataset : Dataset) (name : string) : result value :=
  match dataset !! name with
  | Some (Text s) => Ok (Str s)
  | Some (Multi items shown) => Ok (MultiValue items shown)
  | Some (Python outcome) =>
      if element_keyword name then Raise (no_attribute name)
      else Object <$> outcome
  | None => Raise (no_attribute name)
  end.

(** [getattr(dataset, name, default)] *)
Definition getattr_default (dataset : Dataset) (name : string) (default : value)
    : result value :=
  try_except_cls (getattr dataset name) AttributeError (Ok default).

(** [str(v)] *)
Definition str (v : value) : string :=
  match v with
  | Str s => s
  | MultiValue _ shown => shown
  | Object shown => shown
  end.

(** Truthiness of a value: an empty [str] is false. *)
Definition truthy_value (v : value) : bool :=
  match v with
  | Str s => Py.truthy s
  | MultiValue items _ => negb (bool_decide (items = []))
  | Object _ => true
  end.

(** [s.split('\\')] *)
Fixpoint split_backslash (s : string) : list string :=
  match s with
  | EmptyString => [EmptyString]
  | String c s' =>
      if decide (c = "\"%char) then EmptyString :: split_backslash s'
      else match split_backslash s' with
           | [] => [String c EmptyString]
           | item :: rest => String c item :: rest
           end
  end.

(** [str] of a [MultiValue] of strings: the [repr] of each, in brackets. *)
Definition list_repr (items : list string) : string :=
  "[" +:+ foldr (λ item rest,
                   match rest with
                   | EmptyString => Py.repr item
                   | _ => Py.repr item +:+ ", " +:+ rest
                   end) EmptyString items +:+ "]".

(** The element that assigning a [str] to a keyword of a text element
    leaves: a backslash separates values. *)
Definition element_of_str (s : string) : attribute :=
  if Py.contains "\" s
  then Multi (split_backslash s) (list_repr (split_backslash s))
  else Text s.

(** [dataset.name = value], for the keyword of a text element. *)
Definition setattr (dataset : Dataset) (name value : string) : Dataset :=
  <[name := element_of_str value]> dataset.

(** [name in dataset] *)
Definition dataset_contains (name : string) (dataset : Dataset) : bool :=
  match dataset !! name with
  | Some (Text _) | Some (Multi _ _) => true
  | _ => false
  end.

(** What is read back of a written value: the writer pads a text value and
    the reader takes the blanks and NULs at its end away. *)
Fixpoint rstrip_padding (s : string) : string :=
  match s with
  | EmptyString => EmptyString
  | String c s' =>
      match rstrip_padding s' with
      | EmptyString =>
          if bool_decide (c = " "%char) || bool_decide (c = "000"%char)
          then EmptyString else String c EmptyString
      | r => String c r
      end
  end.

Definition stored_attribute (a : attribute) : attribute :=
  match a with
  | Text s => Text (rstrip_padding s)
  | Multi items shown =>
      let items' := rstrip_padding <$> items in
      Multi items' (if decide (items' = items) then shown else list_repr items')
  | Python outcome => Python outcome
  end.

(** The dataset that reading a file written from [dataset] yields. *)
Definition stored (dataset : Dataset) : Dataset := stored_attribute <$> dataset.

(** ** The world: file system, console and module globals *)

Inductive content :=
  | Dicom (ds : Dataset)     (* a DICOM file: [dcmread] yields [ds] *)
  | Loose (ds : Dataset)     (* no DICOM file, but the forced reader yields [ds] *)
  | Raw (bytes : string).    (* anything else *)

Inductive node :=
  | Dir
  | File (c : content).

Record World := mkWorld {
  fs : gmap string node;
  stdout : list string;
  stderr : list string;
  missing_ids : gset string;
  date_counter : gmap (string * string) nat;
  sequence_counter : gmap (string * string * string) nat;
  image_counter : gmap string nat
}.

Definition set_fs (f : gmap string node) (w : World) : World :=
  mkWorld f (stdout w) (stderr w) (missing_ids w)
          (date_counter w) (sequence_counter w) (image_counter w).
Definition set_stdout (o : list string) (w : World) : World :=
  mkWorld (fs w) o (stderr w) (missing_ids w)
          (date_counter w) (sequence_counter w) (image_counter w).
Definition set_stderr (o : list string) (w : World) : World :=
  mkWorld (fs w) (stdout w) o (missing_ids w)
          (date_counter w) (sequence_counter w) (image_counter w).
Definition set_missing_ids (s : gset string) (w : World) : World :=
  mkWorld (fs w) (stdout w) (stderr w) s
          (date_counter w) (sequence_counter w) (image_counter w).
Definition set_date_counter (d : gmap (string * string) nat) (w : World) : World :=
  mkWorld (fs w) (stdout w) (stderr w) (missing_ids w)
          d (sequence_counter w) (image_counter w).
Definition set_sequence_counter (d : gmap (string * string * string) nat)
    (w : World) : World :=
  mkWorld (fs w) (stdout w) (stderr w) (missing_ids w)
          (date_counter w) d (image_counter w).
Definition set_image_counter (d : gmap string nat) (w : World) : World :=
  mkWorld (fs w) (stdout w) (stderr w) (missing_ids w)
          (date_counter w) (sequence_counter w) d.

(** The state of a freshly started interpreter on the file system [f]. *)
Definition initial_world (f : gmap string node) : World :=
  mkWorld f [] [] ∅ ∅ ∅ ∅.

(** ** The monad of the scripts

    A computation receives the world and hands back the world it left
    behind together with its value or the exception it raised. *)

Definition M (A : Type) : Type := World → result A * World.

Global Instance M_ret : MRet M := λ A a w, (Ok a, w).
Global Instance M_bind : MBind M := λ A B f m w,
  match m w with
  | (Ok a, w') => f a w'
  | (Raise e, w') => (Raise e, w')
  end.

Global Instance M_fmap : FMap M := λ A B f m w,
  match m w with
  | (Ok a, w') => (Ok (f a), w')
  | (Raise e, w') => (Raise e, w')
  end.

Definition raise {A} (e : exn) : M A := λ w, (Raise e, w).
Definition lift {A} (r : result A) : M A := λ w, (r, w).
Definition get_world : M World := λ w, (Ok w, w).
Definition modify_world (f : World → World) : M unit := λ w, (Ok tt, f w).

(** [try: body except: handler] (also [except Exception as e]). *)
Definition try_except {A} (body : M A) (handler : exn → M A) : M A := λ w,
  match body w with
  | (Ok a, w') => (Ok a, w')
  | (Raise e, w') => handler e w'
  end.

Fixpoint for_each {A} (l : list A) (body : A → M unit) : M unit :=
  match l with
  | [] => mret tt
  | x :: l' => _ ← body x; for_each l' body
  end.

Fixpoint map_each {A B} (f : A → M B) (l : list A) : M (list B) :=
  match l with
  | [] => mret []
  | x :: l' => y ← f x; ys ← map_each f l'; mret (y :: ys)
  end.

(** [print(s)] *)
Definition print (s : string) : M unit :=
  modify_world (λ w, set_stdout (stdout w ++ [s]) w).

(** [logging.error(s)] with the format ['%(levelname)s: %(message)s']. *)
Definition logging_error (s : string) : M unit :=
  modify_world (λ w, set_stderr (stderr w ++ ["ERROR: " +:+ s]) w).

(** ** File-system and codec operations *)

Definition errno_msg (text path : string) : string :=
  text +:+ ": " +:+ Py.repr path.

(** [os.path.exists(p)] *)
Definition os_path_exists (p : string) : M bool :=
  w ← get_world; mret (bool_decide (is_Some (fs w !! p))).

(** The directories [os.makedirs(p)] has to find or create, outermost first:
    every prefix of [p] that stops in front of a separator, then [p]. *)
Fixpoint dir_prefixes_go (acc s : string) : list string :=
  let here := if Py.truthy acc && negb (Py.endswith acc "/") then [acc] else [] in
  match s with
  | EmptyString => here
  | String c s' =>
      (if decide (c = "/"%char) then here else [])
        ++ dir_prefixes_go (acc +:+ String c EmptyString) s'
  end.
Definition dir_prefixes (p : string) : list string := dir_prefixes_go EmptyString p.

(** Walk the directories down: an existing directory is passed, a missing
    one is created, and a regular file in the way makes [mkdir] fail, on the
    file itself when it is the last component and on its child otherwise. *)
Fixpoint makedirs_go (prefixes : list string) : M unit :=
  match prefixes with
  | [] => mret tt
  | q :: rest => λ w,
      match fs w !! q with
      | Some Dir => makedirs_go rest w
      | Some (File _) =>
          match rest with
          | [] =>
              (Raise (Exception FileExistsError
                        (errno_msg "[Errno 17] File exists" q)), w)
          | child :: _ =>
              (Raise (Exception NotADirectoryError
                        (errno_msg "[Errno 20] Not a directory" child)), w)
          end
      | None => makedirs_go rest (set_fs (<[q := Dir]> (fs w)) w)
      end
  end.

(** [os.makedirs(p, exist_ok=True)] *)
Definition os_makedirs (p : string) : M unit := λ w,
  match fs w !! p with
  | Some Dir => (Ok tt, w)
  | _ => makedirs_go (dir_prefixes p) w
  end.

Definition is_file (n : node) : bool :=
  match n with File _ => true | Dir => false end.

(** What opening a path that names nothing fails with: a regular file on
    the way makes it [ENOTDIR], anything else [ENOENT]. *)
Definition unresolved (p : string) (w : World) : exn :=
  if existsb (λ q, from_option is_file false (fs w !! q))
       (dir_prefixes (posixpath.dirname p))
  then Exception NotADirectoryError (errno_msg "[Errno 20] Not a directory" p)
  else Exception FileNotFoundError
         (errno_msg "[Errno 2] No such file or directory" p).

(** The directory a new file would lie in is there: the current directory,
    the root, or a directory of the file system. *)
Definition parent_is_directory (p : string) (w : World) : bool :=
  let parent := posixpath.dirname p in
  negb (Py.truthy parent) || posixpath.all_char "/"%char parent
  || match fs w !! parent with Some Dir => true | _ => false end.

(** [pydicom.dcmread(p)] *)
Definition dcmread (p : string) : M Dataset := λ w,
  match fs w !! p with
  | Some (File (Dicom ds)) => (Ok ds, w)
  | Some (File _) =>
      (Raise (Exception InvalidDicomError
                "File is missing DICOM File Meta Information header or the 'DICM' prefix is missing from the header. Use force=True to force reading."), w)
  | Some Dir =>
      (Raise (Exception IsADirectoryError (errno_msg "[Errno 21] Is a directory" p)), w)
  | None => (Raise (unresolved p w), w)
  end.

(** [pydicom.dcmread(p, force=True)]: the dataset, and whether the file is
    a DICOM file.  What the forced reader makes of other bytes is up to
    pydicom. *)
Definition dcmread_force (forced_read : string → result Dataset) (p : string)
    : M (bool * Dataset) := λ w,
  match fs w !! p with
  | Some (File (Dicom ds)) => (Ok (true, ds), w)
  | Some (File (Loose ds)) => (Ok (false, ds), w)
  | Some (File (Raw bytes)) => (pair false <$> forced_read bytes, w)
  | Some Dir =>
      (Raise (Exception IsADirectoryError (errno_msg "[Errno 21] Is a directory" p)), w)
  | None => (Raise (unresolved p w), w)
  end.

(** [dataset.save_as(p)] for a dataset read from a DICOM file
    ([is_dicom]) or by the forced reader from another one: the file is
    written as it was found, with or without the DICOM preamble.  The
    tools write to a file that is there or into the directory they have
    just made: the directory of [p] is taken to be there. *)
Definition save_as_like (is_dicom : bool) (dataset : Dataset) (p : string)
    : M unit := λ w,
  match fs w !! p with
  | Some Dir =>
      (Raise (Exception IsADirectoryError (errno_msg "[Errno 21] Is a directory" p)), w)
  | _ =>
      (Ok tt,
       set_fs (<[p := File (if is_dicom then Dicom (stored dataset)
                            else Loose (stored dataset))]> (fs w)) w)
  end.

(** [dataset.save_as(p)] for a dataset read from a DICOM file. *)
Definition save_as (dataset : Dataset) (p : string) : M unit :=
  save_as_like true dataset p.

(** Where [shutil.copy2] and [shutil.move] put a file: into [dst] when that
    is a directory. *)
Definition real_destination (src dst : string) (w : World) : string :=
  match fs w !! dst with
  | Some Dir => posixpath.join dst (posixpath.basename src)
  | _ => dst
  end.

(** [shutil.copy2(src, dst)] *)
Definition shutil_copy2 (src dst : string) : M unit := λ w,
  let dst := real_destination src dst w in
  match fs w !! src with
  | Some (File c) =>
      if decide (src = dst)
      then (Raise (Exception SameFileError
                     (Py.repr src +:+ " and " +:+ Py.repr dst +:+ " are the same file")), w)
      else match fs w !! dst with
           | Some Dir =>
               (Raise (Exception IsADirectoryError
                         (errno_msg "[Errno 21] Is a directory" dst)), w)
           | Some (File _) => (Ok tt, set_fs (<[dst := File c]> (fs w)) w)
           | None =>
               if parent_is_directory dst w
               then (Ok tt, set_fs (<[dst := File c]> (fs w)) w)
               else (Raise (unresolved dst w), w)
           end
  | Some Dir =>
      (Raise (Exception IsADirectoryError (errno_msg "[Errno 21] Is a directory" src)), w)
  | None => (Raise (unresolved src w), w)
  end.

(** [shutil.move(src, dst)] for a [src] that is no directory: the tools
    pass the file they have just read. *)
Definition shutil_move (src dst : string) : M unit := λ w,
  match fs w !! src with
  | Some (File c) =>
      match fs w !! dst with
      | Some Dir =>
          let real_dst := posixpath.join dst (posixpath.basename src) in
          if bool_decide (is_Some (fs w !! real_dst))
          then (Raise (Exception shutil_Error
                         ("Destination path '" +:+ real_dst +:+ "' already exists")), w)
          else (Ok tt, set_fs (<[real_dst := File c]> (delete src (fs w))) w)
      | Some (File _) => (Ok tt, set_fs (<[dst := File c]> (delete src (fs w))) w)
      | None =>
          if parent_is_directory dst w
          then (Ok tt, set_fs (<[dst := File c]> (delete src (fs w))) w)
          else (Raise (unresolved dst w), w)
      end
  | Some Dir =>
      (Raise (Exception IsADirectoryError (errno_msg "[Errno 21] Is a directory" src)), w)
  | None => (Raise (unresolved src w), w)
  end.

(** [[os.path.join(root, file) for root, _, files in os.walk(top) for file
    in files]]: the regular files below [top], in the order of the walk;
    none for the empty path. *)
Definition os_walk_files (top : string) : M (list string) :=
  w ← get_world;
  mret (if Py.truthy top
        then (filter (λ pn, Py.startswith pn.1 (posixpath.join top "") && is_file pn.2)
                (map_to_list (fs w))).*1
        else []).

(** A task handed to a pool of worker processes: it runs on the shared file
    system and console, but on the worker's own copy of the module globals,
    and its exception, if any, is kept for whoever asks for the result. *)
Definition in_worker {A} (task : M A) : M (result A) := λ w,
  let '(r, w') := task w in
  (Ok r, mkWorld (fs w') (stdout w') (stderr w') (missing_ids w)
                 (date_counter w) (sequence_counter w) (image_counter w)).

(** ** Helpers found verbatim in the sorting, DICOMDIR and filtering tools *)

Definition get_dicom_attribute (dataset : Dataset) (attribute : string) : result string :=
  try_except_cls
    (v ← getattr dataset attribute; mret (str v))
    AttributeError
    (mret "UNKNOWN").

(** Truthiness of [id_map]: [None] and the empty dict are false. *)
Definition id_map_truthy (id_map : option (gmap string string)) : bool :=
  match id_map with
  | Some m => negb (bool_decide (m = ∅))
  | None => false
  end.

(** [key in id_map]: the key is hashed first, which a [MultiValue] does
    not allow; an object of another type is no key of the map. *)
Definition id_map_contains (key : value) (id_map : option (gmap string string))
    : result bool :=
  match id_map with
  | Some m =>
      match key with
      | Str s => Ok (bool_decide (is_Some (m !! s)))
      | MultiValue _ _ =>
          Raise (Exception TypeError "unhashable type: 'MultiValue'")
      | Object _ => Ok false
      end
  | None => Raise (Exception TypeError "argument of type 'NoneType' is not iterable")
  end.

(** [id_map[key]] *)
Definition id_map_getitem (id_map : option (gmap string string)) (key : value)
    : result string :=
  match id_map with
  | Some m =>
      match key with
      | Str s =>
          match m !! s with
          | Some v => Ok v
          | None => Raise (Exception KeyError (Py.repr s))
          end
      | MultiValue _ _ =>
          Raise (Exception TypeError "unhashable type: 'MultiValue'")
      | Object shown => Raise (Exception KeyError shown)
      end
  | None => Raise (Exception TypeError "'NoneType' object is not subscriptable")
  end.

Definition anonymize_dicom_tags (dataset : Dataset)
    (id_map : option (gmap string string)) : M Dataset :=
  let dataset :=
    if dataset_contains "PatientBirthDate" dataset
    then setattr dataset "PatientBirthDate" "" else dataset in
  let dataset :=
    if dataset_contains "PatientName" dataset
    then setattr dataset "PatientName" "ANONYMIZED" else dataset in
  if dataset_contains "PatientID" dataset && id_map_truthy id_map then
    old_id ← lift (getattr dataset "PatientID");
    known ← lift (id_map_contains old_id id_map);
    if (known : bool) then
      new_id ← lift (id_map_getitem id_map old_id);
      mret (setattr dataset "PatientID" new_id)
    else
      _ ← modify_world (λ w, set_missing_ids ({[str old_id]} ∪ missing_ids w) w);
      mret dataset
  else mret dataset.

(** The step [if anonymize or id_map: dataset = anonymize_dicom_tags(dataset,
    id_map)] of the per-file functions. *)
Definition anonymize_if_requested (anonymize : bool)
    (id_map : option (gmap string string)) (dataset : Dataset) : M Dataset :=
  if anonymize || id_map_truthy id_map
  then anonymize_dicom_tags dataset id_map
  else mret dataset.

Definition non_dicom_extensions : list string :=
  [".png"; ".jpeg"; ".jpg"; ".gif"; ".bmp"].

Definition has_non_dicom_extension (src_file : string) : bool :=
  existsb (λ ext, Py.endswith (Py.lower src_file) ext) non_dicom_extensions.

(** ** The correlation file and the log of unresolved ids *)

(** Text mode with universal newlines: a carriage return, alone or in front
    of a line feed, is read as one line feed. *)
Fixpoint universal_newlines (s : string) : string :=
  match s with
  | EmptyString => EmptyString
  | String c s' =>
      if decide (c = "013"%char) then
        match s' with
        | String c' s'' =>
            if decide (c' = "010"%char)
            then String "010"%char (universal_newlines s'')
            else String "010"%char (universal_newlines s')
        | EmptyString => String "010"%char EmptyString
        end
      else String c (universal_newlines s')
  end.

(** [for line in file]: the lines, each with its line feed. *)
Fixpoint readlines (s : string) : list string :=
  match s with
  | EmptyString => []
  | String c s' =>
      if decide (c = "010"%char) then String c EmptyString :: readlines s'
      else match readlines s' with
           | [] => [String c EmptyString]
           | line :: rest => String c line :: rest
           end
  end.

(** The separators of [re.split(r',|\s|\t', _)]. *)
Definition is_separator (cp : N) : bool := (cp =? 44)%N || Py.is_space cp.

Fixpoint split_points (l : list N) : list (list N) :=
  match l with
  | [] => [[]]
  | cp :: l' =>
      if is_separator cp then [] :: split_points l'
      else match split_points l' with
           | [] => [[cp]]
           | field :: rest => (cp :: field) :: rest
           end
  end.

(** [re.split(r',|\s|\t', s)] *)
Definition re_split_separators (s : string) : list string :=
  Py.encode <$> split_points (Py.code_points s).

Section correlation.

(** What reading the bytes of an encoded dataset as text gives; the codec is
    outside the repository. *)
Variable text_of_dataset : Dataset → result string.

(** [open(p, 'r')] and reading the whole file: the bytes are decoded as
    a whole. *)
Definition open_read (p : string) : M string := λ w,
  match fs w !! p with
  | Some (File (Raw bytes)) =>
      if Py.well_formed bytes then (Ok (universal_newlines bytes), w)
      else (Raise (Exception UnicodeDecodeError
                     "'utf-8' codec can't decode bytes"), w)
  | Some (File (Dicom ds)) | Some (File (Loose ds)) => (text_of_dataset ds, w)
  | Some Dir =>
      (Raise (Exception IsADirectoryError (errno_msg "[Errno 21] Is a directory" p)), w)
  | None => (Raise (unresolved p w), w)
  end.

(** The [for line in file] loop of [read_id_correlation]. *)
Fixpoint read_id_correlation_loop (lines : list string)
    (id_map : gmap string string) : M (gmap string string) :=
  match lines with
  | [] => mret id_map
  | line :: rest =>
      match re_split_separators (Py.strip line) with
      | old_id :: new_id :: _ =>
          read_id_correlation_loop rest (<[old_id := new_id]> id_map)
      | _ =>
          _ ← print ("Invalid line format: " +:+ line);
          read_id_correlation_loop rest id_map
      end
  end.

Definition read_id_correlation (file_path : string) : M (gmap string string) :=
  if Py.truthy file_path then
    text ← open_read file_path;
    read_id_correlation_loop (readlines text) ∅
  else mret ∅.

(** [read_id_correlation(args.ID_correlation) if args.ID_correlation else
    None] of the [main] functions. *)
Definition load_id_map (ID_correlation : option string)
    : M (option (gmap string string)) :=
  match ID_correlation with
  | Some file_path =>
      if Py.truthy file_path then Some <$> read_id_correlation file_path
      else mret None
  | None => mret None
  end.

End correlation.

(** [open(p, 'w')] and writing [text]. *)
Definition open_write (p text : string) : M unit := λ w,
  match fs w !! p with
  | Some Dir =>
      (Raise (Exception IsADirectoryError (errno_msg "[Errno 21] Is a directory" p)), w)
  | _ => (Ok tt, set_fs (<[p := File (Raw text)]> (fs w)) w)
  end.

(** The closing step of the [main] functions: the unresolved ids, one per
    line and in the order the set yields them, go to the log. *)
Definition log_missing_ids : M unit :=
  w ← get_world;
  if negb (bool_decide (missing_ids w = ∅)) then
    let log_file_path := "missing_patient_ids.log" in
    _ ← open_write log_file_path
          (foldr (λ missing_id text, missing_id +:+ String "010"%char text)
                 EmptyString (elements (missing_ids w)));
    print ("Missing PatientIDs logged in '" +:+ log_file_path +:+ "'.")
  else mret tt.

(** ** dicom_sorting_tool.py *)

Module dicom_sorting_tool.
Section tool.

(** [pathvalidate.sanitize_filepath(_, platform='auto')] and
    [Dataset.decompress] belong to libraries outside the repository; the
    order in which a process pool completes its tasks is not fixed by the
    program. *)
Variable sanitize_filepath : string → string.
Variable decompress : Dataset → result Dataset.
Variable schedule : list string → list string.

(** The [while] loop of [generate_unique_filename]; [None] when [fuel]
    iterations did not reach a free name. *)
Fixpoint generate_unique_filename_loop (fuel : nat)
    (directory base_name extension : string)
    (counter : nat) (new_filename : string) : M (option string) :=
  match fuel with
  | O => mret None
  | S fuel' =>
      taken ← os_path_exists (posixpath.join directory new_filename);
      if (taken : bool) then
        generate_unique_filename_loop fuel' directory base_name extension
          (counter + 1)
          (base_name +:+ "_" +:+ Py.str_of_nat counter +:+ extension)
      else mret (Some new_filename)
  end.

Definition generate_unique_filename (fuel : nat) (directory filename : string)
    : M (option string) :=
  let '(base_name, extension) := posixpath.splitext filename in
  generate_unique_filename_loop fuel directory base_name extension 1 filename.

Definition invalid_chars : string :=
  "<>:" +:+ String "034"%char "/\|?*".

Definition sanitize_series_description (description : string) : string :=
  let description :=
    Py.replace (Py.replace (Py.replace description " " "_") "*" "") "." "_" in
  let description := Py.re_sub_class invalid_chars description in
  sanitize_filepath description.

Definition decompress_dataset (dataset : Dataset) : M Dataset :=
  try_except (lift (decompress dataset))
    (λ e, _ ← print ("Error decompressing dataset: " +:+ exn_msg e);
          mret dataset).

Definition path_attributes : list string :=
  ["PatientID"; "StudyDate"; "SeriesNumber"; "SeriesDescription"].

(** The [for attribute in ...] loop filling in the pattern. *)
Definition fill_pattern (dataset : Dataset) (pattern : string) : result string :=
  foldl (λ acc attribute,
           pattern ← acc;
           value ← get_dicom_attribute dataset attribute;
           let value := if decide (attribute = "SeriesDescription")
                        then sanitize_series_description value else value in
           mret (Py.replace pattern ("%" +:+ attribute +:+ "%") value))
        (Ok pattern) path_attributes.

Definition copy_dicom_image (src_file dest_base_dir pattern : string)
    (anonymize : bool) (id_map : option (gmap string string))
    (decompress_flag : bool) : M unit :=
  if has_non_dicom_extension src_file then mret tt else
  read ← try_except (Some <$> dcmread src_file)
            (λ _, _ ← print ("Not a DICOM file: " +:+ src_file); mret None);
  match read with
  | None => mret tt
  | Some dataset =>
      dataset ← anonymize_if_requested anonymize id_map dataset;
      dataset ← (if decompress_flag
                 then decompress_dataset dataset else mret dataset);
      pattern ← lift (fill_pattern dataset pattern);
      let dest_directory :=
        sanitize_filepath (posixpath.join dest_base_dir pattern) in
      _ ← os_makedirs dest_directory;
      w ← get_world;
      found ← generate_unique_filename (size (fs w) + 2) dest_directory
                (posixpath.basename src_file);
      match found with
      | Some unique_filename =>
          save_as dataset (posixpath.join dest_directory unique_filename)
      | None => raise (Exception RuntimeError "generate_unique_filename: no free name")
      end
  end.

Definition process_file (file dest_dir pattern : string) (anonymize : bool)
    (id_map : option (gmap string string)) (decompress_flag : bool) : M unit :=
  copy_dicom_image file dest_dir pattern anonymize id_map decompress_flag.

(** Every file is submitted to the pool; [future.result()] re-raises what
    the task raised. *)
Definition copy_directory (src_dir dest_dir pattern : string) (anonymize : bool)
    (id_map : option (gmap string string)) (decompress_flag : bool) : M unit :=
  all_files ← os_walk_files src_dir;
  futures ← map_each
              (λ file, in_worker (process_file file dest_dir pattern anonymize
                                    id_map decompress_flag))
              (schedule all_files);
  for_each futures (λ future, lift future).

Definition sort_dicom (input_dir output_dir : string) (anonymize : bool)
    (id_map : option (gmap string string)) (decompress_flag : bool) : M unit :=
  let pattern := "%PatientID%/%StudyDate%/%SeriesDescription%" in
  present ← os_path_exists output_dir;
  _ ← (if (present : bool) then mret tt else os_makedirs output_dir);
  copy_directory input_dir output_dir pattern anonymize id_map decompress_flag.

Variable text_of_dataset : Dataset → result string.

Definition main (dicomin dicomout : string) (anonymize : bool)
    (ID_correlation : option string) (decompress_flag : bool) : M unit :=
  id_map ← load_id_map text_of_dataset ID_correlation;
  _ ← sort_dicom dicomin dicomout anonymize id_map decompress_flag;
  log_missing_ids.

End tool.
End dicom_sorting_tool.

(** ** DICOMDIR_creation_tool.py: the counter registry *)

Module DICOMDIR_creation_tool.

Definition format_counter (counter : nat) (prefix : string) (length : nat) : string :=
  prefix +:+ Py.format_0d length counter.

Definition get_date_id (patient_id study_date : string) : M string :=
  let key := (patient_id, study_date) in
  w ← get_world;
  _ ← (if bool_decide (is_Some (date_counter w !! key)) then mret tt
       else modify_world
              (set_date_counter (<[key := size (date_counter w) + 1]> (date_counter w))));
  w ← get_world;
  match date_counter w !! key with
  | Some counter => mret (format_counter counter "DAT" 4)
  | None => raise (Exception KeyError "date_counter")
  end.

Definition get_sequence_id (patient_id study_date series_number : string) : M string :=
  let key := (patient_id, study_date, series_number) in
  w ← get_world;
  _ ← (if bool_decide (is_Some (sequence_counter w !! key)) then mret tt
       else modify_world
              (set_sequence_counter
                 (<[key := size (sequence_counter w) + 1]> (sequence_counter w))));
  w ← get_world;
  match sequence_counter w !! key with
  | Some counter => mret (format_counter counter "SEQ" 4)
  | None => raise (Exception KeyError "sequence_counter")
  end.

Definition get_image_filename (directory : string) : M string :=
  w ← get_world;
  _ ← (if bool_decide (is_Some (image_counter w !! directory)) then mret tt
       else modify_world (set_image_counter (<[directory := 0]> (image_counter w))));
  w ← get_world;
  match image_counter w !! directory with
  | Some n =>
      _ ← modify_world (set_image_counter (<[directory := n + 1]> (image_counter w)));
      mret ("IM" +:+ Py.format_0d 6 (n + 1))
  | None => raise (Exception KeyError directory)
  end.

(** A request to the registry, and a run of requests in program order. *)
Inductive query :=
  | DateId (patient_id study_date : string)
  | SequenceId (patient_id study_date series_number : string).

Definition ask (q : query) : M string :=
  match q with
  | DateId p d => get_date_id p d
  | SequenceId p d n => get_sequence_id p d n
  end.

Definition run_queries (qs : list query) : M (list string) := map_each ask qs.

Section pipeline.

Variable sanitize_filepath : string → string.

Definition copy_dicom_image (src_file dest_base_dir : string) (anonymize : bool)
    (id_map : option (gmap string string)) : M unit :=
  if has_non_dicom_extension src_file then mret tt else
  read ← try_except (Some <$> dcmread src_file)
            (λ _, _ ← print ("Not a DICOM file: " +:+ src_file); mret None);
  match read with
  | None => mret tt
  | Some dataset =>
      dataset ← anonymize_if_requested anonymize id_map dataset;
      patient_id ← lift (get_dicom_attribute dataset "PatientID");
      study_date ← lift (get_dicom_attribute dataset "StudyDate");
      series_number ← lift (get_dicom_attribute dataset "SeriesNumber");
      dat_id ← get_date_id patient_id study_date;
      seq_id ← get_sequence_id patient_id study_date series_number;
      let dest_directory :=
        sanitize_filepath
          (posixpath.join
             (posixpath.join
                (posixpath.join (posixpath.join dest_base_dir patient_id) "dicom")
                dat_id)
             seq_id) in
      _ ← os_makedirs dest_directory;
      image_filename ← get_image_filename dest_directory;
      save_as dataset (posixpath.join dest_directory image_filename)
  end.

Definition copy_directory (src_dir dest_dir : string) (anonymize : bool)
    (id_map : option (gmap string string)) : M unit :=
  all_files ← os_walk_files src_dir;
  for_each all_files (λ file, copy_dicom_image file dest_dir anonymize id_map).

Definition sort_dicom (input_dir output_dir : string) (anonymize : bool)
    (id_map : option (gmap string string)) : M unit :=
  present ← os_path_exists output_dir;
  _ ← (if (present : bool) then mret tt else os_makedirs output_dir);
  copy_directory input_dir output_dir anonymize id_map.

End pipeline.

End DICOMDIR_creation_tool.

(** ** dicom_sort_series_filtering.py *)

Module dicom_sort_series_filtering.
Section tool.

Variable sanitize_filepath : string → string.

Definition series_keywords : list string := ["T1"; "T2"; "FLAIR"].

Definition should_process_series (series_desc series_num : string) : M bool :=
  _ ← print ("Checking Series: Description='" +:+ series_desc
             +:+ "', Number='" +:+ series_num +:+ "'");
  if Py.endswith series_num "1"
     && existsb (λ sub, Py.contains sub (Py.upper series_desc)) series_keywords
  then mret true
  else mret false.

Definition path_attributes : list string :=
  ["PatientID"; "StudyDate"; "SeriesNumber"; "SeriesDescription"].

Definition fill_pattern (dataset : Dataset) (pattern : string) : result string :=
  foldl (λ acc attribute,
           pattern ← acc;
           value ← get_dicom_attribute dataset attribute;
           mret (Py.replace pattern ("%" +:+ attribute +:+ "%") value))
        (Ok pattern) path_attributes.

Definition copy_or_move_dicom_image (src_file dest_base_dir pattern : string)
    (anonymize : bool) (id_map : option (gmap string string))
    (move force : bool) : M unit :=
  if has_non_dicom_extension src_file then mret tt else
  read ← try_except (Some <$> dcmread src_file)
            (λ _, _ ← print ("Not a DICOM file: " +:+ src_file); mret None);
  match read with
  | None => mret tt
  | Some dataset =>
      dataset ← anonymize_if_requested anonymize id_map dataset;
      series_desc ← lift (get_dicom_attribute dataset "SeriesDescription");
      series_num ← lift (get_dicom_attribute dataset "SeriesNumber");
      accepted ← should_process_series series_desc series_num;
      if negb accepted then
        print ("Skipping file '" +:+ src_file +:+ "' - Series criteria not met")
      else
        sop_instance_uid ← lift (get_dicom_attribute dataset "SOPInstanceUID");
        let filename := sop_instance_uid +:+ ".dcm" in
        pattern ← lift (fill_pattern dataset pattern);
        let dest_directory :=
          sanitize_filepath (posixpath.join dest_base_dir pattern) in
        _ ← os_makedirs dest_directory;
        let dest_file_path := posixpath.join dest_directory filename in
        present ← os_path_exists dest_file_path;
        if negb force && present then
          print ("Skipping file '" +:+ src_file
                 +:+ "' - Destination file already exists and --force not specified")
        else if move then
          _ ← shutil_move src_file dest_file_path;
          print ("Moved file '" +:+ src_file +:+ "' to '" +:+ dest_file_path +:+ "'")
        else
          _ ← shutil_copy2 src_file dest_file_path;
          print ("Copied file '" +:+ src_file +:+ "' to '" +:+ dest_file_path +:+ "'")
  end.

Definition copy_directory (src_dir dest_dir pattern : string) (anonymize : bool)
    (id_map : option (gmap string string)) (move force : bool) : M unit :=
  all_files ← os_walk_files src_dir;
  for_each all_files
    (λ file, copy_or_move_dicom_image file dest_dir pattern anonymize id_map move force).

Definition sort_dicom (input_dir output_dir : string) (anonymize : bool)
    (id_map : option (gmap string string)) (move force : bool) : M unit :=
  let pattern := "%PatientID%/%SeriesDescription%" in
  present ← os_path_exists output_dir;
  _ ← (if (present : bool) then mret tt else os_makedirs output_dir);
  copy_directory input_dir output_dir pattern anonymize id_map move force.

Variable text_of_dataset : Dataset → result string.

Definition main (dicomin dicomout : string) (anonymize : bool)
    (ID_correlation : option string) (move force : bool) : M unit :=
  id_map ← load_id_map text_of_dataset ID_correlation;
  _ ← sort_dicom dicomin dicomout anonymize id_map move force;
  log_missing_ids.

End tool.
End dicom_sort_series_filtering.

(** ** modify_protocol_name.py *)

Module modify_protocol_name.
Section tool.

(** What [dcmread(_, force=True)] makes of bytes that are no DICOM file,
    and the exception, if any, with which pydicom refuses to write a
    dataset, belong to pydicom; the order in which [imap_unordered] hands
    the files to the workers and yields their results is not fixed by the
    program. *)
Variable forced_read : string → result Dataset.
Variable save_error : Dataset → option exn.
Variable schedule : list string → list string.

Definition process_file (file_path : string) : M (string * bool) :=
  read ← try_except (Some <$> dcmread_force forced_read file_path)
            (λ e, _ ← logging_error ("Error reading file '" +:+ file_path
                                     +:+ "': " +:+ exn_msg e);
                  mret None);
  match read with
  | None => mret (file_path, false)
  | Some (is_dicom, ds) =>
      try_except
        (let parent_folder := posixpath.basename (posixpath.dirname file_path) in
         current_protocol ← lift (getattr_default ds "ProtocolName" (Str ""));
         let new_protocol :=
           if truthy_value current_protocol then Py.strip parent_folder
           else parent_folder in
         let ds := setattr ds "ProtocolName" new_protocol in
         _ ← match save_error ds with
             | Some e => raise e
             | None => save_as_like is_dicom ds file_path
             end;
         mret (file_path, true))
        (λ e, _ ← logging_error ("Error processing file '" +:+ file_path
                                 +:+ "': " +:+ exn_msg e);
              mret (file_path, false))
  end.

(** [pool.imap_unordered(process_file, all_files)], drained into a list. *)
Definition pool_imap_unordered (all_files : list string) : M (list (string * bool)) :=
  outcomes ← map_each (λ file, in_worker (process_file file)) (schedule all_files);
  map_each lift outcomes.

(** The counting loop over [results]. *)
Definition tally (results : list (string * bool)) : nat * nat :=
  foldl (λ counts r,
           if (r.2 : bool) then (counts.1 + 1, counts.2)
           else (counts.1, counts.2 + 1))
        (0, 0) results.

Definition summary (success_count failure_count : nat) : string :=
  String "010"%char
    ("Processing completed. Successes: " +:+ Py.str_of_nat success_count
     +:+ ", Failures: " +:+ Py.str_of_nat failure_count).

Definition main (dicom_folder : string) : M unit :=
  all_files ← os_walk_files dicom_folder;
  let total_files := length all_files in
  if decide (total_files = 0) then
    print "No files found in the specified folder."
  else
    _ ← print ("Found " +:+ Py.str_of_nat total_files +:+ " files. Processing...");
    results ← pool_imap_unordered all_files;
    let '(success_count, failure_count) := tally results in
    print (summary success_count failure_count).

End tool.
End modify_protocol_name.

(** * Vocabulary of the statements *)

(** The letters a-z and A-Z, and the other case of each. *)
Definition is_ascii_lower (c : ascii) : bool :=
  let n := nat_of_ascii c in (97 <=? n) && (n <=? 122).
Definition is_ascii_upper (c : ascii) : bool :=
  let n := nat_of_ascii c in (65 <=? n) && (n <=? 90).

Definition upper_char (c : ascii) : ascii :=
  if is_ascii_lower c then ascii_of_nat (nat_of_ascii c - 32) else c.
Definition lower_char (c : ascii) : ascii :=
  if is_ascii_upper c then ascii_of_nat (nat_of_ascii c + 32) else c.

Fixpoint map_chars (f : ascii → ascii) (s : string) : string :=
  match s with
  | EmptyString => EmptyString
  | String c s' => String (f c) (map_chars f s')
  end.

(** The string with its letters a-z in upper case, and with its letters
    A-Z in lower case; every other byte is kept. *)
Definition ascii_upper : string → string := map_chars upper_char.
Definition ascii_lower : string → string := map_chars lower_char.

(** Every character of the string is an ASCII character. *)
Fixpoint is_ascii (s : string) : bool :=
  match s with
  | EmptyString => true
  | String c s' => (Py.byte c <? 0x80)%N && is_ascii s'
  end.

(** The bytes of a string. *)
Fixpoint bytes (s : string) : list N :=
  match s with
  | EmptyString => []
  | String c s' => Py.byte c :: bytes s'
  end.

(** Two characters that are equal, or the two cases of one letter a-z. *)
Definition same_letter (a b : ascii) : Prop :=
  a = b
  ∨ (is_ascii_lower a = true ∧ nat_of_ascii a = nat_of_ascii b + 32)
  ∨ (is_ascii_lower b = true ∧ nat_of_ascii b = nat_of_ascii a + 32).

(** Equality of strings up to the case of letters. *)
Fixpoint equal_nocase (s t : string) : Prop :=
  match s, t with
  | EmptyString, EmptyString => True
  | String a s', String b t' => same_letter a b ∧ equal_nocase s' t'
  | _, _ => False
  end.

(** The description [flaır], with the dotless i (U+0131) in it. *)
Definition dotless_flair : string :=
  "fla" +:+ String "196"%char (String "177"%char "r").

(** What [anonymize_dicom_tags] does to the name and birth-date elements. *)
Definition clear_name_and_birth_date (dataset : Dataset) : Dataset :=
  let dataset :=
    if dataset_contains "PatientBirthDate" dataset
    then setattr dataset "PatientBirthDate" "" else dataset in
  if dataset_contains "PatientName" dataset
  then setattr dataset "PatientName" "ANONYMIZED" else dataset.

(** An element after it was cleared to [text]; what is no element stays
    as it is. *)
Definition cleared_to (text : string) (held : option attribute) : option attribute :=
  match held with
  | Some (Text _) | Some (Multi _ _) => Some (Text text)
  | _ => held
  end.

(** A single-valued id after the lookup in the map. *)
Definition remapped (m : gmap string string) (held : option attribute)
    : option attribute :=
  match held with
  | Some (Text old_id) =>
      Some (match m !! old_id with
            | Some new_id => element_of_str new_id
            | None => Text old_id
            end)
  | _ => held
  end.

(** The element holds several values. *)
Definition several_values (held : option attribute) : bool :=
  match held with
  | Some (Multi _ _) => true
  | _ => false
  end.

Definition unhashable : exn :=
  Exception TypeError "unhashable type: 'MultiValue'".

(** The part of [sanitize_series_description] written in the repository:
    the three replacements and the regular-expression substitution. *)
Definition tidy_description (description : string) : string :=
  Py.re_sub_class dicom_sorting_tool.invalid_chars
    (Py.replace (Py.replace (Py.replace description " " "_") "*" "") "." "_").

(** No blank, dot or character of [invalid_chars] occurs in the string. *)
Fixpoint all_clean (s : string) : bool :=
  match s with
  | EmptyString => true
  | String c s' =>
      negb (Py.contains (String c EmptyString)
              (" ." +:+ dicom_sorting_tool.invalid_chars))
      && all_clean s'
  end.

(** The lookup-or-insert step shared by [get_date_id] and [get_sequence_id],
    and the invariant it keeps: every counter lies in 1..size and no counter
    is given to two keys. *)
Section registry.
Context {K : Type} {EqK : EqDecision K} {CountK : Countable K}.

Definition assign (m : gmap K nat) (k : K) : gmap K nat :=
  match m !! k with
  | Some _ => m
  | None => <[k := size m + 1]> m
  end.

Definition registry_ok (m : gmap K nat) : Prop :=
  (∀ k n, m !! k = Some n → 1 ≤ n ≤ size m)
  ∧ (∀ k1 k2 n, m !! k1 = Some n → m !! k2 = Some n → k1 = k2).
End registry.

Definition date_keys (qs : list DICOMDIR_creation_tool.query) : list (string * string) :=
  omap (λ q, match q with
             | DICOMDIR_creation_tool.DateId p d => Some (p, d)
             | _ => None
             end) qs.

Definition sequence_keys (qs : list DICOMDIR_creation_tool.query)
    : list (string * string * string) :=
  omap (λ q, match q with
             | DICOMDIR_creation_tool.SequenceId p d n => Some (p, d, n)
             | _ => None
             end) qs.

(** The counter a world holds for a query, and the token made from one. *)
Definition known (w : World) (q : DICOMDIR_creation_tool.query) : option nat :=
  match q with
  | DICOMDIR_creation_tool.DateId p d => date_counter w !! (p, d)
  | DICOMDIR_creation_tool.SequenceId p d n => sequence_counter w !! (p, d, n)
  end.

Definition token_of (q : DICOMDIR_creation_tool.query) (n : nat) : string :=
  match q with
  | DICOMDIR_creation_tool.DateId _ _ =>
      DICOMDIR_creation_tool.format_counter n "DAT" 4
  | DICOMDIR_creation_tool.SequenceId _ _ _ =>
      DICOMDIR_creation_tool.format_counter n "SEQ" 4
  end.

(** The world a run of queries leaves behind. *)
Definition after (qs : list DICOMDIR_creation_tool.query) (w : World) : World :=
  set_sequence_counter (foldl assign (sequence_counter w) (sequence_keys qs))
    (set_date_counter (foldl assign (date_counter w) (date_keys qs)) w).

(** The name [generate_unique_filename] tries in round [counter]. *)
Definition candidate (base_name extension : string) (counter : nat) : string :=
  base_name +:+ "_" +:+ Py.str_of_nat counter +:+ extension.

(** The name is in use in the directory. *)
Definition taken (w : World) (directory name : string) : Prop :=
  is_Some (fs w !! posixpath.join directory name).

(** The value the tools work with for a data element: its text, or the
    sentinel. *)
Definition attribute_or_unknown (dataset : Dataset) (attribute : string) : string :=
  match dataset !! attribute with
  | Some (Text s) => s
  | Some (Multi _ shown) => shown
  | _ => "UNKNOWN"
  end.

(** The decision of the series filter on a dataset. *)
Definition series_accepted (dataset : Dataset) : bool :=
  Py.endswith (attribute_or_unknown dataset "SeriesNumber") "1"
  && existsb (λ sub, Py.contains sub
                       (Py.upper (attribute_or_unknown dataset "SeriesDescription")))
       ["T1"; "T2"; "FLAIR"].

(** The destination the filtering tool computes for a dataset. *)
Definition filled_pattern (dataset : Dataset) (pattern : string) : string :=
  let pattern := Py.replace pattern "%PatientID%"
                   (attribute_or_unknown dataset "PatientID") in
  let pattern := Py.replace pattern "%StudyDate%"
                   (attribute_or_unknown dataset "StudyDate") in
  let pattern := Py.replace pattern "%SeriesNumber%"
                   (attribute_or_unknown dataset "SeriesNumber") in
  Py.replace pattern "%SeriesDescription%"
    (attribute_or_unknown dataset "SeriesDescription").

Definition destination_directory (sanitize_filepath : string → string)
    (dataset : Dataset) (dest_base_dir pattern : string) : string :=
  sanitize_filepath (posixpath.join dest_base_dir (filled_pattern dataset pattern)).

Definition destination_file (sanitize_filepath : string → string)
    (dataset : Dataset) (dest_base_dir pattern : string) : string :=
  posixpath.join (destination_directory sanitize_filepath dataset dest_base_dir pattern)
    (attribute_or_unknown dataset "SOPInstanceUID" +:+ ".dcm").

Definition skipped_message (src_file : string) : string :=
  "Skipping file '" +:+ src_file
  +:+ "' - Destination file already exists and --force not specified".

(** The value [process_file] gives to ProtocolName. *)
Definition new_protocol_name (file_path : string) (ds : Dataset) : string :=
  let parent_folder := posixpath.basename (posixpath.dirname file_path) in
  match getattr_default ds "ProtocolName" (Str "") with
  | Ok current_protocol =>
      if truthy_value current_protocol then Py.strip parent_folder
      else parent_folder
  | Raise _ => parent_folder
  end.

(** ** Sample inputs *)

Definition sample_dataset : Dataset :=
  list_to_map [("PatientID", Text "P1"); ("PatientName", Text "Doe^John");
               ("StudyDate", Text "20200101"); ("SeriesNumber", Text "11");
               ("SeriesDescription", Text "T1_MPRAGE");
               ("SOPInstanceUID", Text "1.2.3");
               ("ProtocolName", Text "old protocol")].


(** A dataset whose PatientID was stored with a backslash in it. *)
Definition two_ids_dataset : Dataset :=
  list_to_map [("PatientID", Multi ["A17"; "B4"] "['A17', 'B4']");
               ("PatientName", Text "Doe^John")].

(** An input tree with one image, and an output tree that holds a file
    under the name the filtering tool gives that image. *)
Definition sample_world : World :=
  initial_world
    (list_to_map [("in", Dir); ("in/a.dcm", File (Dicom sample_dataset));
                  ("out", Dir); ("out/P1", Dir); ("out/P1/T1_MPRAGE", Dir);
                  ("out/P1/T1_MPRAGE/1.2.3.dcm", File (Raw "earlier copy"))]).

(** The output tree of an earlier run of the filtering tool, with the
    image under the name the tool gives it. *)
Definition sorted_world : World :=
  initial_world
    (list_to_map [("out", Dir); ("out/P1", Dir); ("out/P1/T1_MPRAGE", Dir);
                  ("out/P1/T1_MPRAGE/1.2.3.dcm", File (Dicom sample_dataset))]).


(** ** Rows of a correlation file *)

Definition line_feed : string := String "010"%char EmptyString.

(** Well-formed text in which no comma and no white space occurs. *)
Definition no_separator (s : string) : bool :=
  Py.well_formed s && forallb (λ cp, negb (is_separator cp)) (Py.code_points s).

(** A line of a correlation file: two fields with a comma between them, two
    fields with a comma and a blank between them, or one field alone. *)
Inductive row :=
  | Mapping (old_id new_id : string)
  | Spaced (old_id new_id : string)
  | Bare (text : string).

Definition row_text (r : row) : string :=
  match r with
  | Mapping old_id new_id => old_id +:+ "," +:+ new_id +:+ line_feed
  | Spaced old_id new_id => old_id +:+ ", " +:+ new_id +:+ line_feed
  | Bare text => text +:+ line_feed
  end.

Definition row_fields_ok (r : row) : Prop :=
  match r with
  | Mapping old_id new_id | Spaced old_id new_id =>
      no_separator old_id = true ∧ no_separator new_id = true
  | Bare text => no_separator text = true
  end.

Definition rows_text (rows : list row) : string :=
  foldr (λ r text, row_text r +:+ text) EmptyString rows.

(** The entry a row puts into the map, and the complaint it causes. *)
Definition row_entry (r : row) : option (string * string) :=
  match r with
  | Mapping old_id new_id => Some (old_id, new_id)
  | Spaced old_id _ => Some (old_id, EmptyString)
  | Bare _ => None
  end.

Definition row_complaint (r : row) : option string :=
  match r with
  | Bare text => Some ("Invalid line format: " +:+ text +:+ line_feed)
  | _ => None
  end.

(** The string without its first [k] characters. *)
Fixpoint drop_str (k : nat) (s : string) : string :=
  match k, s with
  | S k', String _ s' => drop_str k' s'
  | _, _ => s
  end.

(** Every byte of the string is outside ASCII. *)
Fixpoint no_ascii (s : string) : bool :=
  match s with
  | EmptyString => true
  | String c s' => (0x80 <=? Py.byte c)%N && no_ascii s'
  end.

(** Every character of the string is an ASCII character other than [a]. *)
Fixpoint ascii_without (a : ascii) (s : string) : bool :=
  match s with
  | EmptyString => true
  | String c s' =>
      (Py.byte c <? 0x80)%N && negb (bool_decide (c = a)) && ascii_without a s'
  end.

(** The character does not occur in the string. *)
Fixpoint lacks (a : ascii) (s : string) : bool :=
  match s with
  | EmptyString => true
  | String c s' => negb (bool_decide (c = a)) && lacks a s'
  end.

(** A row without its line feed, and its code points. *)
Definition row_body (r : row) : string :=
  match r with
  | Mapping old_id new_id => old_id +:+ "," +:+ new_id
  | Spaced old_id new_id => old_id +:+ ", " +:+ new_id
  | Bare text => text
  end.

Definition row_points (r : row) : list N :=
  match r with
  | Mapping old_id new_id => Py.code_points old_id ++ 44%N :: Py.code_points new_id
  | Spaced old_id new_id =>
      Py.code_points old_id ++ 44%N :: 32%N :: Py.code_points new_id
  | Bare text => Py.code_points text
  end.

(** A correlation file with two mappings of one id, a line without
    separator and an empty line. *)
Definition sample_rows : list row :=
  [Mapping "A1" "sub-01"; Bare "junk"; Mapping "A2" "sub-02"; Bare "";
   Mapping "A1" "sub-09"].

Definition sample_correlation_world : World :=
  initial_world
    (list_to_map [("ids.csv", File (Raw (rows_text sample_rows)));
                  ("in", Dir); ("in/a.dcm", File (Dicom sample_dataset))]).

(** The directory the sorting tool computes for a dataset. *)
Definition sorting_filled_pattern (sanitize_filepath : string → string)
    (dataset : Dataset) (pattern : string) : string :=
  let pattern := Py.replace pattern "%PatientID%"
                   (attribute_or_unknown dataset "PatientID") in
  let pattern := Py.replace pattern "%StudyDate%"
                   (attribute_or_unknown dataset "StudyDate") in
  let pattern := Py.replace pattern "%SeriesNumber%"
                   (attribute_or_unknown dataset "SeriesNumber") in
  Py.replace pattern "%SeriesDescription%"
    (dicom_sorting_tool.sanitize_series_description sanitize_filepath
       (attribute_or_unknown dataset "SeriesDescription")).

Definition sorting_directory (sanitize_filepath : string → string)
    (dataset : Dataset) (dest_base_dir pattern : string) : string :=
  sanitize_filepath
    (posixpath.join dest_base_dir
       (sorting_filled_pattern sanitize_filepath dataset pattern)).

(** The dataset the sorting tool writes: decompressed when that was asked
    for and succeeds. *)
Definition decompressed_if_requested (decompress : Dataset → result Dataset)
    (decompress_flag : bool) (dataset : Dataset) : Dataset :=
  if decompress_flag then
    match decompress dataset with
    | Ok decompressed => decompressed
    | Raise _ => dataset
    end
  else dataset.


(** Every entry of the file system is still there, unchanged. *)
Definition fs_grows (w w' : World) : Prop := fs w ⊆ fs w'.

(** The set of unresolved ids is the same. *)
Definition same_missing_ids (w w' : World) : Prop := missing_ids w' = missing_ids w.

(** Every regular file holds what some regular file held before. *)
Definition content_kept (w w' : World) : Prop :=
  ∀ p c, fs w' !! p = Some (File c) → ∃ q, fs w !! q = Some (File c).

(** How many of the requests are for the directory. *)
Fixpoint requests_for (directory : string) (requests : list string) : nat :=
  match requests with
  | [] => 0
  | d :: rest => (if decide (d = directory) then 1 else 0) + requests_for directory rest
  end.



(** What the forced reader makes of a file, and whether the file is a
    DICOM file. *)
Definition decoded (forced_read : string → result Dataset) (c : content)
    : option (bool * Dataset) :=
  match c with
  | Dicom ds => Some (true, ds)
  | Loose ds => Some (false, ds)
  | Raw bytes =>
      match forced_read bytes with
      | Ok ds => Some (false, ds)
      | Raise _ => None
      end
  end.

(** The dataset [process_file] hands to the writer. *)
Definition with_protocol_name (file_path : string) (ds : Dataset) : Dataset :=
  setattr ds "ProtocolName" (new_protocol_name file_path ds).

(** An entry of the file system after [process_file]: a file that the
    forced reader decodes and the writer takes holds its dataset with the
    new ProtocolName, as it is read back; any other entry is as it was. *)
Definition rewritten (forced_read : string → result Dataset)
    (save_error : Dataset → option exn) (file_path : string) (n : node) : node :=
  match n with
  | File c =>
      match decoded forced_read c with
      | Some (is_dicom, ds) =>
          match save_error (with_protocol_name file_path ds) with
          | None =>
              File ((if is_dicom then Dicom else Loose)
                      (stored (with_protocol_name file_path ds)))
          | Some _ => n
          end
      | None => n
      end
  | Dir => n
  end.

(** [process_file] succeeds on the entry. *)
Definition rewritable (forced_read : string → result Dataset)
    (save_error : Dataset → option exn) (file_path : string) (n : node) : bool :=
  match n with
  | File c =>
      match decoded forced_read c with
      | Some (_, ds) =>
          bool_decide (save_error (with_protocol_name file_path ds) = None)
      | None => false
      end
  | Dir => false
  end.

(** The outcome [process_file] reports for a path. *)
Definition outcome (forced_read : string → result Dataset)
    (save_error : Dataset → option exn) (w : World) (file_path : string) : bool :=
  from_option (rewritable forced_read save_error file_path) false
    (fs w !! file_path).

Definition reading_failed (file_path : string) (e : exn) : string :=
  "ERROR: " +:+ "Error reading file '" +:+ file_path +:+ "': " +:+ exn_msg e.

Definition processing_failed (file_path : string) (e : exn) : string :=
  "ERROR: " +:+ "Error processing file '" +:+ file_path +:+ "': " +:+ exn_msg e.

(** A forced reader that finds no element in a file that is no DICOM file,
    and a writer that takes every dataset. *)
Definition lenient_reader (bytes : string) : result Dataset := Ok ∅.

Definition willing_writer (ds : Dataset) : option exn := None.

(** A folder with a blank in front of its name, with one file that has a
    ProtocolName and one that has none. *)
Definition blank_folder_world : World :=
  initial_world
    (list_to_map [("/data", Dir); ("/data/ T1", Dir);
                  ("/data/ T1/a.dcm",
                   File (Dicom {["ProtocolName" := Text "old protocol"]}));
                  ("/data/ T1/b.dcm", File (Dicom {["PatientID" := Text "P1"]}))]).

(** A folder with white space at the end of its name, with one file that
    has no ProtocolName, and a file elsewhere. *)
Definition spaced_folder_world : World :=
  initial_world
    (list_to_map [("data", Dir); ("data/T1 ", Dir);
                  ("data/T1 /a.dcm", File (Dicom {["PatientID" := Text "P1"]}));
                  ("other", Dir); ("other/b.dcm", File (Dicom sample_dataset))]).
(** * Properties *)

(** ** Worked examples *)

Example splitext_ex1 : posixpath.splitext "a.tar.gz" = ("a.tar", ".gz"). Proof. reflexivity. Qed.
Example splitext_ex2 : posixpath.splitext ".bashrc" = (".bashrc", ""). Proof. reflexivity. Qed.
Example splitext_ex3 : posixpath.splitext "a.b/c" = ("a.b/c", ""). Proof. reflexivity. Qed.
Example splitext_ex4 : posixpath.splitext "d/..x" = ("d/..x", ""). Proof. reflexivity. Qed.
Example splitext_ex5 : posixpath.splitext "d/.x.y" = ("d/.x", ".y"). Proof. reflexivity. Qed.
Example dirname_ex1 : posixpath.dirname "/data/T1 /a.dcm" = "/data/T1 ". Proof. reflexivity. Qed.
Example dirname_ex2 : posixpath.dirname "//a" = "//". Proof. reflexivity. Qed.
Example dirname_ex3 : posixpath.dirname "a//b" = "a". Proof. reflexivity. Qed.
Example basename_ex1 : posixpath.basename "/data/T1 /a.dcm" = "a.dcm". Proof. reflexivity. Qed.
Example join_ex1 : posixpath.join "a" "b" = "a/b". Proof. reflexivity. Qed.
Example join_ex2 : posixpath.join "a/" "b" = "a/b". Proof. reflexivity. Qed.
Example join_ex3 : posixpath.join "a" "/b" = "/b". Proof. reflexivity. Qed.
Example join_ex4 : posixpath.join "" "b" = "b". Proof. reflexivity. Qed.
Example replace_ex1 : Py.replace "a b  c" " " "_" = "a_b__c". Proof. reflexivity. Qed.
Example replace_ex2 : Py.replace "%A%/%B%" "%B%" "xy" = "%A%/xy". Proof. reflexivity. Qed.
Example replace_ex3 : Py.replace "aaa" "aa" "b" = "ba". Proof. reflexivity. Qed.
Example replace_ex4 : Py.replace "ab" "" "-" = "-a-b-". Proof. reflexivity. Qed.
Example strip_ex1 : Py.strip "  T1 x  " = "T1 x". Proof. reflexivity. Qed.
Example format_ex1 : Py.format_0d 4 7 = "0007". Proof. reflexivity. Qed.
Example format_ex2 : Py.format_0d 2 123 = "123". Proof. reflexivity. Qed.
Example format_ex3 : Py.format_0d 6 0 = "000000". Proof. reflexivity. Qed.
Example upper_ex1 : Py.upper "t2_Flair-z{" = "T2_FLAIR-Z{". Proof. reflexivity. Qed.
Example endswith_ex1 : Py.endswith "a.PNG" ".png" = false. Proof. reflexivity. Qed.
Example endswith_ex2 : Py.endswith (Py.lower "a.PNG") ".png" = true. Proof. reflexivity. Qed.
Example contains_ex1 : Py.contains "FLAIR" "T2_FLAIR" = true. Proof. reflexivity. Qed.
Example sanitize_ex1 :
  dicom_sorting_tool.sanitize_series_description (λ p, p) "T1 w/ contrast *3.0"
  = "T1_w_contrast_3_0".
Proof. reflexivity. Qed.
Example registry_ex1 :
  (DICOMDIR_creation_tool.run_queries
     [DICOMDIR_creation_tool.DateId "P1" "20200101";
      DICOMDIR_creation_tool.DateId "P2" "20200101";
      DICOMDIR_creation_tool.SequenceId "P1" "20200101" "3";
      DICOMDIR_creation_tool.DateId "P1" "20200101"]
     (initial_world ∅)).1
  = Ok ["DAT0001"; "DAT0002"; "SEQ0001"; "DAT0001"].
Proof. reflexivity. Qed.
Example image_name_ex1 :
  (DICOMDIR_creation_tool.get_image_filename "out/P1/dicom/DAT0001/SEQ0001"
     (initial_world ∅)).1 = Ok "IM000001".
Proof. reflexivity. Qed.
Example makedirs_ex1 : dir_prefixes "out/P1/T1" = ["out"; "out/P1"; "out/P1/T1"].
Proof. reflexivity. Qed.
Example makedirs_ex2 : dir_prefixes "/abs/x/" = ["/abs"; "/abs/x"].
Proof. reflexivity. Qed.

(** ** Running a computation *)

Lemma bind_ok {A B} (m : M A) (k : A → M B) (w w' : World) (a : A) :
  m w = (Ok a, w') → (m ≫= k) w = k a w'.
Proof. intros H. unfold mbind, M_bind. by rewrite H. Qed.

Lemma bind_raise {A B} (m : M A) (k : A → M B) (w w' : World) (e : exn) :
  m w = (Raise e, w') → (m ≫= k) w = (Raise e, w').
Proof. intros H. unfold mbind, M_bind. by rewrite H. Qed.


(** ** Strings *)

Lemma app_cons (c : ascii) (s t : string) : String c s +:+ t = String c (s +:+ t).
Proof. reflexivity. Qed.

Lemma app_nil_l (s : string) : "" +:+ s = s.
Proof. reflexivity. Qed.

Lemma app_nil_r (s : string) : s +:+ "" = s.
Proof. induction s as [|c s IH]; [done|]. by rewrite app_cons, IH. Qed.

Lemma app_assoc_str (s t u : string) : (s +:+ t) +:+ u = s +:+ t +:+ u.
Proof. induction s as [|c s IH]; [done|]. by rewrite !app_cons, IH. Qed.

Lemma app_length_str (s t : string) :
  String.length (s +:+ t) = String.length s + String.length t.
Proof. induction s as [|c s IH]; [done|]. rewrite app_cons. simpl. by rewrite IH. Qed.

Lemma app_inv_tail_str (s t e : string) : s +:+ e = t +:+ e → s = t.
Proof.
  revert t. induction s as [|c s IH]; intros [|d t] H.
  - done.
  - apply (f_equal String.length) in H. rewrite app_nil_l, app_cons in H.
    simpl in H. rewrite app_length_str in H. lia.
  - apply (f_equal String.length) in H. rewrite app_nil_l, app_cons in H.
    simpl in H. rewrite app_length_str in H. lia.
  - rewrite !app_cons in H. injection H as -> H. f_equal. by apply IH.
Qed.

Lemma startswith_spec (s p : string) :
  Py.startswith s p = true ↔ ∃ r, s = p +:+ r.
Proof.
  revert s. induction p as [|a p IH]; intros s; simpl.
  - split; [|done]. intros _. by exists s.
  - destruct s as [|b s].
    + split; [done|]. intros [r Hr]. by rewrite app_cons in Hr.
    + case_decide as Hab.
      * subst b. rewrite IH. split; intros [r Hr]; exists r.
        -- by rewrite app_cons, Hr.
        -- rewrite app_cons in Hr. by injection Hr.
      * split; [done|]. intros [r Hr]. rewrite app_cons in Hr. by injection Hr.
Qed.

Lemma endswith_spec (s suffix : string) :
  Py.endswith s suffix = true ↔ ∃ p, s = p +:+ suffix.
Proof.
  induction s as [|c s IH]; simpl.
  - case_decide as H.
    + split; [|done]. intros _. exists "". by subst suffix.
    + split; [done|]. intros [p Hp]. destruct p; [done|]. by rewrite app_cons in Hp.
  - case_decide as H.
    + split; [|done]. intros _. exists "". by subst suffix.
    + rewrite IH. split.
      * intros [p ->]. exists (String c p). by rewrite app_cons.
      * intros [p Hp]. destruct p as [|d p]; [done|].
        rewrite app_cons in Hp. injection Hp as -> ->. eauto.
Qed.

Lemma contains_spec (sub s : string) :
  Py.contains sub s = true ↔ ∃ pre post, s = pre +:+ sub +:+ post.
Proof.
  induction s as [|c s IH]; simpl.
  - destruct (Py.startswith "" sub) eqn:Hp.
    + apply startswith_spec in Hp as [r Hr]. split; [|done]. intros _.
      exists "", r. done.
    + split; [done|]. intros [pre [post H]]. destruct pre; [|done].
      rewrite app_nil_l in H.
      assert (Py.startswith "" sub = true) by (apply startswith_spec; eauto).
      congruence.
  - destruct (Py.startswith (String c s) sub) eqn:Hp.
    + apply startswith_spec in Hp as [r Hr]. split; [|done]. intros _.
      exists "", r. done.
    + rewrite IH. split.
      * intros [pre [post ->]]. exists (String c pre), post. by rewrite app_cons.
      * intros [pre [post H]]. destruct pre as [|d pre].
        -- rewrite app_nil_l in H.
           assert (Py.startswith (String c s) sub = true)
             by (apply startswith_spec; eauto).
           congruence.
        -- rewrite app_cons in H. injection H as -> ->. eauto.
Qed.

Lemma map_chars_app (f : ascii → ascii) (s t : string) :
  map_chars f (s +:+ t) = map_chars f s +:+ map_chars f t.
Proof. induction s as [|c s IH]; [done|]. rewrite app_cons. simpl. by rewrite IH, app_cons. Qed.

Lemma map_chars_app_inv (f : ascii → ascii) (s a b : string) :
  map_chars f s = a +:+ b →
  ∃ s1 s2, s = s1 +:+ s2 ∧ map_chars f s1 = a ∧ map_chars f s2 = b.
Proof.
  revert s. induction a as [|c a IH]; intros s H.
  - exists "", s. done.
  - destruct s as [|d s]; [done|]. rewrite app_cons in H. simpl in H.
    injection H as Hc H. apply IH in H as (s1 & s2 & -> & <- & <-).
    exists (String d s1), s2. simpl. by rewrite app_cons, Hc.
Qed.


(** ** Code points *)

Lemma byte_bounded (c : ascii) : (Py.byte c < 256)%N.
Proof. apply N_ascii_bounded. Qed.

Lemma ascii_of_byte (c : ascii) : ascii_of_N (Py.byte c) = c.
Proof. apply ascii_N_embedding. Qed.

Lemma byte_of_ascii (n : N) : (n < 256)%N → Py.byte (ascii_of_N n) = n.
Proof. apply N_ascii_embedding. Qed.

Lemma byte_inj (a b : ascii) : Py.byte a = Py.byte b → a = b.
Proof.
  intros H. apply (f_equal ascii_of_N) in H. by rewrite !ascii_of_byte in H.
Qed.

Local Ltac arith :=
  unfold Py.is_scalar, Py.is_continuation, Py.in_range in *;
  repeat match goal with
         | H : _ && _ = true |- _ => apply andb_true_iff in H as [? ?]
         | H : _ || _ = true |- _ => apply orb_true_iff in H
         | H : _ && _ = false |- _ => apply andb_false_iff in H
         | H : _ || _ = false |- _ => apply orb_false_iff in H as [? ?]
         | H : negb _ = true |- _ => apply negb_true_iff in H
         | H : negb _ = false |- _ => apply negb_false_iff in H
         | H : (_ <? _)%N = true |- _ => apply N.ltb_lt in H
         | H : (_ <? _)%N = false |- _ => apply N.ltb_ge in H
         | H : (_ <=? _)%N = true |- _ => apply N.leb_le in H
         | H : (_ <=? _)%N = false |- _ => apply N.leb_gt in H
         end.

Lemma in_range_spec (lo hi cp : N) :
  Py.in_range lo hi cp = true ↔ (lo ≤ cp ∧ cp ≤ hi)%N.
Proof. unfold Py.in_range. rewrite andb_true_iff, !N.leb_le. done. Qed.

Lemma in_range_false (lo hi cp : N) :
  Py.in_range lo hi cp = false ↔ (cp < lo ∨ hi < cp)%N.
Proof. unfold Py.in_range. rewrite andb_false_iff, !N.leb_gt. done. Qed.

Lemma is_scalar_spec (cp : N) :
  Py.is_scalar cp = true ↔ (cp < 0xD800 ∨ (0xE000 ≤ cp ∧ cp ≤ 0x10FFFF))%N.
Proof. unfold Py.is_scalar. rewrite orb_true_iff, N.ltb_lt, in_range_spec. done. Qed.

Lemma utf8_ascii (cp : N) :
  (cp < 0x80)%N → Py.utf8 cp = String (ascii_of_N cp) EmptyString.
Proof.
  intros H. unfold Py.utf8. apply N.ltb_lt in H. by rewrite H.
Qed.

Lemma utf8_byte (c : ascii) :
  (Py.byte c < 0x80)%N → Py.utf8 (Py.byte c) = String c EmptyString.
Proof. intros H. by rewrite utf8_ascii, ascii_of_byte. Qed.

Lemma utf8_escape (c : ascii) :
  (0x80 <= Py.byte c)%N → Py.utf8 (0xDC00 + Py.byte c) = String c EmptyString.
Proof.
  intros H. pose proof (byte_bounded c). unfold Py.utf8.
  destruct (N.ltb_spec (0xDC00 + Py.byte c) 0x80); [lia|].
  destruct (N.ltb_spec (0xDC00 + Py.byte c) 0x800); [lia|].
  assert (Py.in_range 0xDC80 0xDCFF (0xDC00 + Py.byte c) = true) as ->.
  { unfold Py.in_range. apply andb_true_iff. split; apply N.leb_le; lia. }
  simpl. replace (0xDC00 + Py.byte c - 0xDC00)%N with (Py.byte c) by lia.
  by rewrite ascii_of_byte.
Qed.

Ltac Zify.zify_post_hook ::= Z.div_mod_to_equations.

Local Ltac mods :=
  repeat match goal with
         | |- context [(?a mod ?b)%N] =>
             lazymatch goal with
             | _ : (a mod b < b)%N |- _ => fail
             | _ => pose proof (N.mod_lt a b ltac:(lia));
                    pose proof (N.div_mod' a b)
             end
         end.

Local Ltac bytes_of cp :=
  repeat match goal with
         | |- context [Py.byte (ascii_of_N ?n)] =>
             rewrite (byte_of_ascii n) by (arith; lia)
         end.

Local Ltac decide_tests :=
  repeat match goal with
         | |- context [(?a <? ?b)%N] =>
             first [ rewrite (proj2 (N.ltb_lt a b)) by (arith; lia)
                   | rewrite (proj2 (N.ltb_ge a b)) by (arith; lia) ]
         | |- context [(?a <=? ?b)%N] =>
             first [ rewrite (proj2 (N.leb_le a b)) by (arith; lia)
                   | rewrite (proj2 (N.leb_gt a b)) by (arith; lia) ]
         end.

(** The bytes of a scalar value decode to it. *)
Lemma decode_first_utf8 (cp : N) (t : string) :
  Py.is_scalar cp = true →
  Py.decode_first (Py.utf8 cp +:+ t) = Some (cp, String.length (Py.utf8 cp)).
Proof.
  intros Hs. pose proof Hs as Hs'. apply is_scalar_spec in Hs'.
  unfold Py.utf8. mods.
  destruct (N.ltb_spec cp 0x80) as [Hr1|Hr1].
  { simpl. bytes_of cp. rewrite (proj2 (N.ltb_lt cp 0x80)) by done. done. }
  destruct (N.ltb_spec cp 0x800) as [Hr2|Hr2].
  { simpl. bytes_of cp. unfold Py.is_continuation, Py.in_range. decide_tests.
    simpl. decide_tests. do 2 f_equal. arith; lia. }
  assert (Py.in_range 0xDC80 0xDCFF cp = false) as ->.
  { apply in_range_false. apply is_scalar_spec in Hs. lia. }
  destruct (N.ltb_spec cp 0x10000) as [Hr3|Hr3].
  { simpl. bytes_of cp. unfold Py.is_continuation, Py.in_range. decide_tests.
    simpl. decide_tests. simpl.
    replace ((0xE0 + cp / 0x1000 - 0xE0) * 0x1000
             + (0x80 + (cp / 0x40) mod 0x40 - 0x80) * 0x40
             + (0x80 + cp mod 0x40 - 0x80))%N with cp by (arith; lia).
    rewrite Hs. decide_tests. done. }
  simpl. bytes_of cp. unfold Py.is_continuation, Py.in_range. decide_tests.
  simpl. decide_tests. simpl.
  replace ((0xF0 + cp / 0x40000 - 0xF0) * 0x40000
           + (0x80 + (cp / 0x1000) mod 0x40 - 0x80) * 0x1000
           + (0x80 + (cp / 0x40) mod 0x40 - 0x80) * 0x40
           + (0x80 + cp mod 0x40 - 0x80))%N with cp by (arith; lia).
  decide_tests. done.
Qed.

Lemma of_bytes_cons (b : N) (l : list N) :
  Py.of_bytes (b :: l) = String (ascii_of_N b) (Py.of_bytes l).
Proof. reflexivity. Qed.

Local Ltac same_byte c :=
  transitivity (ascii_of_N (Py.byte c));
  [symmetry; apply ascii_of_byte|f_equal; lia].

(** What [decode_first] finds is a scalar value in front of the string, in
    its shortest form. *)
Lemma decode_first_sound (s : string) (cp : N) (n : nat) :
  Py.decode_first s = Some (cp, n) →
  Py.is_scalar cp = true
  ∧ ∃ t, s = Py.utf8 cp +:+ t ∧ String.length (Py.utf8 cp) = n.
Proof.
  destruct s as [|c1 s1]; [done|]. simpl.
  pose proof (byte_bounded c1) as Hb1.
  destruct (N.ltb_spec (Py.byte c1) 0x80) as [Hr1|Hr1].
  { intros [= <- <-]. split; [apply is_scalar_spec; lia|].
    exists s1. by rewrite utf8_byte. }
  destruct s1 as [|c2 s2]; [done|].
  pose proof (byte_bounded c2) as Hb2.
  destruct (Py.is_continuation (Py.byte c2)) eqn:Hc2; [|done]. simpl.
  apply in_range_spec in Hc2.
  destruct (Py.in_range 0xC0 0xDF (Py.byte c1)) eqn:Hl2.
  { apply in_range_spec in Hl2.
    destruct (N.leb_spec 0x80 ((Py.byte c1 - 0xC0) * 0x40 + (Py.byte c2 - 0x80)))
      as [Hv|Hv]; [|done].
    intros [= <- <-]. split; [apply is_scalar_spec; lia|].
    exists s2. unfold Py.utf8. mods. decide_tests. rewrite !of_bytes_cons.
    split; [|done]. rewrite !app_cons, app_nil_l. f_equal; [same_byte c1|]. f_equal. same_byte c2. }
  apply in_range_false in Hl2.
  destruct s2 as [|c3 s3]; [done|].
  pose proof (byte_bounded c3) as Hb3.
  destruct (Py.is_continuation (Py.byte c3)) eqn:Hc3; [|done]. simpl.
  apply in_range_spec in Hc3.
  destruct (Py.in_range 0xE0 0xEF (Py.byte c1)) eqn:Hl3.
  { apply in_range_spec in Hl3.
    set (v := ((Py.byte c1 - 0xE0) * 0x1000 + (Py.byte c2 - 0x80) * 0x40
               + (Py.byte c3 - 0x80))%N).
    destruct (N.leb_spec 0x800 v) as [Hv|Hv]; [|done]. simpl.
    destruct (Py.is_scalar v) eqn:Hs; [|done].
    intros [= <- <-]. split; [done|].
    apply is_scalar_spec in Hs.
    exists s3. unfold Py.utf8. subst v. mods. decide_tests.
    rewrite (proj2 (in_range_false 0xDC80 0xDCFF _)) by lia.
    decide_tests. rewrite !of_bytes_cons.
    split; [|done]. rewrite !app_cons, app_nil_l. f_equal; [same_byte c1|].
    f_equal; [same_byte c2|]. f_equal. same_byte c3. }
  apply in_range_false in Hl3.
  destruct s3 as [|c4 s4]; [done|].
  pose proof (byte_bounded c4) as Hb4.
  destruct (Py.is_continuation (Py.byte c4)) eqn:Hc4; [|done]. simpl.
  apply in_range_spec in Hc4.
  destruct (Py.in_range 0xF0 0xF7 (Py.byte c1)) eqn:Hl4; [|done].
  apply in_range_spec in Hl4.
  set (v := ((Py.byte c1 - 0xF0) * 0x40000 + (Py.byte c2 - 0x80) * 0x1000
             + (Py.byte c3 - 0x80) * 0x40 + (Py.byte c4 - 0x80))%N).
  destruct (Py.in_range 0x10000 0x10FFFF v) eqn:Hv; [|done].
  apply in_range_spec in Hv.
  intros [= <- <-]. split; [apply is_scalar_spec; lia|].
  exists s4. unfold Py.utf8. subst v. mods. decide_tests.
  rewrite (proj2 (in_range_false 0xDC80 0xDCFF _)) by lia.
  decide_tests. rewrite !of_bytes_cons.
  split; [|done]. rewrite !app_cons, app_nil_l. f_equal; [same_byte c1|].
  f_equal; [same_byte c2|]. f_equal; [same_byte c3|]. f_equal. same_byte c4.
Qed.

Lemma utf8_cons (cp : N) : ∃ c u, Py.utf8 cp = String c u.
Proof. unfold Py.utf8. repeat case_match; rewrite of_bytes_cons; eauto. Qed.

Lemma code_points_go_skip (u t : string) :
  Py.code_points_go (String.length u) (u +:+ t) = Py.code_points_go 0 t.
Proof.
  induction u as [|c u IH]; [done|]. rewrite app_cons. exact IH.
Qed.

Lemma code_points_go_cons (c : ascii) (s : string) :
  Py.code_points_go 0 (String c s)
  = match Py.decode_first (String c s) with
    | Some (cp, n) => cp :: Py.code_points_go (n - 1) s
    | None => (0xDC00 + Py.byte c)%N :: Py.code_points_go 0 s
    end.
Proof. reflexivity. Qed.

Lemma code_points_go_utf8 (cp : N) (t : string) :
  Py.is_scalar cp = true →
  Py.code_points_go 0 (Py.utf8 cp +:+ t) = cp :: Py.code_points_go 0 t.
Proof.
  intros Hs. pose proof (decode_first_utf8 cp t Hs) as Hd.
  destruct (utf8_cons cp) as (c & u & Hu). rewrite Hu in Hd |- *.
  rewrite app_cons in Hd |- *. rewrite code_points_go_cons, Hd.
  replace (String.length (String c u) - 1) with (String.length u)
    by (simpl; lia).
  by rewrite code_points_go_skip.
Qed.

Lemma encode_app (l1 l2 : list N) :
  Py.encode (l1 ++ l2) = Py.encode l1 +:+ Py.encode l2.
Proof.
  induction l1 as [|cp l1 IH]; [done|]. simpl. by rewrite IH, app_assoc_str.
Qed.

(** Encoding and decoding a sequence of scalar values gives it back. *)
Lemma code_points_encode_app (l : list N) (t : string) :
  forallb Py.is_scalar l = true →
  Py.code_points (Py.encode l +:+ t) = l ++ Py.code_points t.
Proof.
  unfold Py.code_points. induction l as [|cp l IH]; [done|]. simpl.
  intros [Hcp Hl]%andb_true_iff.
  by rewrite app_assoc_str, code_points_go_utf8, IH.
Qed.

Lemma code_points_encode (l : list N) :
  forallb Py.is_scalar l = true → Py.code_points (Py.encode l) = l.
Proof.
  intros Hl. rewrite <- (app_nil_r (Py.encode l)), code_points_encode_app by done.
  apply List.app_nil_r.
Qed.

Lemma drop_str_app (u t : string) : drop_str (String.length u) (u +:+ t) = t.
Proof. induction u as [|c u IH]; [by destruct t|]. exact IH. Qed.

(** Decoding loses nothing: the code points of a string encode to it. *)
Lemma encode_code_points_go (s : string) (k : nat) :
  Py.encode (Py.code_points_go k s) = drop_str k s.
Proof.
  revert k. induction s as [|c s IH]; intros k; [by destruct k|].
  destruct k as [|k]; [|exact (IH k)].
  rewrite code_points_go_cons.
  destruct (Py.decode_first (String c s)) as [[cp n]|] eqn:Hd.
  - apply decode_first_sound in Hd as (_ & t & Hs & Hn).
    destruct (utf8_cons cp) as (c' & u & Hu). rewrite Hu in Hs, Hn.
    rewrite app_cons in Hs. injection Hs as <- ->.
    simpl in Hn. subst n. simpl Py.encode.
    rewrite IH, Hu, Nat.sub_0_r. by rewrite drop_str_app, app_cons.
  - simpl Py.encode. rewrite IH. simpl.
    assert (0x80 ≤ Py.byte c)%N as Hc.
    { simpl in Hd. destruct (N.ltb_spec (Py.byte c) 0x80); [done|lia]. }
    by rewrite utf8_escape.
Qed.

Lemma encode_code_points (s : string) : Py.encode (Py.code_points s) = s.
Proof. unfold Py.code_points. rewrite encode_code_points_go. by destruct s. Qed.

Lemma code_points_go_kinds (s : string) (k : nat) (cp : N) :
  cp ∈ Py.code_points_go k s →
  Py.is_scalar cp = true ∨ Py.in_range 0xDC80 0xDCFF cp = true.
Proof.
  revert k. induction s as [|c s IH]; intros k; [by intros ?%elem_of_nil|].
  destruct k as [|k]; [|apply IH]. rewrite code_points_go_cons.
  destruct (Py.decode_first (String c s)) as [[cp' n]|] eqn:Hd.
  - intros [->|Hin]%elem_of_cons; [|by eapply IH].
    left. by apply decode_first_sound in Hd as [? _].
  - intros [->|Hin]%elem_of_cons; [|by eapply IH].
    right. pose proof (byte_bounded c).
    assert (0x80 ≤ Py.byte c)%N.
    { simpl in Hd. destruct (N.ltb_spec (Py.byte c) 0x80); [done|lia]. }
    apply in_range_spec. lia.
Qed.

Lemma well_formed_scalar (s : string) :
  Py.well_formed s = true → forallb Py.is_scalar (Py.code_points s) = true.
Proof.
  unfold Py.well_formed. rewrite !forallb_forall. intros H cp Hin.
  specialize (H cp Hin). apply list_elem_of_In in Hin.
  apply code_points_go_kinds in Hin as [Hs|He]; [done|]. by rewrite He in H.
Qed.

Lemma scalar_well_formed (l : list N) :
  forallb Py.is_scalar l = true → Py.well_formed (Py.encode l) = true.
Proof.
  intros Hl. unfold Py.well_formed. rewrite code_points_encode by done.
  rewrite forallb_forall in Hl |- *. intros cp Hin. specialize (Hl cp Hin).
  apply negb_true_iff, in_range_false. apply is_scalar_spec in Hl. lia.
Qed.

(** The code points of well-formed text followed by more text. *)
Lemma code_points_app (s t : string) :
  Py.well_formed s = true →
  Py.code_points (s +:+ t) = Py.code_points s ++ Py.code_points t.
Proof.
  intros Hs. rewrite <- (encode_code_points s) at 1.
  by apply code_points_encode_app, well_formed_scalar.
Qed.

(** The bytes of a code point outside ASCII are outside ASCII. *)
Lemma utf8_no_ascii (cp : N) :
  (0x80 ≤ cp)%N → (cp ≤ 0x10FFFF)%N → no_ascii (Py.utf8 cp) = true.
Proof.
  intros Hlo Hhi. unfold Py.utf8. mods.
  destruct (N.ltb_spec cp 0x80) as [Hr1|Hr1]; [lia|].
  destruct (N.ltb_spec cp 0x800) as [Hr2|Hr2].
  { simpl. bytes_of cp. decide_tests. done. }
  destruct (Py.in_range 0xDC80 0xDCFF cp) eqn:He.
  { apply in_range_spec in He. simpl. bytes_of cp. decide_tests. done. }
  destruct (N.ltb_spec cp 0x10000) as [Hr3|Hr3].
  { simpl. bytes_of cp. decide_tests. done. }
  simpl. bytes_of cp. decide_tests. done.
Qed.

(** ** ASCII text *)

Lemma code_points_ascii (s : string) :
  is_ascii s = true → Py.code_points s = bytes s.
Proof.
  unfold Py.code_points. induction s as [|c s IH]; [done|].
  intros [Hc Hs]%andb_true_iff. rewrite code_points_go_cons.
  cbn [Py.decode_first]. cbv zeta. rewrite Hc. simpl. by rewrite IH.
Qed.

Lemma encode_bytes (s : string) : is_ascii s = true → Py.encode (bytes s) = s.
Proof. intros Hs. by rewrite <- code_points_ascii, encode_code_points. Qed.

Lemma is_ascii_app (s t : string) : is_ascii (s +:+ t) = is_ascii s && is_ascii t.
Proof.
  induction s as [|c s IH]; [done|]. rewrite app_cons. simpl.
  by rewrite IH, andb_assoc.
Qed.

Lemma is_ascii_well_formed (s : string) : is_ascii s = true → Py.well_formed s = true.
Proof.
  intros Hs. unfold Py.well_formed. rewrite code_points_ascii by done.
  induction s as [|c s IH]; [done|].
  apply andb_true_iff in Hs as [Hc Hs]. simpl. rewrite IH by done.
  apply N.ltb_lt in Hc. rewrite (proj2 (in_range_false _ _ _)) by lia. done.
Qed.

(** On ASCII characters the case mappings of Unicode are those of the
    letters a-z and A-Z. *)
Lemma upper_point_ascii (c : ascii) :
  (Py.byte c <? 0x80)%N = true →
  Py.upper_point (Py.byte c) = [Py.byte (upper_char c)].
Proof.
  destruct c as [[] [] [] [] [] [] [] []]; intros H;
    first [discriminate H|vm_compute; reflexivity].
Qed.

Lemma lower_point_ascii (c : ascii) :
  (Py.byte c <? 0x80)%N = true →
  Py.lower_point (Py.byte c) = [Py.byte (lower_char c)].
Proof.
  destruct c as [[] [] [] [] [] [] [] []]; intros H;
    first [discriminate H|vm_compute; reflexivity].
Qed.

Lemma upper_char_ascii (c : ascii) :
  (Py.byte c <? 0x80)%N = true → (Py.byte (upper_char c) <? 0x80)%N = true.
Proof.
  destruct c as [[] [] [] [] [] [] [] []]; intros H;
    first [discriminate H|vm_compute; reflexivity].
Qed.

Lemma lower_char_ascii (c : ascii) :
  (Py.byte c <? 0x80)%N = true → (Py.byte (lower_char c) <? 0x80)%N = true.
Proof.
  destruct c as [[] [] [] [] [] [] [] []]; intros H;
    first [discriminate H|vm_compute; reflexivity].
Qed.

Lemma upper_ascii (s : string) : is_ascii s = true → Py.upper s = ascii_upper s.
Proof.
  intros Hs. unfold Py.upper. rewrite code_points_ascii by done.
  induction s as [|c s IH]; [done|].
  apply andb_true_iff in Hs as [Hc Hs]. simpl.
  rewrite upper_point_ascii by done. simpl. rewrite IH by done.
  rewrite utf8_byte by (by apply N.ltb_lt, upper_char_ascii). done.
Qed.

(** ** The identity extractor *)

Lemma get_dicom_attribute_eq (dataset : Dataset) (attribute : string) :
  element_keyword attribute = true →
  get_dicom_attribute dataset attribute = Ok (attribute_or_unknown dataset attribute).
Proof.
  intros Hkey. unfold get_dicom_attribute, getattr, attribute_or_unknown.
  rewrite Hkey. by destruct (dataset !! attribute) as [[s|items shown|outcome]|].
Qed.




(** ** The anonymiser *)

Lemma clear_lookup_other (dataset : Dataset) (name : string) :
  name ≠ "PatientBirthDate" → name ≠ "PatientName" →
  clear_name_and_birth_date dataset !! name = dataset !! name.
Proof.
  intros Hb Hn. unfold clear_name_and_birth_date, setattr.
  repeat case_match; rewrite ?lookup_insert_ne by done; done.
Qed.

Lemma clear_lookup_name (dataset : Dataset) :
  clear_name_and_birth_date dataset !! "PatientName"
  = cleared_to "ANONYMIZED" (dataset !! "PatientName").
Proof.
  unfold clear_name_and_birth_date, setattr, dataset_contains.
  destruct (dataset !! "PatientBirthDate") as [[b|b1 b2|b]|] eqn:Hb;
    rewrite ?lookup_insert_ne by done;
    destruct (dataset !! "PatientName") as [[n|n1 n2|n]|] eqn:Hn; simpl;
    rewrite ?lookup_insert_eq, ?lookup_insert_ne by done; by rewrite ?Hn.
Qed.

Lemma clear_lookup_birth_date (dataset : Dataset) :
  clear_name_and_birth_date dataset !! "PatientBirthDate"
  = cleared_to "" (dataset !! "PatientBirthDate").
Proof.
  unfold clear_name_and_birth_date, setattr, dataset_contains.
  destruct (dataset !! "PatientBirthDate") as [[b|b1 b2|b]|] eqn:Hb;
    rewrite ?lookup_insert_ne by done;
    destruct (dataset !! "PatientName") as [[n|n1 n2|n]|] eqn:Hn; simpl;
    rewrite ?lookup_insert_ne by done; rewrite ?lookup_insert_eq; by rewrite ?Hb.
Qed.

(** The function, case by case. *)
Lemma anonymize_dicom_tags_eq (dataset : Dataset)
    (id_map : option (gmap string string)) (w : World) :
  anonymize_dicom_tags dataset id_map w
  = let cleared := clear_name_and_birth_date dataset in
    match dataset !! "PatientID", id_map with
    | Some (Text old_id), Some m =>
        if bool_decide (m = ∅) then (Ok cleared, w)
        else match m !! old_id with
             | Some new_id =>
                 (Ok (<["PatientID" := element_of_str new_id]> cleared), w)
             | None => (Ok cleared, set_missing_ids ({[old_id]} ∪ missing_ids w) w)
             end
    | Some (Multi _ _), Some m =>
        if bool_decide (m = ∅) then (Ok cleared, w) else (Raise unhashable, w)
    | _, _ => (Ok cleared, w)
    end.
Proof.
  unfold anonymize_dicom_tags. fold (clear_name_and_birth_date dataset).
  set (cleared := clear_name_and_birth_date dataset). simpl.
  assert (Hid : cleared !! "PatientID" = dataset !! "PatientID")
    by (by apply clear_lookup_other).
  unfold dataset_contains. rewrite Hid.
  destruct (dataset !! "PatientID") as [[old_id|items shown|outcome]|] eqn:Hold;
    try reflexivity.
  - destruct id_map as [m|]; [|reflexivity]. simpl.
    case_bool_decide as Hm; [reflexivity|]. simpl.
    unfold mbind, M_bind, lift, getattr. rewrite Hid. simpl.
    destruct (m !! old_id) as [new_id|] eqn:Hnew.
    + rewrite bool_decide_true by eauto. reflexivity.
    + rewrite bool_decide_false by (intros [? ?]; done). reflexivity.
  - destruct id_map as [m|]; [|reflexivity]. simpl.
    case_bool_decide as Hm; [reflexivity|]. simpl.
    unfold mbind, M_bind, lift, getattr. rewrite Hid. reflexivity.
Qed.

(** C2 as stated fails: a PatientID with several values, which is what
    pydicom makes of a stored value with a backslash, cannot be looked up in
    the map, and the operation fails. *)
Lemma several_ids_counterexample :
  ¬ (∀ (dataset : Dataset) (m : gmap string string) (w : World),
       dataset_contains "PatientID" dataset = true →
       m ≠ ∅ →
       ∃ dataset' w', anonymize_dicom_tags dataset (Some m) w = (Ok dataset', w')).
Proof.
  intros H.
  destruct (H two_ids_dataset {["A17" := "sub-01"]} (initial_world ∅))
    as (dataset' & w' & Hrun).
  - reflexivity.
  - intros Hm. apply (f_equal (λ m : gmap string string, m !! "A17")) in Hm.
    vm_compute in Hm. discriminate Hm.
  - vm_compute in Hrun. discriminate Hrun.
Qed.

(** C2, amended: with a non-empty correlation map, a PatientID of one value
    is replaced by its image when it is a key of the map, and otherwise kept
    and recorded as unresolved, and the call returns normally either way; a
    PatientID of several values makes the call fail with [TypeError], with
    nothing recorded. *)
Theorem anonymize_dicom_tags_remaps (dataset : Dataset) (m : gmap string string)
    (w : World) :
  m ≠ ∅ →
  (∀ old_id, dataset !! "PatientID" = Some (Text old_id) →
     ∃ dataset' w',
       anonymize_dicom_tags dataset (Some m) w = (Ok dataset', w')
       ∧ dataset' !! "PatientID"
         = Some (match m !! old_id with
                 | Some new_id => element_of_str new_id
                 | None => Text old_id
                 end)
       ∧ missing_ids w' = match m !! old_id with
                          | Some _ => missing_ids w
                          | None => {[old_id]} ∪ missing_ids w
                          end
       ∧ fs w' = fs w ∧ stdout w' = stdout w)
  ∧ (∀ items shown, dataset !! "PatientID" = Some (Multi items shown) →
       anonymize_dicom_tags dataset (Some m) w
       = (Raise (Exception TypeError "unhashable type: 'MultiValue'"), w)).
Proof.
  intros Hm. split.
  - intros old_id Hold. rewrite anonymize_dicom_tags_eq. simpl. rewrite Hold.
    rewrite bool_decide_false by done.
    destruct (m !! old_id) as [new_id|] eqn:Hnew; simpl.
    + eexists _, _. split; [reflexivity|]. rewrite lookup_insert_eq. done.
    + eexists _, _. split; [reflexivity|].
      rewrite clear_lookup_other by done. done.
  - intros items shown Hold. rewrite anonymize_dicom_tags_eq. simpl. rewrite Hold.
    by rewrite bool_decide_false by done.
Qed.

Lemma anonymize_dicom_tags_remaps_witness :
  (∃ dataset' w',
     anonymize_dicom_tags sample_dataset (Some {["P1" := "sub-01"]})
       (initial_world ∅) = (Ok dataset', w')
     ∧ dataset' !! "PatientID" = Some (Text "sub-01")
     ∧ missing_ids w' = ∅)
  ∧ (∃ dataset' w',
       anonymize_dicom_tags sample_dataset (Some {["A17" := "sub-01"]})
         (initial_world ∅) = (Ok dataset', w')
       ∧ dataset' !! "PatientID" = Some (Text "P1")
       ∧ missing_ids w' = {["P1"]})
  ∧ anonymize_dicom_tags two_ids_dataset (Some {["A17" := "sub-01"]})
      (initial_world ∅)
    = (Raise (Exception TypeError "unhashable type: 'MultiValue'"),
       initial_world ∅).
Proof.
  pose proof (λ k v : string, map_non_empty_singleton (M := gmap string) k v)
    as Hne.
  split; [|split].
  - destruct (proj1 (anonymize_dicom_tags_remaps sample_dataset
                       {["P1" := "sub-01"]} (initial_world ∅) (Hne _ _))
                "P1" eq_refl) as (dataset' & w' & Hrun & Hid & Hmiss & _).
    exists dataset', w'. split; [exact Hrun|]. split; [exact Hid|exact Hmiss].
  - destruct (proj1 (anonymize_dicom_tags_remaps sample_dataset
                       {["A17" := "sub-01"]} (initial_world ∅) (Hne _ _))
                "P1" eq_refl) as (dataset' & w' & Hrun & Hid & Hmiss & _).
    exists dataset', w'. split; [exact Hrun|]. split; [exact Hid|].
    rewrite Hmiss. vm_compute. reflexivity.
  - apply (proj2 (anonymize_dicom_tags_remaps two_ids_dataset
                    {["A17" := "sub-01"]} (initial_world ∅) (Hne _ _))
             ["A17"; "B4"] "['A17', 'B4']").
    reflexivity.
Defined.

(** C3 as stated fails: a correlation map alone, without the anonymize
    option, also clears the name. *)
Lemma map_alone_clears_name_counterexample :
  ¬ (∀ (anonymize : bool) (id_map : option (gmap string string))
       (dataset dataset' : Dataset) (w w' : World),
       anonymize_if_requested anonymize id_map dataset w = (Ok dataset', w') →
       dataset' !! "PatientName"
       = if anonymize then cleared_to "ANONYMIZED" (dataset !! "PatientName")
         else dataset !! "PatientName").
Proof.
  intros H.
  specialize (H false (Some {["A17" := "sub-01"]})
                {["PatientName" := Text "Doe^John"]}
                {["PatientName" := Text "ANONYMIZED"]}
                (initial_world ∅) (initial_world ∅) eq_refl).
  vm_compute in H. discriminate H.
Qed.

(** C3, amended: name and birth date are cleared exactly when they are
    present and the anonymize option or a non-empty correlation map was
    given; the id is remapped exactly when a non-empty map was given that
    has the id as a key.  The step fails, with [TypeError], only when a
    non-empty map meets a PatientID of several values. *)
Theorem anonymize_if_requested_spec (anonymize : bool)
    (id_map : option (gmap string string)) (dataset : Dataset) (w : World) :
  if id_map_truthy id_map && several_values (dataset !! "PatientID")
  then anonymize_if_requested anonymize id_map dataset w
       = (Raise (Exception TypeError "unhashable type: 'MultiValue'"), w)
  else
    ∃ dataset' w',
      anonymize_if_requested anonymize id_map dataset w = (Ok dataset', w')
      ∧ dataset' !! "PatientName"
        = (if anonymize || id_map_truthy id_map
           then cleared_to "ANONYMIZED" (dataset !! "PatientName")
           else dataset !! "PatientName")
      ∧ dataset' !! "PatientBirthDate"
        = (if anonymize || id_map_truthy id_map
           then cleared_to "" (dataset !! "PatientBirthDate")
           else dataset !! "PatientBirthDate")
      ∧ dataset' !! "PatientID"
        = (match id_map with
           | Some m => remapped m (dataset !! "PatientID")
           | None => dataset !! "PatientID"
           end).
Proof.
  unfold anonymize_if_requested.
  destruct (anonymize || id_map_truthy id_map) eqn:Hreq.
  - rewrite anonymize_dicom_tags_eq. simpl.
    pose proof (clear_lookup_name dataset) as Hn.
    pose proof (clear_lookup_birth_date dataset) as Hb.
    pose proof (clear_lookup_other dataset "PatientID") as Hi.
    destruct id_map as [m|]; simpl.
    + destruct (bool_decide (m = ∅)) eqn:Hm; simpl.
      * apply bool_decide_eq_true in Hm. subst m.
        assert (remapped ∅ (dataset !! "PatientID") = dataset !! "PatientID") as Hre.
        { by destruct (dataset !! "PatientID") as [[?|??|?]|]. }
        destruct (dataset !! "PatientID") as [[old_id|items shown|outcome]|] eqn:Hold;
          (eexists _, _; split; [reflexivity|]);
          rewrite Hn, Hb, Hi by done; by rewrite ?Hre.
      * destruct (dataset !! "PatientID") as [[old_id|items shown|outcome]|] eqn:Hold;
          simpl; [|done|..].
        -- destruct (m !! old_id) as [new_id|] eqn:Hnew;
             (eexists _, _; split; [reflexivity|]).
           ++ rewrite !lookup_insert_ne by done. by rewrite lookup_insert_eq.
           ++ by rewrite Hn, Hb, Hi by done.
        -- eexists _, _. split; [reflexivity|]. by rewrite Hn, Hb, Hi by done.
        -- eexists _, _. split; [reflexivity|]. by rewrite Hn, Hb, Hi by done.
    + assert ((match dataset !! "PatientID" with
               | Some (Text _) | _ => (Ok (clear_name_and_birth_date dataset), w)
               end : result Dataset * World)
              = (Ok (clear_name_and_birth_date dataset), w)) as ->
        by (by destruct (dataset !! "PatientID") as [[?|??|?]|]).
      eexists _, _. split; [reflexivity|]. by rewrite Hn, Hb, Hi by done.
  - apply orb_false_elim in Hreq as [_ Hmap]. rewrite Hmap. simpl.
    eexists _, _. split; [reflexivity|].
    destruct id_map as [m|]; [|done]. simpl in Hmap.
    apply negb_false_iff, bool_decide_eq_true in Hmap. subst m.
    split_and!; try done. by destruct (dataset !! "PatientID") as [[?|??|?]|].
Qed.

(** ** What the anonymiser leaves alone *)

Lemma setattr_dom (dataset : Dataset) (name value : string) :
  dataset_contains name dataset = true →
  dom (setattr dataset name value) = dom dataset.
Proof.
  unfold dataset_contains, setattr. intros H. rewrite dom_insert_L.
  destruct (dataset !! name) as [a|] eqn:Ha; [|done].
  apply (elem_of_dom_2 dataset) in Ha. set_solver.
Qed.

Lemma clear_dom (dataset : Dataset) :
  dom (clear_name_and_birth_date dataset) = dom dataset.
Proof.
  unfold clear_name_and_birth_date.
  destruct (dataset_contains "PatientBirthDate" dataset) eqn:Hb;
    destruct (dataset_contains "PatientName" _) eqn:Hn;
    by rewrite ?setattr_dom by done.
Qed.

(** X4: [anonymize_dicom_tags] fails only when a non-empty map meets a
    PatientID of several values, with [TypeError] and nothing changed;
    in every other case it returns normally, adds no element to the dataset
    and removes none, changes no element other than PatientBirthDate,
    PatientName and PatientID, forgets no unresolved id, and touches neither
    the file system nor the output. *)
Theorem anonymize_dicom_tags_frame (dataset : Dataset)
    (id_map : option (gmap string string)) (w : World) :
  if id_map_truthy id_map && several_values (dataset !! "PatientID")
  then anonymize_dicom_tags dataset id_map w
       = (Raise (Exception TypeError "unhashable type: 'MultiValue'"), w)
  else
    ∃ dataset' w',
      anonymize_dicom_tags dataset id_map w = (Ok dataset', w')
      ∧ dom dataset' = dom dataset
      ∧ (∀ name, name ≠ "PatientBirthDate" → name ≠ "PatientName" →
                 name ≠ "PatientID" → dataset' !! name = dataset !! name)
      ∧ missing_ids w ⊆ missing_ids w'
      ∧ fs w' = fs w ∧ stdout w' = stdout w.
Proof.
  rewrite anonymize_dicom_tags_eq. simpl.
  pose proof (clear_dom dataset) as Hdom.
  pose proof (clear_lookup_other dataset) as Hother.
  destruct id_map as [m|]; simpl.
  - destruct (bool_decide (m = ∅)) eqn:Hm; simpl.
    + destruct (dataset !! "PatientID") as [[old_id|items shown|outcome]|];
        (eexists _, _; split; [reflexivity|]); split_and!; auto.
    + destruct (dataset !! "PatientID") as [[old_id|items shown|outcome]|] eqn:Hold;
        simpl; [|done|..].
      * destruct (m !! old_id) as [new_id|] eqn:Hnew;
          (eexists _, _; split; [reflexivity|]); simpl.
        -- split.
           ++ rewrite dom_insert_L, Hdom. apply (elem_of_dom_2 dataset) in Hold.
              set_solver.
           ++ split; [|done]. intros name Hb Hn Hi.
              rewrite lookup_insert_ne by done. auto.
        -- split; [done|]. split; [by auto|]. split; [set_solver|done].
      * eexists _, _. split; [reflexivity|]. split_and!; auto.
      * eexists _, _. split; [reflexivity|]. split_and!; auto.
  - assert ((match dataset !! "PatientID" with
             | Some (Text _) | _ => (Ok (clear_name_and_birth_date dataset), w)
             end : result Dataset * World)
            = (Ok (clear_name_and_birth_date dataset), w)) as ->
      by (by destruct (dataset !! "PatientID") as [[?|??|?]|]).
    eexists _, _. split; [reflexivity|]. split_and!; auto.
Qed.

(** ** The series predicate *)

Lemma nat_of_ascii_inj (a b : ascii) : nat_of_ascii a = nat_of_ascii b → a = b.
Proof.
  intros H. apply (f_equal ascii_of_nat) in H. by rewrite !ascii_nat_embedding in H.
Qed.

Lemma upper_char_fixed_not_lower (b : ascii) :
  upper_char b = b → is_ascii_lower b = false.
Proof.
  unfold upper_char. destruct (is_ascii_lower b) eqn:Hl; [|done].
  intros H. apply (f_equal nat_of_ascii) in H.
  pose proof (nat_ascii_bounded b).
  rewrite nat_ascii_embedding in H by lia.
  unfold is_ascii_lower in Hl. apply andb_true_iff in Hl as [Hl _].
  apply Nat.leb_le in Hl. lia.
Qed.

Lemma upper_char_same_letter (a b : ascii) :
  upper_char b = b → upper_char a = b ↔ same_letter a b.
Proof.
  intros Hb. apply upper_char_fixed_not_lower in Hb.
  unfold same_letter, upper_char.
  pose proof (nat_ascii_bounded a) as Ha.
  destruct (is_ascii_lower a) eqn:Hl.
  - assert (97 ≤ nat_of_ascii a) as Hge.
    { unfold is_ascii_lower in Hl. apply andb_true_iff in Hl as [Hl _].
      by apply Nat.leb_le in Hl. }
    split.
    + intros H. right; left. split; [done|].
      apply (f_equal nat_of_ascii) in H. rewrite nat_ascii_embedding in H by lia. lia.
    + intros [->|[[_ H]|[H _]]]; [congruence| |congruence].
      apply nat_of_ascii_inj. rewrite nat_ascii_embedding by lia. lia.
  - split; [by left|]. intros [H|[[H _]|[H _]]]; [done|congruence|congruence].
Qed.

Lemma upper_equal_nocase (s t : string) :
  ascii_upper t = t → ascii_upper s = t ↔ equal_nocase s t.
Proof.
  revert t. induction s as [|a s IH]; intros [|b t] Ht; simpl; try done.
  injection Ht as Hb Ht. rewrite <- (IH t Ht), <- (upper_char_same_letter a b Hb).
  unfold ascii_upper. simpl.
  split; [intros H; by injection H|intros [-> ->]; done].
Qed.

(** Containment up to case: some substring of [s] equals [sub] up to case. *)
Lemma contains_upper_spec (sub s : string) :
  ascii_upper sub = sub →
  Py.contains sub (ascii_upper s) = true
  ↔ ∃ pre word post, s = pre +:+ word +:+ post ∧ equal_nocase word sub.
Proof.
  intros Hsub. rewrite contains_spec. split.
  - intros (pre' & post' & H). unfold ascii_upper in H.
    apply map_chars_app_inv in H as (pre & rest & -> & _ & H).
    apply map_chars_app_inv in H as (word & post & -> & H & _).
    exists pre, word, post. split; [done|]. by apply upper_equal_nocase.
  - intros (pre & word & post & -> & H). apply upper_equal_nocase in H; [|done].
    exists (ascii_upper pre), (ascii_upper post). unfold ascii_upper in *.
    by rewrite !map_chars_app, H.
Qed.

Lemma keyword_upper (sub : string) :
  sub ∈ dicom_sort_series_filtering.series_keywords → ascii_upper sub = sub.
Proof.
  unfold dicom_sort_series_filtering.series_keywords. rewrite !elem_of_cons.
  intros [->|[->|[->|[]%elem_of_nil]]]; reflexivity.
Qed.

(** Containment of a keyword up to the case of the letters a-z, as a
    test. *)
Lemma contains_nocase_spec (series_desc : string) :
  existsb (λ sub, Py.contains sub (ascii_upper series_desc))
    dicom_sort_series_filtering.series_keywords = true
  ↔ ∃ sub, sub ∈ dicom_sort_series_filtering.series_keywords
           ∧ ∃ pre word post, series_desc = pre +:+ word +:+ post
                              ∧ equal_nocase word sub.
Proof.
  rewrite existsb_exists. split.
  - intros (sub & Hin%list_elem_of_In & Hc). exists sub. split; [done|].
    apply contains_upper_spec; [by apply keyword_upper|done].
  - intros (sub & Hin & H). exists sub. split; [by apply list_elem_of_In|].
    apply contains_upper_spec; [by apply keyword_upper|done].
Qed.

Lemma should_process_series_run (series_desc series_num : string) (w : World) :
  dicom_sort_series_filtering.should_process_series series_desc series_num w
  = (Ok (Py.endswith series_num "1"
         && existsb (λ sub, Py.contains sub (Py.upper series_desc))
              ["T1"; "T2"; "FLAIR"]),
     set_stdout (stdout w ++ ["Checking Series: Description='" +:+ series_desc
                              +:+ "', Number='" +:+ series_num +:+ "'"]) w).
Proof.
  unfold dicom_sort_series_filtering.should_process_series,
    dicom_sort_series_filtering.series_keywords.
  unfold mbind, M_bind, print, modify_world.
  by destruct (Py.endswith series_num "1" && _).
Qed.

(** C7 as stated fails: [str.upper] is the upper-casing of Unicode, under
    which the dotless i becomes the letter I, so a description that holds
    none of the three words in any case of its letters is accepted. *)
Lemma dotless_i_counterexample :
  ¬ (∀ (series_desc series_num : string) (w : World),
       ∃ accepted,
         (dicom_sort_series_filtering.should_process_series series_desc series_num w).1
         = Ok accepted
         ∧ (accepted = true
            ↔ (∃ p, series_num = p +:+ "1")
              ∧ ∃ sub, sub ∈ ["T1"; "T2"; "FLAIR"]
                       ∧ ∃ pre word post, series_desc = pre +:+ word +:+ post
                                          ∧ equal_nocase word sub)).
Proof.
  intros H.
  destruct (H dotless_flair "1" (initial_world ∅)) as (accepted & Hrun & Hiff).
  vm_compute in Hrun. injection Hrun as <-.
  destruct (proj1 Hiff eq_refl) as [_ Hsub].
  apply contains_nocase_spec in Hsub. vm_compute in Hsub. discriminate Hsub.
Qed.

(** C7, amended: the predicate holds exactly when the series number ends in
    1 and the upper-case form of the description, as Unicode defines it,
    contains T1, T2 or FLAIR; for a description of ASCII characters that is
    the case exactly when the description contains one of the three words
    up to the case of its letters; T1_MPRAGE with number 3 is rejected and
    T2_FLAIR with number 11 accepted.  The call only adds its trace line to
    the output. *)
Theorem should_process_series_spec (series_desc series_num : string) (w : World) :
  (∃ accepted,
     dicom_sort_series_filtering.should_process_series series_desc series_num w
     = (Ok accepted,
        set_stdout (stdout w ++ ["Checking Series: Description='" +:+ series_desc
                                 +:+ "', Number='" +:+ series_num +:+ "'"]) w)
     ∧ (accepted = true
        ↔ (∃ p, series_num = p +:+ "1")
          ∧ ∃ sub, sub ∈ ["T1"; "T2"; "FLAIR"]
                   ∧ ∃ pre post, Py.upper series_desc = pre +:+ sub +:+ post)
     ∧ (is_ascii series_desc = true →
        (accepted = true
         ↔ (∃ p, series_num = p +:+ "1")
           ∧ ∃ sub, sub ∈ ["T1"; "T2"; "FLAIR"]
                    ∧ ∃ pre word post, series_desc = pre +:+ word +:+ post
                                       ∧ equal_nocase word sub)))
  ∧ (dicom_sort_series_filtering.should_process_series "T1_MPRAGE" "3" w).1 = Ok false
  ∧ (dicom_sort_series_filtering.should_process_series "T2_FLAIR" "11" w).1 = Ok true.
Proof.
  split; [|split; reflexivity].
  rewrite should_process_series_run.
  set (b := Py.endswith series_num "1"
            && existsb (λ sub, Py.contains sub (Py.upper series_desc))
                 ["T1"; "T2"; "FLAIR"]).
  exists b. split; [done|]. split.
  - unfold b. rewrite andb_true_iff, endswith_spec, existsb_exists.
    apply and_iff_compat_l. split.
    + intros (sub & Hin & Hc). exists sub. split; [by apply list_elem_of_In|].
      by apply contains_spec.
    + intros (sub & Hin & H). exists sub. split; [by apply list_elem_of_In|].
      by apply contains_spec.
  - intros Hascii. unfold b. rewrite andb_true_iff, endswith_spec.
    apply and_iff_compat_l. rewrite upper_ascii by done.
    apply contains_nocase_spec.
Qed.

Lemma should_process_series_spec_witness :
  (dicom_sort_series_filtering.should_process_series "t1_mprage" "21"
     (initial_world ∅)).1 = Ok true
  ∧ ∃ sub, sub ∈ ["T1"; "T2"; "FLAIR"]
           ∧ ∃ pre word post, "t1_mprage" = pre +:+ word +:+ post
                              ∧ equal_nocase word sub.
Proof.
  destruct (should_process_series_spec "t1_mprage" "21" (initial_world ∅))
    as ((accepted & Hrun & _ & Hascii) & _).
  assert (accepted = true) as Haccepted.
  { vm_compute in Hrun. by injection Hrun as <-. }
  split; [by rewrite Hrun, Haccepted|].
  exact (proj2 (proj1 (Hascii eq_refl) Haccepted)).
Defined.

(** ** Sanitising a series description *)

Lemma replace_char_cons (c a : ascii) (s new : string) :
  Py.replace (String c s) (String a "") new
  = (if decide (a = c) then new else String c "") +:+ Py.replace s (String a "") new.
Proof.
  unfold Py.replace. simpl. case_decide; [done|]. by rewrite app_cons.
Qed.

Lemma replace_char_app (a : ascii) (s t new : string) :
  Py.replace (s +:+ t) (String a "") new
  = Py.replace s (String a "") new +:+ Py.replace t (String a "") new.
Proof.
  induction s as [|c s IH]; [done|].
  by rewrite app_cons, !replace_char_cons, IH, app_assoc_str.
Qed.

Lemma re_sub_class_app (chars s t : string) :
  Py.re_sub_class chars (s +:+ t)
  = Py.re_sub_class chars s +:+ Py.re_sub_class chars t.
Proof.
  induction s as [|c s IH]; [done|]. rewrite app_cons. simpl.
  destruct (Py.contains (String c "") chars); by rewrite IH.
Qed.

Lemma tidy_description_app (s t : string) :
  tidy_description (s +:+ t) = tidy_description s +:+ tidy_description t.
Proof.
  unfold tidy_description. by rewrite !replace_char_app, re_sub_class_app.
Qed.

Lemma all_clean_app (s t : string) :
  all_clean (s +:+ t) = all_clean s && all_clean t.
Proof.
  induction s as [|c s IH]; [done|]. rewrite app_cons. simpl.
  by rewrite IH, andb_assoc.
Qed.

Lemma tidy_char_clean (c : ascii) : all_clean (tidy_description (String c "")) = true.
Proof. destruct c as [[] [] [] [] [] [] [] []]; reflexivity. Qed.

Lemma tidy_char_fixed (c : ascii) :
  all_clean (String c "") = true → tidy_description (String c "") = String c "".
Proof. destruct c as [[] [] [] [] [] [] [] []]; intros H; (reflexivity || discriminate H). Qed.

Lemma tidy_description_clean (s : string) : all_clean (tidy_description s) = true.
Proof.
  induction s as [|c s IH]; [done|].
  change (String c s) with (String c "" +:+ s).
  by rewrite tidy_description_app, all_clean_app, tidy_char_clean, IH.
Qed.

Lemma tidy_description_fixed (s : string) :
  all_clean s = true → tidy_description s = s.
Proof.
  induction s as [|c s IH]; [done|]. intros H.
  change (String c s) with (String c "" +:+ s) in *.
  rewrite all_clean_app in H. apply andb_true_iff in H as [Hc Hs].
  by rewrite tidy_description_app, tidy_char_fixed, IH.
Qed.

(** The replacements and the substitution alone are idempotent. *)
Lemma tidy_description_idempotent (s : string) :
  tidy_description (tidy_description s) = tidy_description s.
Proof. apply tidy_description_fixed, tidy_description_clean. Qed.

(** C8: [sanitize_series_description] is idempotent, for a path sanitiser
    that is idempotent itself and brings back none of the characters the
    function has replaced or removed. *)
Theorem sanitize_series_description_idempotent (sanitize_filepath : string → string) :
  (∀ s, all_clean s = true → all_clean (sanitize_filepath s) = true) →
  (∀ s, all_clean s = true →
        sanitize_filepath (sanitize_filepath s) = sanitize_filepath s) →
  ∀ description,
    dicom_sorting_tool.sanitize_series_description sanitize_filepath
      (dicom_sorting_tool.sanitize_series_description sanitize_filepath description)
    = dicom_sorting_tool.sanitize_series_description sanitize_filepath description.
Proof.
  intros Hclean Hidem description.
  unfold dicom_sorting_tool.sanitize_series_description.
  fold (tidy_description description).
  fold (tidy_description (sanitize_filepath (tidy_description description))).
  pose proof (tidy_description_clean description) as Hc.
  rewrite (tidy_description_fixed _ (Hclean _ Hc)).
  by apply Hidem.
Qed.

Lemma re_sub_class_clean (chars s : string) :
  all_clean s = true → all_clean (Py.re_sub_class chars s) = true.
Proof.
  induction s as [|c s IH]; [done|]. simpl. intros H.
  apply andb_true_iff in H as [Hc Hs].
  destruct (Py.contains (String c "") chars); simpl; [by apply IH|].
  by rewrite Hc, IH.
Qed.

Lemma re_sub_class_idempotent (chars s : string) :
  Py.re_sub_class chars (Py.re_sub_class chars s) = Py.re_sub_class chars s.
Proof.
  induction s as [|c s IH]; [done|]. simpl.
  destruct (Py.contains (String c "") chars) eqn:Hc; [done|].
  simpl. by rewrite Hc, IH.
Qed.

Lemma sanitize_series_description_idempotent_witness :
  let drop_nul := Py.re_sub_class (String "000"%char "") in
  dicom_sorting_tool.sanitize_series_description drop_nul
    (dicom_sorting_tool.sanitize_series_description drop_nul "T1 w/ contrast *3.0")
  = dicom_sorting_tool.sanitize_series_description drop_nul "T1 w/ contrast *3.0".
Proof.
  intros drop_nul.
  apply (sanitize_series_description_idempotent drop_nul).
  - intros s. apply re_sub_class_clean.
  - intros s _. apply re_sub_class_idempotent.
Defined.


(** ** Decimal formatting *)

Lemma uint_of_string_zeros (k : nat) (s : string) (d : uint) :
  NilEmpty.uint_of_string s = Some d →
  NilEmpty.uint_of_string (Py.zeros k +:+ s) = Some (Nat.iter k D0 d).
Proof.
  intros Hs. induction k as [|k IH]; [done|].
  simpl Py.zeros. rewrite app_cons. simpl. by rewrite IH.
Qed.

Lemma of_uint_iter_D0 (k : nat) (d : uint) :
  Nat.of_uint (Nat.iter k D0 d) = Nat.of_uint d.
Proof. induction k as [|k IH]; [done|]. simpl. exact IH. Qed.

Lemma format_0d_inj (width n m : nat) :
  Py.format_0d width n = Py.format_0d width m → n = m.
Proof.
  unfold Py.format_0d, Py.str_of_nat. intros Heq.
  apply (f_equal NilEmpty.uint_of_string) in Heq.
  rewrite !(uint_of_string_zeros _ _ _ (NilEmpty.usu _)) in Heq.
  injection Heq as Heq. apply (f_equal Nat.of_uint) in Heq.
  by rewrite !of_uint_iter_D0, !Unsigned.of_to in Heq.
Qed.

Lemma str_of_nat_inj (n m : nat) : Py.str_of_nat n = Py.str_of_nat m → n = m.
Proof.
  unfold Py.str_of_nat. intros Heq.
  apply (f_equal NilEmpty.uint_of_string) in Heq. rewrite !NilEmpty.usu in Heq.
  injection Heq as Heq. by apply Unsigned.to_uint_inj.
Qed.

Lemma format_counter_inj (prefix : string) (length n m : nat) :
  DICOMDIR_creation_tool.format_counter n prefix length
  = DICOMDIR_creation_tool.format_counter m prefix length → n = m.
Proof.
  unfold DICOMDIR_creation_tool.format_counter. intros Heq.
  apply String.app_inj in Heq. by apply format_0d_inj in Heq.
Qed.

Lemma token_of_inj (q1 q2 : DICOMDIR_creation_tool.query) (n1 n2 : nat) :
  token_of q1 n1 = token_of q2 n2 →
  n1 = n2 ∧ match q1, q2 with
            | DICOMDIR_creation_tool.DateId _ _, DICOMDIR_creation_tool.DateId _ _
            | DICOMDIR_creation_tool.SequenceId _ _ _,
              DICOMDIR_creation_tool.SequenceId _ _ _ => True
            | _, _ => False
            end.
Proof.
  destruct q1, q2; unfold token_of; intros Heq.
  - split; [by apply format_counter_inj in Heq|done].
  - unfold DICOMDIR_creation_tool.format_counter in Heq.
    rewrite !app_cons in Heq. discriminate Heq.
  - unfold DICOMDIR_creation_tool.format_counter in Heq.
    rewrite !app_cons in Heq. discriminate Heq.
  - split; [by apply format_counter_inj in Heq|done].
Qed.


(** ** The counter registry *)

Section registry_facts.
Context {K : Type} {EqK : EqDecision K} {CountK : Countable K}.
Implicit Types (m : gmap K nat) (k : K).

Lemma assign_fresh m k : m !! k = None → assign m k !! k = Some (size m + 1).
Proof. intros Hk. unfold assign. rewrite Hk. apply lookup_insert_eq. Qed.

Lemma assign_known m k n : m !! k = Some n → assign m k = m.
Proof. intros Hk. unfold assign. by rewrite Hk. Qed.

Lemma assign_lookup_self m k : is_Some (assign m k !! k).
Proof.
  destruct (m !! k) as [n|] eqn:Hk.
  - rewrite (assign_known _ _ _ Hk). eauto.
  - rewrite assign_fresh by done. eauto.
Qed.

Lemma assign_stable m k k' n : m !! k' = Some n → assign m k !! k' = Some n.
Proof.
  intros Hk'. unfold assign. destruct (m !! k) eqn:Hk; [done|].
  rewrite lookup_insert_ne; [done|]. intros ->. congruence.
Qed.

Lemma assign_dom m k : dom (assign m k) = {[k]} ∪ dom m.
Proof.
  unfold assign. destruct (m !! k) eqn:Hk.
  - apply (elem_of_dom_2 m) in Hk. set_solver.
  - by rewrite dom_insert_L.
Qed.

Lemma assign_ok m k : registry_ok m → registry_ok (assign m k).
Proof.
  intros [Hrange Hinj]. unfold assign. destruct (m !! k) eqn:Hk; [done|].
  split.
  - intros k' n. rewrite map_size_insert_None by done.
    rewrite lookup_insert. case_decide as Hkk'.
    + intros Heq. injection Heq as Heq. lia.
    + intros Hn. apply Hrange in Hn. lia.
  - intros k1 k2 n. rewrite !lookup_insert.
    case_decide as H1; case_decide as H2; intros Hn1 Hn2.
    + congruence.
    + injection Hn1 as Hn1. apply Hrange in Hn2. lia.
    + injection Hn2 as Hn2. apply Hrange in Hn1. lia.
    + by apply (Hinj k1 k2 n).
Qed.

Lemma registry_ok_empty : registry_ok (∅ : gmap K nat).
Proof. split; [intros k n|intros k1 k2 n]; by rewrite lookup_empty. Qed.

Lemma foldl_assign_stable ks m k n :
  m !! k = Some n → foldl assign m ks !! k = Some n.
Proof.
  revert m. induction ks as [|k0 ks IH]; intros m Hk; [done|].
  simpl. by apply IH, assign_stable.
Qed.

Lemma foldl_assign_ok ks m : registry_ok m → registry_ok (foldl assign m ks).
Proof.
  revert m. induction ks as [|k0 ks IH]; intros m Hm; [done|].
  simpl. by apply IH, assign_ok.
Qed.

Lemma foldl_assign_dom ks m : dom (foldl assign m ks) = list_to_set ks ∪ dom m.
Proof.
  revert m. induction ks as [|k0 ks IH]; intros m; simpl.
  - set_solver.
  - rewrite IH, assign_dom. set_solver.
Qed.

(** The first query of a key receives one more than the number of distinct
    keys queried before it. *)
Lemma first_seen_value (pre post : list K) k :
  k ∉ pre →
  foldl assign ∅ (pre ++ k :: post) !! k
  = Some (size (list_to_set pre : gset K) + 1).
Proof.
  intros Hk. rewrite foldl_app. simpl. apply foldl_assign_stable.
  assert (Hdom : dom (foldl assign ∅ pre) = (list_to_set pre : gset K))
    by (rewrite foldl_assign_dom; set_solver).
  rewrite <- Hdom, size_dom. apply assign_fresh.
  apply not_elem_of_dom. rewrite Hdom. by rewrite elem_of_list_to_set.
Qed.
End registry_facts.

Lemma set_date_counter_id (w : World) : set_date_counter (date_counter w) w = w.
Proof. by destruct w. Qed.

Lemma set_sequence_counter_id (w : World) :
  set_sequence_counter (sequence_counter w) w = w.
Proof. by destruct w. Qed.

Lemma get_date_id_step (patient_id study_date : string) (w : World) :
  ∃ n, assign (date_counter w) (patient_id, study_date) !! (patient_id, study_date)
       = Some n
       ∧ DICOMDIR_creation_tool.get_date_id patient_id study_date w
         = (Ok (DICOMDIR_creation_tool.format_counter n "DAT" 4),
            set_date_counter (assign (date_counter w) (patient_id, study_date)) w).
Proof.
  unfold DICOMDIR_creation_tool.get_date_id, assign.
  unfold mbind, M_bind, get_world, modify_world. simpl.
  destruct (date_counter w !! (patient_id, study_date)) as [n|] eqn:Hk.
  - exists n. split; [done|].
    rewrite bool_decide_true by eauto. simpl. rewrite Hk.
    by rewrite set_date_counter_id.
  - exists (size (date_counter w) + 1). split; [apply lookup_insert_eq|].
    rewrite bool_decide_false by (intros [? ?]; done). simpl.
    by rewrite lookup_insert_eq.
Qed.

Lemma get_sequence_id_step (patient_id study_date series_number : string) (w : World) :
  ∃ n, assign (sequence_counter w) (patient_id, study_date, series_number)
         !! (patient_id, study_date, series_number) = Some n
       ∧ DICOMDIR_creation_tool.get_sequence_id patient_id study_date series_number w
         = (Ok (DICOMDIR_creation_tool.format_counter n "SEQ" 4),
            set_sequence_counter
              (assign (sequence_counter w) (patient_id, study_date, series_number)) w).
Proof.
  unfold DICOMDIR_creation_tool.get_sequence_id, assign.
  unfold mbind, M_bind, get_world, modify_world. simpl.
  destruct (sequence_counter w !! (patient_id, study_date, series_number))
    as [n|] eqn:Hk.
  - exists n. split; [done|].
    rewrite bool_decide_true by eauto. simpl. rewrite Hk.
    by rewrite set_sequence_counter_id.
  - exists (size (sequence_counter w) + 1). split; [apply lookup_insert_eq|].
    rewrite bool_decide_false by (intros [? ?]; done). simpl.
    by rewrite lookup_insert_eq.
Qed.

Lemma ask_step (q : DICOMDIR_creation_tool.query) (w : World) :
  ∃ n, known (after [q] w) q = Some n
       ∧ DICOMDIR_creation_tool.ask q w = (Ok (token_of q n), after [q] w).
Proof.
  destruct q as [p d|p d sn]; simpl.
  - destruct (get_date_id_step p d w) as (n & Hn & Hrun).
    exists n. split; [done|]. by rewrite Hrun.
  - destruct (get_sequence_id_step p d sn w) as (n & Hn & Hrun).
    exists n. split; [done|]. by rewrite Hrun.
Qed.

Lemma after_cons (q : DICOMDIR_creation_tool.query)
    (qs : list DICOMDIR_creation_tool.query) (w : World) :
  after qs (after [q] w) = after (q :: qs) w.
Proof. destruct q, w; reflexivity. Qed.

Lemma known_after_stable (qs : list DICOMDIR_creation_tool.query) (w : World)
    (q : DICOMDIR_creation_tool.query) (n : nat) :
  known w q = Some n → known (after qs w) q = Some n.
Proof. destruct q; simpl; apply foldl_assign_stable. Qed.

(** A run never raises; it leaves the world [after] and answers every query
    with the token of the counter that world holds for it. *)
Lemma run_queries_eq (qs : list DICOMDIR_creation_tool.query) (w : World) :
  ∃ ts, DICOMDIR_creation_tool.run_queries qs w = (Ok ts, after qs w)
        ∧ Forall2 (λ q t, ∃ n, known (after qs w) q = Some n ∧ t = token_of q n) qs ts.
Proof.
  revert w. induction qs as [|q qs IH]; intros w.
  - exists []. split; [by destruct w|constructor].
  - destruct (ask_step q w) as (n & Hn & Hask).
    destruct (IH (after [q] w)) as (ts & Hrun & Hts).
    rewrite after_cons in Hrun, Hts.
    exists (token_of q n :: ts). split.
    + unfold DICOMDIR_creation_tool.run_queries in *. simpl.
      rewrite (bind_ok _ _ _ _ _ Hask). by rewrite (bind_ok _ _ _ _ _ Hrun).
    + constructor; [|done]. exists n. split; [|done].
      rewrite <- after_cons. by apply known_after_stable.
Qed.

Lemma known_initial_ok (f : gmap string node)
    (qs : list DICOMDIR_creation_tool.query)
    (q1 q2 : DICOMDIR_creation_tool.query) (n : nat) :
  known (after qs (initial_world f)) q1 = Some n →
  known (after qs (initial_world f)) q2 = Some n →
  token_of q1 n = token_of q2 n →
  q1 = q2.
Proof.
  intros H1 H2 Ht. apply token_of_inj in Ht as [_ Hkind].
  destruct q1 as [p1 d1|p1 d1 n1], q2 as [p2 d2|p2 d2 n2]; try done; simpl in *.
  - pose proof (foldl_assign_ok (date_keys qs) ∅ registry_ok_empty) as [_ Hinj].
    by injection (Hinj _ _ _ H1 H2) as -> ->.
  - pose proof (foldl_assign_ok (sequence_keys qs) ∅ registry_ok_empty) as [_ Hinj].
    by injection (Hinj _ _ _ H1 H2) as -> -> ->.
Qed.

(** C1: started on empty registries, a run of queries returns normally; two
    queries receive the same token exactly when they have the same key, and
    the first query of a key receives the token of one more than the number
    of distinct keys of its registry queried before it. *)
Theorem counter_registry_deterministic_injective
    (f : gmap string node) (qs : list DICOMDIR_creation_tool.query) :
  ∃ ts w',
    DICOMDIR_creation_tool.run_queries qs (initial_world f) = (Ok ts, w')
    ∧ length ts = length qs
    ∧ (∀ i j qi qj ti tj,
         qs !! i = Some qi → qs !! j = Some qj →
         ts !! i = Some ti → ts !! j = Some tj →
         (ti = tj ↔ qi = qj))
    ∧ (∀ i p d,
         qs !! i = Some (DICOMDIR_creation_tool.DateId p d) →
         DICOMDIR_creation_tool.DateId p d ∉ take i qs →
         ts !! i = Some (DICOMDIR_creation_tool.format_counter
                           (size (list_to_set (date_keys (take i qs))
                                    : gset (string * string)) + 1) "DAT" 4))
    ∧ (∀ i p d n,
         qs !! i = Some (DICOMDIR_creation_tool.SequenceId p d n) →
         DICOMDIR_creation_tool.SequenceId p d n ∉ take i qs →
         ts !! i = Some (DICOMDIR_creation_tool.format_counter
                           (size (list_to_set (sequence_keys (take i qs))
                                    : gset (string * string * string)) + 1) "SEQ" 4)).
Proof.
  destruct (run_queries_eq qs (initial_world f)) as (ts & Hrun & Hts).
  exists ts, (after qs (initial_world f)). split; [done|].
  split; [symmetry; by eapply Forall2_length|].
  split; [|split].
  - intros i j qi qj ti tj Hqi Hqj Hti Htj.
    destruct (Forall2_lookup_lr _ _ _ _ _ _ Hts Hqi Hti) as (ni & Hni & ->).
    destruct (Forall2_lookup_lr _ _ _ _ _ _ Hts Hqj Htj) as (nj & Hnj & ->).
    split.
    + intros Heq. pose proof Heq as Heq'. apply token_of_inj in Heq' as [-> _].
      by apply (known_initial_ok f qs qi qj nj).
    + intros ->. congruence.
  - intros i p d Hq Hfresh.
    destruct (Forall2_lookup_l _ _ _ _ _ Hts Hq) as (t & Ht & n & Hn & ->).
    rewrite Ht. f_equal. simpl. f_equal.
    simpl in Hn. rewrite <- (take_drop_middle _ _ _ Hq) in Hn at 1.
    unfold date_keys in Hn. rewrite omap_app in Hn. simpl in Hn.
    rewrite first_seen_value in Hn; [by injection Hn|].
    intros Hin. apply Hfresh. apply list_elem_of_omap in Hin as (q & Hq' & Hk).
    destruct q; [|done]. by injection Hk as -> ->.
  - intros i p d n0 Hq Hfresh.
    destruct (Forall2_lookup_l _ _ _ _ _ Hts Hq) as (t & Ht & n & Hn & ->).
    rewrite Ht. f_equal. simpl. f_equal.
    simpl in Hn. rewrite <- (take_drop_middle _ _ _ Hq) in Hn at 1.
    unfold sequence_keys in Hn. rewrite omap_app in Hn. simpl in Hn.
    rewrite first_seen_value in Hn; [by injection Hn|].
    intros Hin. apply Hfresh. apply list_elem_of_omap in Hin as (q & Hq' & Hk).
    destruct q; [done|]. by injection Hk as -> -> ->.
Qed.

Lemma counter_registry_deterministic_injective_witness :
  ∃ ts w',
    DICOMDIR_creation_tool.run_queries
      [DICOMDIR_creation_tool.DateId "P1" "20200101";
       DICOMDIR_creation_tool.DateId "P2" "20200101";
       DICOMDIR_creation_tool.DateId "P1" "20200101"]
      (initial_world ∅) = (Ok ts, w')
    ∧ ts !! 0 = Some "DAT0001"
    ∧ ts !! 1 = Some "DAT0002"
    ∧ ts !! 2 = Some "DAT0001".
Proof.
  destruct (counter_registry_deterministic_injective ∅
              [DICOMDIR_creation_tool.DateId "P1" "20200101";
               DICOMDIR_creation_tool.DateId "P2" "20200101";
               DICOMDIR_creation_tool.DateId "P1" "20200101"])
    as (ts & w' & Hrun & Hlen & Hsame & Hdate & _).
  exists ts, w'. split; [exact Hrun|].
  assert (ts !! 0 = Some "DAT0001") as H0.
  { rewrite (Hdate 0 "P1" "20200101" eq_refl); [reflexivity|].
    apply not_elem_of_nil. }
  assert (ts !! 1 = Some "DAT0002") as H1.
  { rewrite (Hdate 1 "P2" "20200101" eq_refl); [reflexivity|].
    simpl. intros Hin. apply list_elem_of_singleton in Hin. discriminate Hin. }
  split; [exact H0|]. split; [exact H1|].
  destruct (ts !! 2) as [t2|] eqn:H2.
  - f_equal. symmetry. by apply (Hsame 0 2 _ _ "DAT0001" t2 eq_refl eq_refl H0 H2).
  - apply lookup_ge_None in H2. simpl in Hlen. lia.
Defined.


(** ** Unique file names *)

Lemma loop_step (fuel : nat) (directory base_name extension : string)
    (counter : nat) (new_filename : string) (w : World) :
  dicom_sorting_tool.generate_unique_filename_loop (S fuel) directory base_name
    extension counter new_filename w
  = if bool_decide (taken w directory new_filename)
    then dicom_sorting_tool.generate_unique_filename_loop fuel directory base_name
           extension (counter + 1) (candidate base_name extension counter) w
    else (Ok (Some new_filename), w).
Proof.
  simpl. unfold mbind at 1, M_bind, os_path_exists, get_world, mbind, taken. simpl.
  destruct (bool_decide _); reflexivity.
Qed.

Lemma loop_finds (w : World) (directory base_name extension : string) (d : nat) :
  ∀ (counter : nat) (new_filename : string) (fuel : nat),
    taken w directory new_filename →
    (∀ j, counter ≤ j < counter + d →
          taken w directory (candidate base_name extension j)) →
    ¬ taken w directory (candidate base_name extension (counter + d)) →
    d + 2 ≤ fuel →
    dicom_sorting_tool.generate_unique_filename_loop fuel directory base_name
      extension counter new_filename w
    = (Ok (Some (candidate base_name extension (counter + d))), w).
Proof.
  induction d as [|d IH]; intros counter new_filename fuel Hnew Hbelow Hfree Hfuel.
  - destruct fuel as [|[|fuel]]; [lia..|].
    rewrite loop_step, bool_decide_true by done.
    rewrite loop_step. rewrite Nat.add_0_r in *. by rewrite bool_decide_false.
  - destruct fuel as [|fuel]; [lia|].
    rewrite loop_step, bool_decide_true by done.
    replace (counter + S d) with (counter + 1 + d) in * by lia.
    apply IH; [apply Hbelow; lia| |done|lia].
    intros j Hj. apply Hbelow. lia.
Qed.

Lemma join_candidate (directory base_name extension : string) :
  ∃ prefix, ∀ k, posixpath.join directory (candidate base_name extension k)
                 = prefix +:+ candidate base_name extension k.
Proof.
  assert (∃ b, ∀ k, Py.startswith (candidate base_name extension k) "/" = b)
    as [b Hb].
  { unfold candidate. destruct base_name as [|c base_name].
    - exists false. intros k. reflexivity.
    - exists (if decide ("/"%char = c) then true else false). intros k.
      rewrite app_cons. simpl. by case_decide. }
  unfold posixpath.join. destruct b.
  - exists "". intros k. by rewrite Hb.
  - destruct (negb (Py.truthy directory) || Py.endswith directory "/").
    + exists directory. intros k. by rewrite Hb.
    + exists (directory +:+ "/"). intros k. by rewrite Hb, app_assoc_str.
Qed.

Lemma join_candidate_inj (directory base_name extension : string) (j k : nat) :
  posixpath.join directory (candidate base_name extension j)
  = posixpath.join directory (candidate base_name extension k) →
  j = k.
Proof.
  destruct (join_candidate directory base_name extension) as [prefix Hp].
  rewrite !Hp. unfold candidate. intros Heq.
  do 3 apply String.app_inj in Heq.
  apply app_inv_tail_str in Heq. by apply str_of_nat_inj.
Qed.

(** Among the first [size + 1] candidates one is free. *)
Lemma candidate_free (w : World) (directory base_name extension : string) :
  ∃ k, 1 ≤ k ≤ size (fs w) + 1
       ∧ ¬ taken w directory (candidate base_name extension k).
Proof.
  set (ks := seq 1 (size (fs w) + 1)).
  destruct (decide (Forall (λ k, taken w directory (candidate base_name extension k)) ks))
    as [Hall|Hsome].
  - exfalso.
    set (paths := (λ k, posixpath.join directory (candidate base_name extension k))
                    <$> ks).
    assert (NoDup paths) as Hnodup.
    { apply NoDup_fmap_2; [|apply NoDup_seq].
      intros j k. apply join_candidate_inj. }
    assert ((list_to_set paths : gset string) ⊆ dom (fs w)) as Hsub.
    { intros p Hp. apply elem_of_list_to_set, list_elem_of_fmap in Hp as (k & -> & Hk).
      apply elem_of_dom. by apply (proj1 (Forall_forall _ _) Hall). }
    apply subseteq_size in Hsub.
    rewrite size_list_to_set, size_dom in Hsub by done.
    unfold paths, ks in Hsub. rewrite length_fmap, length_seq in Hsub. lia.
  - apply not_Forall_Exists in Hsome; [|apply _].
    apply Exists_exists in Hsome as (k & Hk & Hfree).
    exists k. split; [|done]. apply elem_of_seq in Hk. lia.
Qed.

Lemma least_free (P : nat → Prop) `{∀ k, Decision (P k)} (d : nat) :
  ∀ a, ¬ P (a + d) → ∃ k, a ≤ k ≤ a + d ∧ ¬ P k ∧ ∀ j, a ≤ j < k → P j.
Proof.
  induction d as [|d IH]; intros a Hfree.
  - exists a. rewrite Nat.add_0_r in Hfree. split; [lia|]. split; [done|]. lia.
  - destruct (decide (P a)) as [Ha|Ha].
    + replace (a + S d) with (S a + d) in Hfree by lia.
      destruct (IH (S a) Hfree) as (k & Hk & Hfk & Hbelow).
      exists k. split; [lia|]. split; [done|].
      intros j Hj. destruct (decide (j = a)) as [->|]; [done|]. apply Hbelow. lia.
    + exists a. split; [lia|]. split; [done|]. lia.
Qed.

(** C4: with enough iterations allowed, [generate_unique_filename] returns a
    name that is not in use, leaving the world as it is: the proposed name
    when that is free, and otherwise the first of base_1 ext, base_2 ext, ...
    that is free.  With IM000001 in use the result is IM000001_1. *)
Theorem generate_unique_filename_unused (fuel : nat) (directory filename : string)
    (w : World) :
  (size (fs w) + 2 ≤ fuel →
   ∃ name,
     dicom_sorting_tool.generate_unique_filename fuel directory filename w
     = (Ok (Some name), w)
     ∧ fs w !! posixpath.join directory name = None
     ∧ match fs w !! posixpath.join directory filename with
       | None => name = filename
       | Some _ =>
           ∃ k, 1 ≤ k
                ∧ name = candidate (posixpath.splitext filename).1
                           (posixpath.splitext filename).2 k
                ∧ ∀ j, 1 ≤ j < k →
                       taken w directory
                         (candidate (posixpath.splitext filename).1
                            (posixpath.splitext filename).2 j)
       end)
  ∧ (dicom_sorting_tool.generate_unique_filename 4 "out" "IM000001"
       (initial_world {["out" := Dir; "out/IM000001" := File (Raw "")]})).1
    = Ok (Some "IM000001_1").
Proof.
  split; [|reflexivity].
  intros Hfuel. unfold dicom_sorting_tool.generate_unique_filename.
  destruct (posixpath.splitext filename) as [base_name extension]. simpl.
  destruct (fs w !! posixpath.join directory filename) as [n|] eqn:Hfile.
  - destruct (candidate_free w directory base_name extension) as (k0 & Hk0 & Hfree0).
    destruct (least_free (λ k, taken w directory (candidate base_name extension k))
                (k0 - 1) 1) as (k & Hk & Hfree & Hbelow).
    { by replace (1 + (k0 - 1)) with k0 by lia. }
    exists (candidate base_name extension k). split; [|split].
    + replace k with (1 + (k - 1)) by lia. apply loop_finds.
      * unfold taken. rewrite Hfile. eauto.
      * intros j Hj. apply Hbelow. lia.
      * by replace (1 + (k - 1)) with k by lia.
      * lia.
    + unfold taken in Hfree. by apply eq_None_not_Some.
    + exists k. split; [lia|]. split; [done|]. exact Hbelow.
  - exists filename. split; [|done].
    destruct fuel as [|fuel]; [lia|]. rewrite loop_step.
    rewrite bool_decide_false; [done|]. unfold taken. rewrite Hfile.
    by intros [? ?].
Qed.

Lemma generate_unique_filename_unused_witness :
  ∃ name,
    dicom_sorting_tool.generate_unique_filename 4 "out" "a.dcm"
      (initial_world {["out" := Dir; "out/a.dcm" := File (Raw "")]})
    = (Ok (Some name),
       initial_world {["out" := Dir; "out/a.dcm" := File (Raw "")]})
    ∧ name = "a_1.dcm".
Proof.
  destruct (proj1 (generate_unique_filename_unused 4 "out" "a.dcm"
                     (initial_world {["out" := Dir; "out/a.dcm" := File (Raw "")]})))
    as (name & Hrun & _ & _).
  - vm_compute. lia.
  - exists name. split; [exact Hrun|].
    vm_compute in Hrun. by injection Hrun as <-.
Defined.


(** ** Running the primitives *)

Lemma try_except_ok {A} (body : M A) (handler : exn → M A) (w w' : World) (a : A) :
  body w = (Ok a, w') → try_except body handler w = (Ok a, w').
Proof. intros H. unfold try_except. by rewrite H. Qed.

Lemma try_except_raise {A} (body : M A) (handler : exn → M A) (w w' : World) (e : exn) :
  body w = (Raise e, w') → try_except body handler w = handler e w'.
Proof. intros H. unfold try_except. by rewrite H. Qed.

Lemma fmap_ok {A B} (f : A → B) (m : M A) (w w' : World) (a : A) :
  m w = (Ok a, w') → (f <$> m) w = (Ok (f a), w').
Proof. intros H. unfold fmap, M_fmap. by rewrite H. Qed.

Lemma fmap_raise {A B} (f : A → B) (m : M A) (w w' : World) (e : exn) :
  m w = (Raise e, w') → (f <$> m) w = (Raise e, w').
Proof. intros H. unfold fmap, M_fmap. by rewrite H. Qed.

Lemma dcmread_ok (p : string) (ds : Dataset) (w : World) :
  fs w !! p = Some (File (Dicom ds)) → dcmread p w = (Ok ds, w).
Proof. intros H. unfold dcmread. by rewrite H. Qed.

Lemma dcmread_raises (p : string) (w : World) :
  (∀ ds, fs w !! p ≠ Some (File (Dicom ds))) → ∃ e, dcmread p w = (Raise e, w).
Proof.
  intros H. unfold dcmread. destruct (fs w !! p) as [[|[ds|ds|raw]]|] eqn:Hp; eauto.
  by destruct (H ds).
Qed.

Lemma os_makedirs_existing (p : string) (w : World) :
  fs w !! p = Some Dir → os_makedirs p w = (Ok tt, w).
Proof. intros H. unfold os_makedirs. by rewrite H. Qed.

Lemma os_path_exists_run (p : string) (w : World) :
  os_path_exists p w = (Ok (bool_decide (is_Some (fs w !! p))), w).
Proof. reflexivity. Qed.

Lemma anonymize_dicom_tags_world (dataset : Dataset)
    (id_map : option (gmap string string)) (w w' : World) (r : result Dataset) :
  anonymize_dicom_tags dataset id_map w = (r, w') →
  fs w' = fs w ∧ stdout w' = stdout w ∧ stderr w' = stderr w
  ∧ date_counter w' = date_counter w ∧ sequence_counter w' = sequence_counter w
  ∧ image_counter w' = image_counter w ∧ missing_ids w ⊆ missing_ids w'.
Proof.
  rewrite anonymize_dicom_tags_eq. simpl.
  destruct (dataset !! "PatientID") as [[old_id|items shown|outcome]|];
    destruct id_map as [m|]; try (by intros [= <- <-]).
  - case_bool_decide; [by intros [= <- <-]|].
    destruct (m !! old_id); intros [= <- <-]; [done|]. simpl.
    split_and!; try done. set_solver.
  - case_bool_decide; by intros [= <- <-].
Qed.

Lemma anonymize_if_requested_world (anonymize : bool)
    (id_map : option (gmap string string)) (dataset : Dataset) (w w' : World)
    (r : result Dataset) :
  anonymize_if_requested anonymize id_map dataset w = (r, w') →
  fs w' = fs w ∧ stdout w' = stdout w ∧ stderr w' = stderr w.
Proof.
  unfold anonymize_if_requested.
  destruct (anonymize || id_map_truthy id_map); [|by intros [= <- <-]].
  intros H. apply anonymize_dicom_tags_world in H. naive_solver.
Qed.

Lemma shutil_copy2_onto_file (src dst : string) (c c' : content) (w : World) :
  fs w !! src = Some (File c) → fs w !! dst = Some (File c') → src ≠ dst →
  shutil_copy2 src dst w = (Ok tt, set_fs (<[dst := File c]> (fs w)) w).
Proof.
  intros Hsrc Hdst Hne. unfold shutil_copy2, real_destination.
  rewrite Hdst. cbv beta iota zeta. rewrite Hsrc, Hdst.
  by rewrite decide_False by done.
Qed.

Lemma shutil_copy2_onto_itself (src : string) (c : content) (w : World) :
  fs w !! src = Some (File c) →
  shutil_copy2 src src w
  = (Raise (Exception SameFileError
              (Py.repr src +:+ " and " +:+ Py.repr src +:+ " are the same file")),
     w).
Proof.
  intros Hsrc. unfold shutil_copy2, real_destination.
  rewrite Hsrc. cbv beta iota zeta. rewrite Hsrc. by rewrite decide_True by done.
Qed.


Lemma shutil_move_onto_file (src dst : string) (c c' : content) (w : World) :
  fs w !! src = Some (File c) → fs w !! dst = Some (File c') →
  shutil_move src dst w
  = (Ok tt, set_fs (<[dst := File c]> (delete src (fs w))) w).
Proof. intros Hsrc Hdst. unfold shutil_move. by rewrite Hsrc, Hdst. Qed.


(** ** The filtering tool *)

Lemma filtering_fill_pattern_eq (dataset : Dataset) (pattern : string) :
  dicom_sort_series_filtering.fill_pattern dataset pattern
  = Ok (filled_pattern dataset pattern).
Proof.
  unfold dicom_sort_series_filtering.fill_pattern,
    dicom_sort_series_filtering.path_attributes. simpl.
  unfold mbind, result_bind. rewrite !get_dicom_attribute_eq by done. reflexivity.
Qed.

Lemma copy_or_move_reaches_check (sanitize_filepath : string → string)
    (src_file dest_base_dir pattern : string) (anonymize : bool)
    (id_map : option (gmap string string)) (move force : bool)
    (w w1 : World) (ds ds' : Dataset) :
  has_non_dicom_extension src_file = false →
  fs w !! src_file = Some (File (Dicom ds)) →
  anonymize_if_requested anonymize id_map ds w = (Ok ds', w1) →
  series_accepted ds' = true →
  fs w1 !! destination_directory sanitize_filepath ds' dest_base_dir pattern = Some Dir →
  let dest := destination_file sanitize_filepath ds' dest_base_dir pattern in
  let w2 := set_stdout
              (stdout w1 ++ ["Checking Series: Description='"
                             +:+ attribute_or_unknown ds' "SeriesDescription"
                             +:+ "', Number='"
                             +:+ attribute_or_unknown ds' "SeriesNumber" +:+ "'"]) w1 in
  dicom_sort_series_filtering.copy_or_move_dicom_image sanitize_filepath
    src_file dest_base_dir pattern anonymize id_map move force w
  = if negb force && bool_decide (is_Some (fs w1 !! dest))
    then print (skipped_message src_file) w2
    else if move
         then (_ ← shutil_move src_file dest;
               print ("Moved file '" +:+ src_file +:+ "' to '" +:+ dest +:+ "'")) w2
         else (_ ← shutil_copy2 src_file dest;
               print ("Copied file '" +:+ src_file +:+ "' to '" +:+ dest +:+ "'")) w2.
Proof.
  intros Hext Hsrc Hanon Hacc Hdir dest w2.
  match goal with |- _ = ?r => set (rhs := r) end.
  unfold dicom_sort_series_filtering.copy_or_move_dicom_image. rewrite Hext. cbv iota.
  unfold mbind at 1, M_bind at 1.
  rewrite (try_except_ok _ _ w w (Some ds)) by (by apply fmap_ok, dcmread_ok).
  unfold mbind at 1, M_bind at 1. rewrite Hanon.
  unfold mbind at 1, M_bind at 1, lift at 1.
  rewrite get_dicom_attribute_eq by done.
  unfold mbind at 1, M_bind at 1, lift at 1.
  rewrite get_dicom_attribute_eq by done.
  unfold mbind at 1, M_bind at 1. rewrite should_process_series_run.
  fold (series_accepted ds'). rewrite Hacc. change (negb true) with false. cbv beta iota.
  unfold mbind at 1, M_bind at 1, lift at 1.
  rewrite get_dicom_attribute_eq by done.
  unfold mbind at 1, M_bind at 1, lift at 1. rewrite filtering_fill_pattern_eq.
  cbv beta iota zeta.
  fold (destination_directory sanitize_filepath ds' dest_base_dir pattern).
  fold (destination_file sanitize_filepath ds' dest_base_dir pattern).
  fold dest. fold w2.
  unfold mbind at 1, M_bind at 1. rewrite os_makedirs_existing by exact Hdir.
  unfold mbind at 1, M_bind at 1. rewrite os_path_exists_run.
  subst rhs. change (fs w2) with (fs w1).
  by destruct (negb force && _), move.
Qed.

(** C5 as stated fails: when the file to copy is the destination itself,
    as in a run of the tool on its own output, the forced copy does not
    overwrite it: [shutil.copy2] raises [SameFileError], which ends the
    run. *)
Lemma copy_onto_itself_counterexample :
  ¬ (∀ (sanitize_filepath : string → string)
       (src_file dest_base_dir pattern : string) (anonymize : bool)
       (id_map : option (gmap string string)) (move : bool)
       (w w1 : World) (ds ds' : Dataset) (c : content),
       has_non_dicom_extension src_file = false →
       fs w !! src_file = Some (File (Dicom ds)) →
       anonymize_if_requested anonymize id_map ds w = (Ok ds', w1) →
       series_accepted ds' = true →
       fs w !! destination_directory sanitize_filepath ds' dest_base_dir pattern
       = Some Dir →
       fs w !! destination_file sanitize_filepath ds' dest_base_dir pattern
       = Some (File c) →
       ∃ w',
         dicom_sort_series_filtering.copy_or_move_dicom_image sanitize_filepath
           src_file dest_base_dir pattern anonymize id_map move true w = (Ok tt, w')).
Proof.
  intros H.
  destruct (H (λ p, p) "out/P1/T1_MPRAGE/1.2.3.dcm" "out"
              "%PatientID%/%SeriesDescription%" false None false
              sorted_world sorted_world sample_dataset sample_dataset
              (Dicom sample_dataset))
    as [w' Hrun]; try reflexivity.
  vm_compute in Hrun. discriminate Hrun.
Qed.

(** C5, amended: when the destination computed for an accepted file exists
    already, a run without the force flag changes nothing on the file system
    and reports the file as skipped; a run with the force flag replaces the
    destination by the source file when it moves the file or when the source
    is another file than the destination; a forced copy of a file onto
    itself fails with [SameFileError] and leaves the file system as it
    is. *)
Theorem guarded_overwrite (sanitize_filepath : string → string)
    (src_file dest_base_dir pattern : string) (anonymize : bool)
    (id_map : option (gmap string string)) (move : bool)
    (w w1 : World) (ds ds' : Dataset) (c : content) :
  has_non_dicom_extension src_file = false →
  fs w !! src_file = Some (File (Dicom ds)) →
  anonymize_if_requested anonymize id_map ds w = (Ok ds', w1) →
  series_accepted ds' = true →
  fs w !! destination_directory sanitize_filepath ds' dest_base_dir pattern = Some Dir →
  fs w !! destination_file sanitize_filepath ds' dest_base_dir pattern = Some (File c) →
  (∃ w',
     dicom_sort_series_filtering.copy_or_move_dicom_image sanitize_filepath
       src_file dest_base_dir pattern anonymize id_map move false w = (Ok tt, w')
     ∧ fs w' = fs w
     ∧ last (stdout w') = Some (skipped_message src_file))
  ∧ (move = true
     ∨ src_file ≠ destination_file sanitize_filepath ds' dest_base_dir pattern →
     ∃ w',
       dicom_sort_series_filtering.copy_or_move_dicom_image sanitize_filepath
         src_file dest_base_dir pattern anonymize id_map move true w = (Ok tt, w')
       ∧ fs w' !! destination_file sanitize_filepath ds' dest_base_dir pattern
         = Some (File (Dicom ds)))
  ∧ (move = false →
     src_file = destination_file sanitize_filepath ds' dest_base_dir pattern →
     ∃ e w',
       dicom_sort_series_filtering.copy_or_move_dicom_image sanitize_filepath
         src_file dest_base_dir pattern anonymize id_map move true w = (Raise e, w')
       ∧ exn_cls e = SameFileError
       ∧ fs w' = fs w).
Proof.
  intros Hext Hsrc Hanon Hacc Hdir Hdest.
  destruct (anonymize_if_requested_world _ _ _ _ _ _ Hanon) as (Hfs & _).
  rewrite <- Hfs in Hsrc, Hdir, Hdest.
  split; [|split].
  - rewrite (copy_or_move_reaches_check _ _ _ _ _ _ _ _ _ _ _ _ Hext
               ltac:(by rewrite <- Hfs) Hanon Hacc Hdir).
    rewrite Hdest, bool_decide_true by eauto. simpl.
    eexists. split; [reflexivity|]. split; [by rewrite <- Hfs|].
    simpl. by rewrite last_snoc.
  - intros Hdistinct.
    rewrite (copy_or_move_reaches_check _ _ _ _ _ _ _ _ _ _ _ _ Hext
               ltac:(by rewrite <- Hfs) Hanon Hacc Hdir).
    simpl. destruct move.
    + unfold mbind, M_bind.
      rewrite (shutil_move_onto_file _ _ (Dicom ds) c) by done.
      eexists. split; [reflexivity|]. simpl. by rewrite lookup_insert_eq.
    + destruct Hdistinct as [|Hne]; [done|].
      unfold mbind, M_bind.
      rewrite (shutil_copy2_onto_file _ _ (Dicom ds) c) by done.
      eexists. split; [reflexivity|]. simpl. by rewrite lookup_insert_eq.
  - intros -> Hsame.
    rewrite (copy_or_move_reaches_check _ _ _ _ _ _ _ _ _ _ _ _ Hext
               ltac:(by rewrite <- Hfs) Hanon Hacc Hdir).
    simpl. unfold mbind, M_bind. rewrite <- Hsame.
    rewrite (shutil_copy2_onto_itself _ (Dicom ds)) by done.
    eexists _, _. split; [reflexivity|]. split; [done|]. by rewrite <- Hfs.
Qed.

Lemma guarded_overwrite_witness :
  (∃ w',
     dicom_sort_series_filtering.copy_or_move_dicom_image (λ p, p)
       "in/a.dcm" "out" "%PatientID%/%SeriesDescription%" false None false false
       sample_world = (Ok tt, w')
     ∧ fs w' = fs sample_world
     ∧ last (stdout w') = Some (skipped_message "in/a.dcm"))
  ∧ (∃ w',
       dicom_sort_series_filtering.copy_or_move_dicom_image (λ p, p)
         "in/a.dcm" "out" "%PatientID%/%SeriesDescription%" false None false true
         sample_world = (Ok tt, w')
       ∧ fs w' !! "out/P1/T1_MPRAGE/1.2.3.dcm" = Some (File (Dicom sample_dataset)))
  ∧ (∃ e w',
       dicom_sort_series_filtering.copy_or_move_dicom_image (λ p, p)
         "out/P1/T1_MPRAGE/1.2.3.dcm" "out" "%PatientID%/%SeriesDescription%"
         false None false true sorted_world = (Raise e, w')
       ∧ exn_cls e = SameFileError
       ∧ fs w' = fs sorted_world).
Proof.
  destruct (guarded_overwrite (λ p, p) "in/a.dcm" "out"
              "%PatientID%/%SeriesDescription%" false None false
              sample_world sample_world sample_dataset sample_dataset
              (Raw "earlier copy"))
    as (Hskip & Hforce & _); try reflexivity.
  destruct (guarded_overwrite (λ p, p) "out/P1/T1_MPRAGE/1.2.3.dcm" "out"
              "%PatientID%/%SeriesDescription%" false None false
              sorted_world sorted_world sample_dataset sample_dataset
              (Dicom sample_dataset))
    as (_ & _ & Hsame); try reflexivity.
  split; [exact Hskip|]. split.
  - apply Hforce. right. vm_compute. discriminate.
  - apply Hsame; reflexivity.
Defined.

(** ** The protocol-name tool *)

Lemma getattr_default_keyword (ds : Dataset) (name : string) (default : value) :
  element_keyword name = true →
  getattr_default ds name default
  = Ok (match ds !! name with
        | Some (Text s) => Str s
        | Some (Multi items shown) => MultiValue items shown
        | _ => default
        end).
Proof.
  intros Hkey. unfold getattr_default, getattr. rewrite Hkey.
  by destruct (ds !! name) as [[s|items shown|outcome]|].
Qed.

Lemma dcmread_force_world (forced_read : string → result Dataset)
    (file_path : string) (w : World) :
  (dcmread_force forced_read file_path w).2 = w.
Proof.
  unfold dcmread_force. by destruct (fs w !! file_path) as [[|[ds|ds|raw]]|].
Qed.

(** A forced read that succeeds has found a regular file, and found in it
    what [decoded] says. *)
Lemma dcmread_force_ok (forced_read : string → result Dataset)
    (file_path : string) (w : World) (is_dicom : bool) (ds : Dataset) :
  (dcmread_force forced_read file_path w).1 = Ok (is_dicom, ds)
  ↔ ∃ c, fs w !! file_path = Some (File c)
         ∧ decoded forced_read c = Some (is_dicom, ds).
Proof.
  unfold dcmread_force.
  destruct (fs w !! file_path) as [[|[ds'|ds'|raw]]|]; simpl.
  - split; [done|]. by intros (c & ? & _).
  - split; [intros [= <- <-]; eauto|]. by intros (c & [= <-] & [= <- <-]).
  - split; [intros [= <- <-]; eauto|]. by intros (c & [= <-] & [= <- <-]).
  - split.
    + intros H. exists (Raw raw). split; [done|]. simpl.
      destruct (forced_read raw); [|done]. by injection H as <- <-.
    + intros (c & [= <-] & H). simpl in H.
      destruct (forced_read raw); [|done]. by injection H as <- <-.
  - split; [done|]. by intros (c & ? & _).
Qed.

(** [process_file], case by case: it never raises. *)
Lemma process_file_run (forced_read : string → result Dataset)
    (save_error : Dataset → option exn) (file_path : string) (w : World) :
  modify_protocol_name.process_file forced_read save_error file_path w
  = match (dcmread_force forced_read file_path w).1 with
    | Raise e =>
        (Ok (file_path, false),
         set_stderr (stderr w ++ [reading_failed file_path e]) w)
    | Ok (is_dicom, ds) =>
        match save_error (with_protocol_name file_path ds) with
        | Some e =>
            (Ok (file_path, false),
             set_stderr (stderr w ++ [processing_failed file_path e]) w)
        | None =>
            (Ok (file_path, true),
             set_fs (<[file_path :=
                         File ((if is_dicom then Dicom else Loose)
                                 (stored (with_protocol_name file_path ds)))]>
                       (fs w)) w)
        end
    end.
Proof.
  unfold modify_protocol_name.process_file.
  unfold mbind at 1, M_bind at 1.
  pose proof (dcmread_force_world forced_read file_path w) as Hw.
  pose proof (dcmread_force_ok forced_read file_path w) as Hok.
  destruct (dcmread_force forced_read file_path w) as [[[is_dicom ds]|e] w0] eqn:Hread;
    simpl in Hw, Hok |- *; subst w0.
  - rewrite (try_except_ok _ _ w w (Some (is_dicom, ds))) by (by apply fmap_ok).
    destruct (proj1 (Hok is_dicom ds) eq_refl) as (c & Hfile & _).
    unfold try_except, mbind, M_bind, lift.
    rewrite getattr_default_keyword by done.
    unfold with_protocol_name, new_protocol_name.
    rewrite getattr_default_keyword by done.
    destruct (save_error _) as [e|]; [reflexivity|].
    unfold save_as_like. rewrite Hfile. by destruct is_dicom.
  - rewrite (try_except_raise _ _ w w e) by (by apply fmap_raise).
    reflexivity.
Qed.

Lemma process_file_outcome (forced_read : string → result Dataset)
    (save_error : Dataset → option exn) (file_path : string) (w : World) :
  (modify_protocol_name.process_file forced_read save_error file_path w).1
  = Ok (file_path, outcome forced_read save_error w file_path).
Proof.
  rewrite process_file_run. unfold outcome.
  pose proof (dcmread_force_ok forced_read file_path w) as Hok.
  destruct ((dcmread_force forced_read file_path w).1) as [[is_dicom ds]|e] eqn:Hread.
  - destruct (proj1 (Hok is_dicom ds) eq_refl) as (c & -> & Hc). simpl.
    rewrite Hc. by destruct (save_error _) as [e|] eqn:Hsave.
  - simpl. destruct (fs w !! file_path) as [[|c]|] eqn:Hfile; simpl; try done.
    destruct (decoded forced_read c) as [[is_dicom ds]|] eqn:Hc; [|done].
    assert (Raise e = Ok (is_dicom, ds) :> result (bool * Dataset)) as Hr
      by (apply Hok; eauto).
    discriminate Hr.
Qed.

Lemma process_file_fs (forced_read : string → result Dataset)
    (save_error : Dataset → option exn) (file_path p : string) (w : World) :
  fs (modify_protocol_name.process_file forced_read save_error file_path w).2 !! p
  = if decide (p = file_path)
    then rewritten forced_read save_error p <$> fs w !! p
    else fs w !! p.
Proof.
  rewrite process_file_run.
  pose proof (dcmread_force_ok forced_read file_path w) as Hok.
  destruct ((dcmread_force forced_read file_path w).1) as [[is_dicom ds]|e] eqn:Hread.
  - destruct (proj1 (Hok is_dicom ds) eq_refl) as (c & Hfile & Hc).
    destruct (save_error _) as [e|] eqn:Hsave; simpl.
    + case_decide as Hp; [subst p|done]. rewrite Hfile. simpl.
      by rewrite Hc, Hsave.
    + case_decide as Hp; [subst p|by rewrite lookup_insert_ne].
      rewrite lookup_insert_eq, Hfile. simpl. by rewrite Hc, Hsave.
  - simpl. case_decide as Hp; [subst p|done].
    destruct (fs w !! file_path) as [[|c]|] eqn:Hfile; simpl; try done.
    destruct (decoded forced_read c) as [[is_dicom ds]|] eqn:Hc; [|done].
    assert (Raise e = Ok (is_dicom, ds) :> result (bool * Dataset)) as Hr
      by (apply Hok; eauto).
    discriminate Hr.
Qed.

(** C10, the divergence: for a file in a folder whose name starts with a
    blank, the value the tool stores depends on whether the file had a
    ProtocolName: with one, the name of the folder is stored without the
    blank; without one, as it is.  In neither case is the stored value made
    from the earlier one. *)
Theorem protocol_name_depends_on_earlier_value :
  posixpath.basename (posixpath.dirname "/data/ T1/a.dcm") = " T1"
  ∧ (let w' := (modify_protocol_name.process_file lenient_reader willing_writer
                  "/data/ T1/a.dcm" blank_folder_world).2 in
     fs w' !! "/data/ T1/a.dcm"
     = Some (File (Dicom {["ProtocolName" := Text "T1"]})))
  ∧ (let w' := (modify_protocol_name.process_file lenient_reader willing_writer
                  "/data/ T1/b.dcm" blank_folder_world).2 in
     fs w' !! "/data/ T1/b.dcm"
     = Some (File (Dicom {["PatientID" := Text "P1"; "ProtocolName" := Text " T1"]}))).
Proof.
  split; [reflexivity|]. split.
  - cbv zeta. rewrite process_file_fs. vm_compute. reflexivity.
  - cbv zeta. rewrite process_file_fs. vm_compute. reflexivity.
Qed.

(** ** The dispatchers *)




Lemma in_worker_fs {A} (task : M A) (w : World) :
  fs (in_worker task w).2 = fs (task w).2.
Proof. unfold in_worker. by destruct (task w). Qed.

Lemma in_worker_stdout {A} (task : M A) (w : World) :
  stdout (in_worker task w).2 = stdout (task w).2.
Proof. unfold in_worker. by destruct (task w). Qed.

Lemma in_worker_process_file (forced_read : string → result Dataset)
    (save_error : Dataset → option exn) (file_path : string) (w : World) :
  (in_worker (modify_protocol_name.process_file forced_read save_error file_path) w).1
  = Ok (Ok (file_path, outcome forced_read save_error w file_path)).
Proof.
  pose proof (process_file_outcome forced_read save_error file_path w) as Hrun.
  unfold in_worker.
  destruct (modify_protocol_name.process_file _ _ _ w) as [r w']. simpl in *.
  by rewrite Hrun.
Qed.

Lemma process_file_stdout (forced_read : string → result Dataset)
    (save_error : Dataset → option exn) (file_path : string) (w : World) :
  stdout (modify_protocol_name.process_file forced_read save_error file_path w).2
  = stdout w.
Proof.
  rewrite process_file_run.
  destruct ((dcmread_force forced_read file_path w).1) as [[is_dicom ds]|e]; [|done].
  by destruct (save_error _).
Qed.

(** The workers, one file after the other: each file gets the outcome its
    entry has at the start, and each entry is rewritten once. *)
Lemma map_each_workers (forced_read : string → result Dataset)
    (save_error : Dataset → option exn) (files : list string) (w : World) :
  NoDup files →
  ∃ w',
    map_each (λ file, in_worker (modify_protocol_name.process_file
                                   forced_read save_error file)) files w
    = (Ok (Ok <$> ((λ p, (p, outcome forced_read save_error w p)) <$> files)), w')
    ∧ (∀ p, fs w' !! p
            = if bool_decide (p ∈ files)
              then rewritten forced_read save_error p <$> fs w !! p
              else fs w !! p)
    ∧ stdout w' = stdout w.
Proof.
  revert w. induction files as [|file files IH]; intros w Hnodup.
  { exists w. done. }
  apply NoDup_cons in Hnodup as [Hfresh Hnodup].
  pose proof (in_worker_process_file forced_read save_error file w) as Hrun.
  pose proof (in_worker_fs (modify_protocol_name.process_file
                              forced_read save_error file) w) as Hfs1.
  pose proof (in_worker_stdout (modify_protocol_name.process_file
                                  forced_read save_error file) w) as Hout1.
  rewrite process_file_stdout in Hout1.
  destruct (in_worker _ w) as [r w1] eqn:Hworker. simpl in Hrun, Hfs1, Hout1.
  subst r.
  destruct (IH w1 Hnodup) as (w2 & Hrest & Hfs2 & Hout2).
  assert ((λ p, (p, outcome forced_read save_error w1 p)) <$> files
          = (λ p, (p, outcome forced_read save_error w p)) <$> files) as Hsame.
  { apply list_fmap_ext. intros i p Hp. f_equal. unfold outcome.
    rewrite Hfs1, process_file_fs. rewrite decide_False; [done|].
    intros ->. apply Hfresh. by eapply list_elem_of_lookup_2. }
  rewrite Hsame in Hrest.
  exists w2. split; [|split].
  - simpl. unfold mbind at 1, M_bind at 1. rewrite Hworker.
    unfold mbind at 1, M_bind at 1. by rewrite Hrest.
  - intros p. rewrite Hfs2, Hfs1, !process_file_fs.
    case_decide as Hp.
    + subst p. rewrite (bool_decide_false (file ∈ files)) by done.
      by rewrite bool_decide_true by left.
    + case_bool_decide as Hin.
      * by rewrite bool_decide_true by (by right).
      * rewrite bool_decide_false; [done|]. by intros [?|?]%elem_of_cons.
  - by rewrite Hout2.
Qed.

Lemma map_each_lift_ok {A} (results : list A) (w : World) :
  map_each lift (Ok <$> results) w = (Ok results, w).
Proof.
  induction results as [|r results IH]; [done|].
  rewrite fmap_cons. simpl map_each.
  unfold mbind at 1, M_bind at 1, lift at 1.
  unfold mbind at 1, M_bind at 1. by rewrite IH.
Qed.

Lemma pool_imap_unordered_run (forced_read : string → result Dataset)
    (save_error : Dataset → option exn) (schedule : list string → list string)
    (all_files : list string) (w : World) :
  NoDup (schedule all_files) →
  ∃ w',
    modify_protocol_name.pool_imap_unordered forced_read save_error schedule
      all_files w
    = (Ok ((λ p, (p, outcome forced_read save_error w p)) <$> schedule all_files),
       w')
    ∧ (∀ p, fs w' !! p
            = if bool_decide (p ∈ schedule all_files)
              then rewritten forced_read save_error p <$> fs w !! p
              else fs w !! p)
    ∧ stdout w' = stdout w.
Proof.
  intros Hnodup.
  destruct (map_each_workers forced_read save_error (schedule all_files) w Hnodup)
    as (w' & Hrun & Hfs & Hout).
  exists w'. split; [|done].
  unfold modify_protocol_name.pool_imap_unordered.
  unfold mbind, M_bind. rewrite Hrun. apply map_each_lift_ok.
Qed.

Lemma os_walk_files_NoDup (top : string) (w : World) :
  ∃ all_files, os_walk_files top w = (Ok all_files, w) ∧ NoDup all_files.
Proof.
  unfold os_walk_files. eexists. split; [reflexivity|].
  destruct (Py.truthy top); [|apply NoDup_nil_2].
  apply NoDup_fmap_fst.
  - intros p n1 n2 H1%list_elem_of_filter H2%list_elem_of_filter.
    destruct H1 as [_ H1%elem_of_map_to_list], H2 as [_ H2%elem_of_map_to_list].
    congruence.
  - apply NoDup_filter, NoDup_map_to_list.
Qed.

(** A run of [main] on a folder in which files were found. *)
Lemma protocol_name_main_run (forced_read : string → result Dataset)
    (save_error : Dataset → option exn) (schedule : list string → list string)
    (dicom_folder : string) (all_files : list string) (w : World) :
  (∀ l, schedule l ≡ₚ l) →
  os_walk_files dicom_folder w = (Ok all_files, w) →
  NoDup all_files →
  all_files ≠ [] →
  let found := "Found " +:+ Py.str_of_nat (length all_files)
               +:+ " files. Processing..." in
  let results := (λ p, (p, outcome forced_read save_error w p))
                   <$> schedule all_files in
  ∃ w1,
    modify_protocol_name.pool_imap_unordered forced_read save_error schedule
      all_files (set_stdout (stdout w ++ [found]) w)
    = (Ok results, w1)
    ∧ modify_protocol_name.main forced_read save_error schedule dicom_folder w
      = (Ok tt,
         set_stdout (stdout w1 ++ [modify_protocol_name.summary
                                     (modify_protocol_name.tally results).1
                                     (modify_protocol_name.tally results).2]) w1)
    ∧ (∀ p, fs w1 !! p
            = if bool_decide (p ∈ all_files)
              then rewritten forced_read save_error p <$> fs w !! p
              else fs w !! p)
    ∧ stdout w1 = stdout w ++ [found].
Proof.
  intros Hperm Hwalk Hnodup Hne found results.
  set (w_found := set_stdout (stdout w ++ [found]) w).
  destruct (pool_imap_unordered_run forced_read save_error schedule all_files
              w_found ltac:(by rewrite Hperm))
    as (w1 & Hrun & Hfs & Hout).
  change ((λ p, (p, outcome forced_read save_error w_found p))
            <$> schedule all_files) with results in Hrun.
  exists w1. split; [exact Hrun|]. split; [|split; [|exact Hout]].
  - unfold modify_protocol_name.main.
    unfold mbind at 1, M_bind at 1. rewrite Hwalk.
    cbv beta iota zeta. rewrite decide_False by (by destruct all_files).
    unfold mbind at 1, M_bind at 1, print at 1, modify_world at 1.
    unfold mbind at 1, M_bind at 1. fold found. fold w_found. rewrite Hrun.
    cbv beta iota.
    by destruct (modify_protocol_name.tally results).
  - intros p. rewrite Hfs. change (fs w_found) with (fs w).
    by rewrite (bool_decide_ext (p ∈ schedule all_files) (p ∈ all_files))
      by (by rewrite Hperm).
Qed.

Lemma sorting_skips_undecodable (sanitize_filepath : string → string)
    (decompress : Dataset → result Dataset)
    (src_file dest_base_dir pattern : string) (anonymize : bool)
    (id_map : option (gmap string string)) (decompress_flag : bool) (w : World) :
  has_non_dicom_extension src_file = false →
  (∀ ds, fs w !! src_file ≠ Some (File (Dicom ds))) →
  dicom_sorting_tool.copy_dicom_image sanitize_filepath decompress
    src_file dest_base_dir pattern anonymize id_map decompress_flag w
  = (Ok tt, set_stdout (stdout w ++ ["Not a DICOM file: " +:+ src_file]) w).
Proof.
  intros Hext Hfile. destruct (dcmread_raises src_file w Hfile) as [e He].
  unfold dicom_sorting_tool.copy_dicom_image. rewrite Hext. cbv iota.
  unfold mbind at 1, M_bind at 1.
  rewrite (try_except_raise _ _ w w e) by (by apply fmap_raise).
  reflexivity.
Qed.




(** * Further properties *)

(** ** Reading the correlation file *)

Lemma lacks_app (a : ascii) (s t : string) :
  lacks a (s +:+ t) = lacks a s && lacks a t.
Proof.
  induction s as [|c s IH]; [done|]. rewrite app_cons. simpl.
  by rewrite IH, andb_assoc.
Qed.

Lemma no_ascii_lacks (a : ascii) (s : string) :
  (Py.byte a < 0x80)%N → no_ascii s = true → lacks a s = true.
Proof.
  intros Ha. induction s as [|c s IH]; [done|]. simpl.
  intros [Hc Hs]%andb_true_iff. rewrite (IH Hs), andb_true_r.
  apply N.leb_le in Hc. rewrite bool_decide_false; [done|]. intros ->. lia.
Qed.

(** An ASCII character occurs in the encoding of scalar values only as one
    of them. *)
Lemma encode_lacks (a : ascii) (l : list N) :
  (Py.byte a < 0x80)%N → forallb Py.is_scalar l = true → Py.byte a ∉ l →
  lacks a (Py.encode l) = true.
Proof.
  intros Ha. induction l as [|cp l IH]; [done|]. simpl.
  intros [Hcp Hl]%andb_true_iff [Hne Hnotin]%not_elem_of_cons.
  rewrite lacks_app, (IH Hl Hnotin), andb_true_r.
  apply is_scalar_spec in Hcp.
  destruct (N.lt_ge_cases cp 0x80) as [Hlt|Hge].
  - rewrite utf8_ascii by done. simpl. rewrite andb_true_r.
    rewrite bool_decide_false; [done|]. intros <-.
    rewrite byte_of_ascii in Hne by lia. done.
  - apply no_ascii_lacks; [done|]. apply utf8_no_ascii; lia.
Qed.

Lemma universal_newlines_lacks_cr (s : string) :
  lacks "013"%char s = true → universal_newlines s = s.
Proof.
  induction s as [|c s IH]; [done|]. simpl. intros H.
  apply andb_true_iff in H as [Hc Hs]. case_decide as Hcr.
  - subst c. by rewrite bool_decide_true in Hc.
  - by rewrite (IH Hs).
Qed.

Lemma readlines_line (body rest : string) :
  lacks "010"%char body = true →
  readlines (body +:+ line_feed +:+ rest) = (body +:+ line_feed) :: readlines rest.
Proof.
  induction body as [|c body IH]; [done|]. simpl. intros H.
  apply andb_true_iff in H as [Hc Hb]. rewrite !app_cons. simpl.
  rewrite decide_False by (intros ->; by rewrite bool_decide_true in Hc).
  by rewrite (IH Hb).
Qed.

(** *** Fields and rows as code points *)

Lemma no_separator_spec (s : string) :
  no_separator s = true →
  s = Py.encode (Py.code_points s)
  ∧ forallb Py.is_scalar (Py.code_points s) = true
  ∧ forallb (λ cp, negb (is_separator cp)) (Py.code_points s) = true.
Proof.
  intros [Hwf Hsep]%andb_true_iff. split; [by rewrite encode_code_points|].
  split; [by apply well_formed_scalar|done].
Qed.

Lemma row_body_encode (r : row) :
  row_fields_ok r → row_body r = Py.encode (row_points r).
Proof.
  destruct r as [old_id new_id|old_id new_id|text]; simpl.
  - intros [[Ho _]%no_separator_spec [Hn _]%no_separator_spec].
    rewrite encode_app. simpl. by rewrite <- Ho, <- Hn.
  - intros [[Ho _]%no_separator_spec [Hn _]%no_separator_spec].
    rewrite encode_app. simpl. by rewrite <- Ho, <- Hn.
  - by intros [Ht _]%no_separator_spec.
Qed.

Lemma row_points_scalar (r : row) :
  row_fields_ok r → forallb Py.is_scalar (row_points r) = true.
Proof.
  destruct r as [old_id new_id|old_id new_id|text]; simpl.
  - intros [(_ & Ho & _)%no_separator_spec (_ & Hn & _)%no_separator_spec].
    rewrite forallb_app. simpl. by rewrite Ho, Hn.
  - intros [(_ & Ho & _)%no_separator_spec (_ & Hn & _)%no_separator_spec].
    rewrite forallb_app. simpl. by rewrite Ho, Hn.
  - by intros (_ & Ht & _)%no_separator_spec.
Qed.

Lemma no_separator_not_elem (cp : N) (l : list N) :
  is_separator cp = true →
  forallb (λ cp, negb (is_separator cp)) l = true → cp ∉ l.
Proof.
  intros Hcp Hl Hin. rewrite forallb_forall in Hl.
  apply list_elem_of_In, Hl in Hin. by rewrite Hcp in Hin.
Qed.

(** A separator other than the comma and the blank is not in a row. *)
Lemma row_points_lack (cp : N) (r : row) :
  is_separator cp = true → cp ≠ 44%N → cp ≠ 32%N →
  row_fields_ok r → cp ∉ row_points r.
Proof.
  intros Hcp Hcomma Hblank.
  destruct r as [old_id new_id|old_id new_id|text]; simpl.
  - intros [(_ & _ & Ho)%no_separator_spec (_ & _ & Hn)%no_separator_spec].
    rewrite elem_of_app, !elem_of_cons.
    intros [Hin|[->|Hin]];
      [exact (no_separator_not_elem _ _ Hcp Ho Hin)|done
      |exact (no_separator_not_elem _ _ Hcp Hn Hin)].
  - intros [(_ & _ & Ho)%no_separator_spec (_ & _ & Hn)%no_separator_spec].
    rewrite elem_of_app, !elem_of_cons.
    intros [Hin|[->|[->|Hin]]];
      [exact (no_separator_not_elem _ _ Hcp Ho Hin)|done|done
      |exact (no_separator_not_elem _ _ Hcp Hn Hin)].
  - intros (_ & _ & Ht)%no_separator_spec. by apply no_separator_not_elem.
Qed.

Lemma row_text_body (r : row) : row_text r = row_body r +:+ line_feed.
Proof. destruct r; simpl; by rewrite ?app_assoc_str. Qed.

Lemma row_body_lacks (a : ascii) (r : row) :
  (Py.byte a < 0x80)%N →
  is_separator (Py.byte a) = true → Py.byte a ≠ 44%N → Py.byte a ≠ 32%N →
  row_fields_ok r → lacks a (row_body r) = true.
Proof.
  intros Ha Hsep Hcomma Hblank Hr. rewrite row_body_encode by done.
  apply encode_lacks; [done|by apply row_points_scalar|].
  by apply row_points_lack.
Qed.

Lemma rows_text_lacks_cr (rows : list row) :
  Forall row_fields_ok rows → lacks "013"%char (rows_text rows) = true.
Proof.
  induction 1 as [|r rows Hr _ IH]; [done|]. simpl.
  rewrite row_text_body, !lacks_app, IH.
  rewrite (row_body_lacks _ r); [done|by vm_compute..|done].
Qed.

Lemma readlines_rows (rows : list row) :
  Forall row_fields_ok rows → readlines (rows_text rows) = row_text <$> rows.
Proof.
  induction 1 as [|r rows Hr _ IH]; [done|]. simpl.
  rewrite row_text_body, app_assoc_str, readlines_line, IH; [done|].
  apply row_body_lacks; [by vm_compute..|done].
Qed.

Lemma rows_text_well_formed (rows : list row) :
  Forall row_fields_ok rows → Py.well_formed (rows_text rows) = true.
Proof.
  intros Hrows.
  assert (∃ l, rows_text rows = Py.encode l ∧ forallb Py.is_scalar l = true)
    as (l & -> & Hl); [|by apply scalar_well_formed].
  induction Hrows as [|r rows Hr _ (l & IH & Hl)]; [by exists []|].
  exists (row_points r ++ 10%N :: l). split.
  - simpl. rewrite row_text_body, row_body_encode, IH by done.
    rewrite encode_app, app_assoc_str. done.
  - rewrite forallb_app. simpl. by rewrite row_points_scalar, Hl.
Qed.

(** *** Stripping and splitting *)

Lemma lstrip_points_head (cp : N) (l : list N) :
  Py.is_space cp = false → Py.lstrip_points (cp :: l) = cp :: l.
Proof. intros H. simpl. by rewrite H. Qed.

Lemma rstrip_points_app (l1 l2 : list N) :
  Py.rstrip_points (l1 ++ l2)
  = match Py.rstrip_points l2 with
    | [] => Py.rstrip_points l1
    | _ :: _ => l1 ++ Py.rstrip_points l2
    end.
Proof.
  induction l1 as [|cp l1 IH].
  - simpl. by destruct (Py.rstrip_points l2).
  - simpl. rewrite IH. destruct (Py.rstrip_points l2) as [|d r]; [done|].
    by destruct l1.
Qed.

Lemma rstrip_points_last (l : list N) (cp : N) :
  Py.is_space cp = false → Py.rstrip_points (l ++ [cp]) = l ++ [cp].
Proof. intros H. rewrite rstrip_points_app. simpl. by rewrite H. Qed.

Lemma rstrip_points_no_space (l : list N) :
  forallb (λ cp, negb (Py.is_space cp)) l = true → Py.rstrip_points l = l.
Proof.
  induction l as [|cp l IH]; [done|]. simpl.
  intros [Hcp Hl]%andb_true_iff. rewrite (IH Hl).
  destruct l; [|done]. by destruct (Py.is_space cp).
Qed.

Lemma no_separator_no_space (l : list N) :
  forallb (λ cp, negb (is_separator cp)) l = true →
  forallb (λ cp, negb (Py.is_space cp)) l = true.
Proof.
  rewrite !forallb_forall. intros H cp Hin. specialize (H cp Hin).
  unfold is_separator in H. by destruct (Py.is_space cp), (cp =? 44)%N.
Qed.

Lemma split_points_no_separator (l : list N) :
  forallb (λ cp, negb (is_separator cp)) l = true → split_points l = [l].
Proof.
  induction l as [|cp l IH]; [done|]. simpl.
  intros [Hcp Hl]%andb_true_iff. rewrite (IH Hl).
  by destruct (is_separator cp).
Qed.

Lemma split_points_app_separator (a b : list N) (cp : N) :
  forallb (λ cp, negb (is_separator cp)) a = true → is_separator cp = true →
  split_points (a ++ cp :: b) = a :: split_points b.
Proof.
  intros Ha Hcp. induction a as [|d a IH].
  - simpl. by rewrite Hcp.
  - simpl in Ha. apply andb_true_iff in Ha as [Hd Ha].
    simpl. rewrite (IH Ha). by destruct (is_separator d).
Qed.

(** A line is stripped and split on its code points. *)
Lemma split_stripped (l stripped : list N) :
  forallb Py.is_scalar l = true →
  forallb Py.is_scalar stripped = true →
  Py.rstrip_points (Py.lstrip_points l) = stripped →
  re_split_separators (Py.strip (Py.encode l)) = Py.encode <$> split_points stripped.
Proof.
  intros Hl Hs Hstrip. unfold re_split_separators, Py.strip.
  rewrite (code_points_encode l) by done. rewrite Hstrip.
  by rewrite code_points_encode.
Qed.

(** Stripping the line of a row takes the line feed away, and the blank in
    front of an empty second field. *)
Lemma strip_row_points (r : row) :
  row_fields_ok r →
  Py.rstrip_points (Py.lstrip_points (row_points r ++ [10%N]))
  = match r with
    | Spaced old_id EmptyString => Py.code_points old_id ++ [44%N]
    | _ => row_points r
    end.
Proof.
  intros Hr.
  assert (Py.lstrip_points (row_points r ++ [10%N])
          = match row_points r with [] => [] | _ => row_points r ++ [10%N] end)
    as ->.
  { destruct r as [old_id new_id|old_id new_id|text]; simpl in *.
    - destruct Hr as [(_ & _ & Ho)%no_separator_spec _].
      apply no_separator_no_space in Ho.
      destruct (Py.code_points old_id) as [|cp l]; [done|].
      simpl in Ho |- *. apply andb_true_iff in Ho as [Hcp%negb_true_iff _].
      by rewrite Hcp.
    - destruct Hr as [(_ & _ & Ho)%no_separator_spec _].
      apply no_separator_no_space in Ho.
      destruct (Py.code_points old_id) as [|cp l]; [done|].
      simpl in Ho |- *. apply andb_true_iff in Ho as [Hcp%negb_true_iff _].
      by rewrite Hcp.
    - apply no_separator_spec in Hr as (_ & _ & Ht).
      apply no_separator_no_space in Ht.
      destruct (Py.code_points text) as [|cp l]; [done|].
      simpl in Ht |- *. apply andb_true_iff in Ht as [Hcp%negb_true_iff _].
      by rewrite Hcp. }
  assert (Py.rstrip_points (row_points r)
          = match r with
            | Spaced old_id EmptyString => Py.code_points old_id ++ [44%N]
            | _ => row_points r
            end) as Hrstrip.
  { destruct r as [old_id new_id|old_id new_id|text]; simpl in *.
    - destruct Hr as [_ (_ & _ & Hn%no_separator_no_space)%no_separator_spec].
      rewrite rstrip_points_app. simpl.
      rewrite (rstrip_points_no_space _ Hn).
      by destruct (Py.code_points new_id).
    - destruct Hr as [_ (_ & _ & Hn%no_separator_no_space)%no_separator_spec].
      destruct new_id as [|c new_id].
      + rewrite rstrip_points_app. reflexivity.
      + destruct (Py.code_points (String c new_id)) as [|cp l] eqn:Hcps.
        { apply (f_equal Py.encode) in Hcps.
          by rewrite encode_code_points in Hcps. }
        replace (Py.code_points old_id ++ 44%N :: 32%N :: cp :: l)
          with ((Py.code_points old_id ++ [44%N; 32%N]) ++ cp :: l)
          by (by rewrite <- app_assoc).
        by rewrite rstrip_points_app, (rstrip_points_no_space _ Hn).
    - apply no_separator_spec in Hr as (_ & _ & Ht%no_separator_no_space).
      by apply rstrip_points_no_space. }
  destruct (row_points r) as [|cp l] eqn:Hpoints.
  - exact Hrstrip.
  - rewrite rstrip_points_app. change (Py.rstrip_points [10%N]) with (@nil N).
    cbv iota. exact Hrstrip.
Qed.

(** The fields the loop finds on the line of a row. *)
Lemma split_row (r : row) :
  row_fields_ok r →
  re_split_separators (Py.strip (row_text r))
  = match r with
    | Mapping old_id new_id => [old_id; new_id]
    | Spaced old_id new_id =>
        old_id :: EmptyString
        :: match new_id with EmptyString => [] | _ => [new_id] end
    | Bare text => [text]
    end.
Proof.
  intros Hr. pose proof (row_points_scalar r Hr) as Hscalar.
  assert (row_text r = Py.encode (row_points r ++ [10%N])) as ->.
  { rewrite row_text_body, row_body_encode, encode_app by done. done. }
  assert (forallb Py.is_scalar (row_points r ++ [10%N]) = true) as Hline
    by (by rewrite forallb_app, Hscalar).
  assert (forallb Py.is_scalar
            match r with
            | Spaced old_id EmptyString => Py.code_points old_id ++ [44%N]
            | _ => row_points r
            end = true) as Hstripped.
  { destruct r as [old_id new_id|old_id new_id|text]; try done.
    destruct new_id; [|done]. simpl in Hr.
    destruct Hr as [(_ & Ho & _)%no_separator_spec _].
    rewrite forallb_app. simpl. by rewrite Ho. }
  rewrite (split_stripped _ _ Hline Hstripped (strip_row_points r Hr)).
  destruct r as [old_id new_id|old_id new_id|text]; simpl in *.
  - destruct Hr as [(Ho & _ & Hso)%no_separator_spec
                    (Hn & _ & Hsn)%no_separator_spec].
    rewrite split_points_app_separator, split_points_no_separator by done.
    simpl. by rewrite <- Ho, <- Hn.
  - destruct Hr as [(Ho & _ & Hso)%no_separator_spec
                    (Hn & _ & Hsn)%no_separator_spec].
    destruct new_id as [|c new_id].
    + rewrite split_points_app_separator by done. simpl. by rewrite <- Ho.
    + rewrite split_points_app_separator by done.
      change (split_points (32%N :: ?l)) with ([] :: split_points l).
      rewrite split_points_no_separator by done.
      simpl. by rewrite <- Ho, <- Hn.
  - apply no_separator_spec in Hr as (Ht & _ & Hst).
    rewrite split_points_no_separator by done. simpl. by rewrite <- Ht.
Qed.

Lemma read_id_correlation_loop_rows (rows : list row) :
  Forall row_fields_ok rows →
  ∀ (id_map : gmap string string) (w : World),
    read_id_correlation_loop (row_text <$> rows) id_map w
    = (Ok (foldl (λ m entry, <[entry.1 := entry.2]> m) id_map (omap row_entry rows)),
       set_stdout (stdout w ++ omap row_complaint rows) w).
Proof.
  induction 1 as [|r rows Hr _ IH]; intros id_map w.
  - simpl. rewrite List.app_nil_r. by destruct w.
  - rewrite fmap_cons. simpl read_id_correlation_loop. rewrite (split_row r Hr).
    destruct r as [old_id new_id|old_id new_id|text].
    + rewrite IH. reflexivity.
    + destruct new_id; rewrite IH; reflexivity.
    + unfold mbind, M_bind, print, modify_world. rewrite IH. simpl.
      by rewrite <- app_assoc.
Qed.

Lemma foldl_insert_list_to_map (entries : list (string * string)) :
  foldl (λ m entry, <[entry.1 := entry.2]> m) (∅ : gmap string string) entries
  = list_to_map (reverse entries).
Proof.
  induction entries as [|entry entries IH] using rev_ind; [done|].
  rewrite foldl_app, reverse_app. simpl. by rewrite IH.
Qed.

Lemma read_id_correlation_rows (text_of_dataset : Dataset → result string)
    (file_path : string) (rows : list row) (w : World) :
  Py.truthy file_path = true →
  Forall row_fields_ok rows →
  fs w !! file_path = Some (File (Raw (rows_text rows))) →
  read_id_correlation text_of_dataset file_path w
  = (Ok (list_to_map (reverse (omap row_entry rows))),
     set_stdout (stdout w ++ omap row_complaint rows) w).
Proof.
  intros Hpath Hrows Hfile. unfold read_id_correlation. rewrite Hpath.
  unfold mbind, M_bind, open_read. rewrite Hfile.
  rewrite rows_text_well_formed by done.
  rewrite universal_newlines_lacks_cr by (by apply rows_text_lacks_cr).
  rewrite readlines_rows by done.
  rewrite read_id_correlation_loop_rows by done.
  by rewrite foldl_insert_list_to_map.
Qed.

Lemma list_to_map_reverse_last (pre post : list (string * string)) (k v : string) :
  k ∉ post.*1 →
  (list_to_map (reverse (pre ++ (k, v) :: post)) : gmap string string) !! k = Some v.
Proof.
  intros Hk. rewrite reverse_app, reverse_cons, <- app_assoc.
  rewrite list_to_map_app. rewrite lookup_union_r.
  - simpl. apply lookup_insert_eq.
  - apply not_elem_of_list_to_map_1. rewrite fmap_reverse.
    by rewrite elem_of_reverse.
Qed.

(** X1: a correlation file whose lines have two fields with a comma, or a
    comma and a blank, between them, or one field alone, each field being
    well-formed text without comma and white space, is read without an
    exception; an id whose last line is a comma line is mapped to the
    second field of that line, an id no line names is not in the map, and
    each line of one field, an empty line too, is reported and left out. *)
Theorem read_id_correlation_last_line_wins
    (text_of_dataset : Dataset → result string)
    (file_path : string) (rows : list row) (w : World) :
  Py.truthy file_path = true →
  Forall row_fields_ok rows →
  fs w !! file_path = Some (File (Raw (rows_text rows))) →
  ∃ id_map,
    read_id_correlation text_of_dataset file_path w
    = (Ok id_map, set_stdout (stdout w ++ omap row_complaint rows) w)
    ∧ (∀ pre post old_id new_id,
         rows = pre ++ Mapping old_id new_id :: post →
         old_id ∉ (omap row_entry post).*1 →
         id_map !! old_id = Some new_id)
    ∧ (∀ old_id, old_id ∉ (omap row_entry rows).*1 → id_map !! old_id = None).
Proof.
  intros Hpath Hrows Hfile. eexists. split; [by apply read_id_correlation_rows|].
  split.
  - intros pre post old_id new_id -> Hlast.
    rewrite omap_app. simpl. by apply list_to_map_reverse_last.
  - intros old_id Hnot. apply not_elem_of_list_to_map_1.
    by rewrite fmap_reverse, elem_of_reverse.
Qed.

Lemma read_id_correlation_last_line_wins_witness :
  ∃ id_map,
    read_id_correlation (λ _, Ok EmptyString) "ids.csv" sample_correlation_world
    = (Ok id_map,
       set_stdout ["Invalid line format: junk" +:+ line_feed;
                   "Invalid line format: " +:+ line_feed] sample_correlation_world)
    ∧ id_map !! "A1" = Some "sub-09"
    ∧ id_map !! "A2" = Some "sub-02"
    ∧ id_map !! "junk" = None.
Proof.
  destruct (read_id_correlation_last_line_wins (λ _, Ok EmptyString) "ids.csv"
              sample_rows sample_correlation_world)
    as (id_map & Hrun & Hlast & Hnone).
  - reflexivity.
  - repeat constructor.
  - reflexivity.
  - exists id_map. split; [exact Hrun|]. split; [|split].
    + apply (Hlast [Mapping "A1" "sub-01"; Bare "junk"; Mapping "A2" "sub-02"; Bare ""]
               [] "A1" "sub-09"); [reflexivity|]. simpl. apply not_elem_of_nil.
    + apply (Hlast [Mapping "A1" "sub-01"; Bare "junk"]
               [Bare ""; Mapping "A1" "sub-09"] "A2" "sub-02"); [reflexivity|].
      simpl. intros Hin. apply list_elem_of_singleton in Hin. discriminate Hin.
    + apply Hnone. simpl. rewrite !not_elem_of_cons.
      repeat split; [discriminate..|apply not_elem_of_nil].
Defined.

(** X2: on a line with a blank after the comma the second field of the
    split is the empty string between the two separators, so the id is
    mapped to the empty string and the text after the blank is ignored. *)
Theorem read_id_correlation_blank_after_comma
    (text_of_dataset : Dataset → result string)
    (file_path old_id new_id : string) (w : World) :
  Py.truthy file_path = true →
  no_separator old_id = true →
  no_separator new_id = true →
  fs w !! file_path = Some (File (Raw (old_id +:+ ", " +:+ new_id +:+ line_feed))) →
  read_id_correlation text_of_dataset file_path w
  = (Ok {[old_id := EmptyString]}, w).
Proof.
  intros Hpath Hold Hnew Hfile.
  rewrite (read_id_correlation_rows _ _ [Spaced old_id new_id]).
  - simpl. rewrite List.app_nil_r.
    replace (set_stdout (stdout w) w) with w by (by destruct w).
    by rewrite insert_empty.
  - done.
  - by repeat constructor.
  - simpl. by rewrite app_nil_r.
Qed.

Lemma read_id_correlation_blank_after_comma_witness :
  read_id_correlation (λ _, Ok EmptyString) "ids.csv"
    (initial_world {["ids.csv" := File (Raw ("A1, sub-01" +:+ line_feed))]})
  = (Ok {["A1" := EmptyString]},
     initial_world {["ids.csv" := File (Raw ("A1, sub-01" +:+ line_feed))]}).
Proof.
  apply (read_id_correlation_blank_after_comma (λ _, Ok EmptyString)
           "ids.csv" "A1" "sub-01"); reflexivity.
Defined.

(** X3: a correlation file that does not exist ends the sorting and the
    filtering tool before anything is created, copied or printed, with the
    exception of the failed [open]: [NotADirectoryError] when a regular file
    lies on the way to the path, [FileNotFoundError] otherwise. *)
Theorem main_missing_correlation_file
    (sanitize_filepath : string → string) (decompress : Dataset → result Dataset)
    (schedule : list string → list string)
    (text_of_dataset : Dataset → result string)
    (dicomin dicomout file_path : string) (anonymize flag move force : bool)
    (w : World) :
  Py.truthy file_path = true →
  fs w !! file_path = None →
  let e :=
    if existsb (λ q, from_option is_file false (fs w !! q))
         (dir_prefixes (posixpath.dirname file_path))
    then Exception NotADirectoryError
           ("[Errno 20] Not a directory: " +:+ Py.repr file_path)
    else Exception FileNotFoundError
           ("[Errno 2] No such file or directory: " +:+ Py.repr file_path) in
  dicom_sorting_tool.main sanitize_filepath decompress schedule text_of_dataset
    dicomin dicomout anonymize (Some file_path) flag w
  = (Raise e, w)
  ∧ dicom_sort_series_filtering.main sanitize_filepath text_of_dataset
      dicomin dicomout anonymize (Some file_path) move force w
    = (Raise e, w).
Proof.
  intros Hpath Hfile e.
  assert (load_id_map text_of_dataset (Some file_path) w = (Raise e, w)) as Hload.
  { unfold load_id_map. rewrite Hpath. apply fmap_raise.
    unfold read_id_correlation. rewrite Hpath. apply bind_raise.
    unfold open_read. rewrite Hfile. unfold unresolved, e, errno_msg.
    by destruct (existsb _ _). }
  split.
  - unfold dicom_sorting_tool.main. by apply bind_raise.
  - unfold dicom_sort_series_filtering.main. by apply bind_raise.
Qed.

Lemma main_missing_correlation_file_witness :
  dicom_sorting_tool.main (λ p, p) Ok (λ l, l) (λ _, Ok EmptyString)
    "in" "out" false (Some "ids.csv") false sample_world
  = (Raise (Exception FileNotFoundError
              "[Errno 2] No such file or directory: 'ids.csv'"),
     sample_world)
  ∧ dicom_sort_series_filtering.main (λ p, p) (λ _, Ok EmptyString)
      "in" "out" false (Some "in/a.dcm/ids.csv") false false sample_world
    = (Raise (Exception NotADirectoryError
                "[Errno 20] Not a directory: 'in/a.dcm/ids.csv'"),
       sample_world).
Proof.
  split.
  - apply (main_missing_correlation_file (λ p, p) Ok (λ l, l) (λ _, Ok EmptyString)
             "in" "out" "ids.csv" false false false false sample_world);
      reflexivity.
  - apply (main_missing_correlation_file (λ p, p) Ok (λ l, l) (λ _, Ok EmptyString)
             "in" "out" "in/a.dcm/ids.csv" false false false false sample_world);
      reflexivity.
Defined.

(** ** Relations between the world before and after *)

Lemma bind_rel {A B} (R : World → World → Prop) `{!Transitive R}
    (m : M A) (k : A → M B) (w : World) :
  R w (m w).2 →
  (∀ a w1, m w = (Ok a, w1) → R w1 (k a w1).2) →
  R w ((m ≫= k) w).2.
Proof.
  intros Hm Hk. unfold mbind, M_bind.
  destruct (m w) as [[a|e] w1] eqn:Hrun; simpl in *; [|done].
  etrans; [exact Hm|]. by apply Hk.
Qed.

Lemma map_each_rel {A B} (R : World → World → Prop)
    `{!Reflexive R, !Transitive R} (f : A → M B) :
  (∀ x w, R w (f x w).2) → ∀ l w, R w (map_each f l w).2.
Proof.
  intros Hf l. induction l as [|x l IH]; intros w; [done|].
  simpl. apply bind_rel; [done|apply Hf|]. intros y w1 _.
  apply bind_rel; [done|apply IH|]. by intros ys w2 _.
Qed.

Lemma for_each_rel {A} (R : World → World → Prop)
    `{!Reflexive R, !Transitive R} (f : A → M unit) :
  (∀ x w, R w (f x w).2) → ∀ l w, R w (for_each l f w).2.
Proof.
  intros Hf l. induction l as [|x l IH]; intros w; [done|].
  simpl. apply bind_rel; [done|apply Hf|]. intros y w1 _. apply IH.
Qed.

Global Instance fs_grows_refl : Reflexive fs_grows.
Proof. intros w. unfold fs_grows. done. Qed.
Global Instance fs_grows_trans : Transitive fs_grows.
Proof. intros w1 w2 w3. unfold fs_grows. apply transitivity. Qed.

Global Instance same_missing_ids_refl : Reflexive same_missing_ids.
Proof. by intros w. Qed.
Global Instance same_missing_ids_trans : Transitive same_missing_ids.
Proof. intros w1 w2 w3. unfold same_missing_ids. congruence. Qed.

Lemma makedirs_go_grows (prefixes : list string) (w : World) :
  fs_grows w (makedirs_go prefixes w).2.
Proof.
  revert w. induction prefixes as [|q rest IH]; intros w; [done|].
  simpl. destruct (fs w !! q) as [[|c]|] eqn:Hq.
  - apply IH.
  - by destruct rest.
  - etrans; [|apply IH]. unfold fs_grows. simpl. by apply insert_subseteq.
Qed.

Lemma os_makedirs_grows (p : string) (w : World) : fs_grows w (os_makedirs p w).2.
Proof.
  unfold os_makedirs. destruct (fs w !! p) as [[|c]|]; [done|..];
    apply makedirs_go_grows.
Qed.

Lemma makedirs_go_same_missing_ids (prefixes : list string) (w : World) :
  same_missing_ids w (makedirs_go prefixes w).2.
Proof.
  revert w. induction prefixes as [|q rest IH]; intros w; [done|].
  simpl. destruct (fs w !! q) as [[|c]|] eqn:Hq.
  - apply IH.
  - by destruct rest.
  - etrans; [|apply IH]. done.
Qed.

Lemma os_makedirs_same_missing_ids (p : string) (w : World) :
  same_missing_ids w (os_makedirs p w).2.
Proof.
  unfold os_makedirs. destruct (fs w !! p) as [[|c]|]; [done|..];
    apply makedirs_go_same_missing_ids.
Qed.



Lemma generate_unique_filename_finds (fuel : nat) (directory filename : string)
    (w : World) :
  size (fs w) + 2 ≤ fuel →
  ∃ name,
    dicom_sorting_tool.generate_unique_filename fuel directory filename w
    = (Ok (Some name), w)
    ∧ fs w !! posixpath.join directory name = None.
Proof.
  intros Hfuel. unfold dicom_sorting_tool.generate_unique_filename.
  destruct (posixpath.splitext filename) as [base_name extension].
  destruct (fs w !! posixpath.join directory filename) as [n|] eqn:Hfile.
  - destruct (candidate_free w directory base_name extension) as (k0 & Hk0 & Hfree0).
    destruct (least_free (λ k, taken w directory (candidate base_name extension k))
                (k0 - 1) 1) as (k & Hk & Hfree & Hbelow).
    { by replace (1 + (k0 - 1)) with k0 by lia. }
    exists (candidate base_name extension k). split.
    + replace k with (1 + (k - 1)) by lia. apply loop_finds.
      * unfold taken. rewrite Hfile. eauto.
      * intros j Hj. apply Hbelow. lia.
      * by replace (1 + (k - 1)) with k by lia.
      * lia.
    + unfold taken in Hfree. by apply eq_None_not_Some.
  - exists filename. split; [|done].
    destruct fuel as [|fuel]; [lia|]. rewrite loop_step.
    rewrite bool_decide_false; [done|]. unfold taken. rewrite Hfile.
    by intros [? ?].
Qed.


(** ** The sorting tool, file by file *)

Lemma sorting_fill_pattern_eq (sanitize_filepath : string → string)
    (dataset : Dataset) (pattern : string) :
  dicom_sorting_tool.fill_pattern sanitize_filepath dataset pattern
  = Ok (sorting_filled_pattern sanitize_filepath dataset pattern).
Proof.
  unfold dicom_sorting_tool.fill_pattern, dicom_sorting_tool.path_attributes. simpl.
  unfold mbind, result_bind. rewrite !get_dicom_attribute_eq by done. reflexivity.
Qed.

Lemma decompress_step (decompress : Dataset → result Dataset)
    (decompress_flag : bool) (dataset : Dataset) (w : World) :
  ∃ w', (if decompress_flag
         then dicom_sorting_tool.decompress_dataset decompress dataset
         else mret dataset) w
        = (Ok (decompressed_if_requested decompress decompress_flag dataset), w')
        ∧ fs w' = fs w ∧ missing_ids w' = missing_ids w.
Proof.
  unfold decompressed_if_requested, dicom_sorting_tool.decompress_dataset.
  destruct decompress_flag; [|by eexists].
  unfold try_except, lift. destruct (decompress dataset) as [d|e]; by eexists.
Qed.

(** A file that decodes: the run is the making of the directory followed,
    when that succeeds, by the writing of the dataset under a name that was
    not in use. *)
Lemma sorting_copy_decodable (sanitize_filepath : string → string)
    (decompress : Dataset → result Dataset)
    (src_file dest_base_dir pattern : string) (anonymize : bool)
    (id_map : option (gmap string string)) (decompress_flag : bool)
    (w w1 : World) (ds ds' : Dataset) :
  has_non_dicom_extension src_file = false →
  fs w !! src_file = Some (File (Dicom ds)) →
  anonymize_if_requested anonymize id_map ds w = (Ok ds', w1) →
  let final := decompressed_if_requested decompress decompress_flag ds' in
  let directory := sorting_directory sanitize_filepath final dest_base_dir pattern in
  ∃ w2, fs w2 = fs w ∧ missing_ids w2 = missing_ids w1
    ∧ (∀ e w3, os_makedirs directory w2 = (Raise e, w3) →
         dicom_sorting_tool.copy_dicom_image sanitize_filepath decompress
           src_file dest_base_dir pattern anonymize id_map decompress_flag w
         = (Raise e, w3))
    ∧ (∀ w3, os_makedirs directory w2 = (Ok tt, w3) →
         ∃ name,
           fs w3 !! posixpath.join directory name = None
           ∧ dicom_sorting_tool.copy_dicom_image sanitize_filepath decompress
               src_file dest_base_dir pattern anonymize id_map decompress_flag w
             = (Ok tt, set_fs (<[posixpath.join directory name
                                   := File (Dicom (stored final))]>
                                 (fs w3)) w3)).
Proof.
  intros Hext Hsrc Hanon final directory.
  destruct (anonymize_if_requested_world _ _ _ _ _ _ Hanon) as (Hfs1 & _).
  destruct (decompress_step decompress decompress_flag ds' w1)
    as (w2 & Hdec & Hfs2 & Hmiss2).
  exists w2. split; [congruence|]. split; [done|].
  assert (dicom_sorting_tool.copy_dicom_image sanitize_filepath decompress
            src_file dest_base_dir pattern anonymize id_map decompress_flag w
          = (_ ← os_makedirs directory;
             w0 ← get_world;
             found ← dicom_sorting_tool.generate_unique_filename
                       (size (fs w0) + 2) directory (posixpath.basename src_file);
             match found with
             | Some unique_filename =>
                 save_as final (posixpath.join directory unique_filename)
             | None =>
                 raise (Exception RuntimeError
                          "generate_unique_filename: no free name")
             end) w2) as ->.
  { unfold dicom_sorting_tool.copy_dicom_image. rewrite Hext. cbv iota.
    unfold mbind at 1, M_bind at 1.
    rewrite (try_except_ok _ _ w w (Some ds)) by (by apply fmap_ok, dcmread_ok).
    unfold mbind at 1, M_bind at 1. rewrite Hanon.
    unfold mbind at 1, M_bind at 1. rewrite Hdec.
    unfold mbind at 1, M_bind at 1, lift at 1. rewrite sorting_fill_pattern_eq.
    reflexivity. }
  split.
  { intros e w3 Hmk. unfold mbind at 1, M_bind at 1. by rewrite Hmk. }
  intros w3 Hmk. unfold mbind at 1, M_bind at 1. rewrite Hmk.
  unfold mbind at 1, M_bind at 1, get_world at 1.
  destruct (generate_unique_filename_finds (size (fs w3) + 2) directory
              (posixpath.basename src_file) w3) as (name & Hname & Hfree); [lia|].
  exists name. split; [done|].
  unfold mbind at 1, M_bind at 1. rewrite Hname.
  unfold save_as, save_as_like. by rewrite Hfree.
Qed.

Lemma sorting_copy_anonymize_raises (sanitize_filepath : string → string)
    (decompress : Dataset → result Dataset)
    (src_file dest_base_dir pattern : string) (anonymize : bool)
    (id_map : option (gmap string string)) (decompress_flag : bool)
    (w w1 : World) (ds : Dataset) (e : exn) :
  has_non_dicom_extension src_file = false →
  fs w !! src_file = Some (File (Dicom ds)) →
  anonymize_if_requested anonymize id_map ds w = (Raise e, w1) →
  dicom_sorting_tool.copy_dicom_image sanitize_filepath decompress
    src_file dest_base_dir pattern anonymize id_map decompress_flag w
  = (Raise e, w1).
Proof.
  intros Hext Hsrc Hanon.
  unfold dicom_sorting_tool.copy_dicom_image. rewrite Hext. cbv iota.
  unfold mbind at 1, M_bind at 1.
  rewrite (try_except_ok _ _ w w (Some ds)) by (by apply fmap_ok, dcmread_ok).
  unfold mbind at 1, M_bind at 1. by rewrite Hanon.
Qed.

Lemma sorting_copy_dicom_image_grows (sanitize_filepath : string → string)
    (decompress : Dataset → result Dataset)
    (src_file dest_base_dir pattern : string) (anonymize : bool)
    (id_map : option (gmap string string)) (decompress_flag : bool) (w : World) :
  fs_grows w (dicom_sorting_tool.copy_dicom_image sanitize_filepath decompress
                src_file dest_base_dir pattern anonymize id_map decompress_flag w).2.
Proof.
  destruct (has_non_dicom_extension src_file) eqn:Hext.
  { unfold dicom_sorting_tool.copy_dicom_image. by rewrite Hext. }
  destruct (fs w !! src_file) as [[|[ds|ds|raw]]|] eqn:Hsrc.
  2:{ destruct (anonymize_if_requested anonymize id_map ds w) as [[ds'|e] w1]
        eqn:Hanon.
      2:{ rewrite (sorting_copy_anonymize_raises _ _ _ _ _ _ _ _ _ _ _ _
                     Hext Hsrc Hanon).
          apply anonymize_if_requested_world in Hanon as (Hfs1 & _).
          unfold fs_grows. simpl. by rewrite Hfs1. }
      destruct (sorting_copy_decodable sanitize_filepath decompress src_file
                  dest_base_dir pattern anonymize id_map decompress_flag
                  w w1 ds ds' Hext Hsrc Hanon) as (w2 & Hfs2 & _ & Hraise & Hok).
      pose proof (os_makedirs_grows
                    (sorting_directory sanitize_filepath
                       (decompressed_if_requested decompress decompress_flag ds')
                       dest_base_dir pattern) w2) as Hgrow.
      destruct (os_makedirs _ w2) as [[[]|e] w3] eqn:Hmk.
      - destruct (Hok w3 eq_refl) as (name & Hfree & ->).
        unfold fs_grows in *. simpl in *. rewrite <- Hfs2.
        etrans; [exact Hgrow|]. by apply insert_subseteq.
      - rewrite (Hraise e w3 eq_refl). unfold fs_grows in *. simpl in *.
        by rewrite <- Hfs2. }
  all: rewrite sorting_skips_undecodable by (done || (intros ds'; by rewrite Hsrc)).
  all: by unfold fs_grows.
Qed.

Lemma in_worker_same_missing_ids {A} (task : M A) (w : World) :
  same_missing_ids w (in_worker task w).2.
Proof. unfold in_worker, same_missing_ids. by destruct (task w). Qed.

Lemma sorting_copy_directory_grows (sanitize_filepath : string → string)
    (decompress : Dataset → result Dataset) (schedule : list string → list string)
    (src_dir dest_dir pattern : string) (anonymize : bool)
    (id_map : option (gmap string string)) (decompress_flag : bool) (w : World) :
  fs_grows w (dicom_sorting_tool.copy_directory sanitize_filepath decompress schedule
                src_dir dest_dir pattern anonymize id_map decompress_flag w).2.
Proof.
  unfold dicom_sorting_tool.copy_directory.
  apply bind_rel; [apply _|done|]. intros all_files w1 _.
  apply bind_rel; [apply _| |].
  - apply map_each_rel; [apply _..|]. intros file w2.
    unfold fs_grows. rewrite in_worker_fs.
    apply sorting_copy_dicom_image_grows.
  - intros futures w2 _. apply for_each_rel; [apply _..|].
    intros future w3. done.
Qed.

(** X5: the sorting tool never changes or deletes what is on the file
    system: whatever a file's pipeline does, and however it ends, every
    entry present before is present and unchanged after, for one file and
    for a whole run. *)
Theorem sorting_never_overwrites (sanitize_filepath : string → string)
    (decompress : Dataset → result Dataset) (schedule : list string → list string)
    (anonymize : bool) (id_map : option (gmap string string))
    (decompress_flag : bool) (w : World) :
  (∀ src_file dest_base_dir pattern,
     fs w ⊆ fs (dicom_sorting_tool.copy_dicom_image sanitize_filepath decompress
                  src_file dest_base_dir pattern anonymize id_map decompress_flag w).2)
  ∧ (∀ input_dir output_dir,
       fs w ⊆ fs (dicom_sorting_tool.sort_dicom sanitize_filepath decompress schedule
                    input_dir output_dir anonymize id_map decompress_flag w).2).
Proof.
  split.
  - intros. apply sorting_copy_dicom_image_grows.
  - intros input_dir output_dir. change (fs_grows w
      (dicom_sorting_tool.sort_dicom sanitize_filepath decompress schedule
         input_dir output_dir anonymize id_map decompress_flag w).2).
    unfold dicom_sorting_tool.sort_dicom.
    apply bind_rel; [apply _|done|]. intros present w1 _.
    apply bind_rel; [apply _| |].
    + destruct present; [done|apply os_makedirs_grows].
    + intros _ w2 _. apply sorting_copy_directory_grows.
Qed.




(** ** The unresolved ids of a run *)

Lemma fmap_snd {A B} (f : A → B) (m : M A) (w : World) :
  ((f <$> m) w).2 = (m w).2.
Proof. unfold fmap, M_fmap. by destruct (m w) as [[a|e] w']. Qed.

Lemma read_id_correlation_loop_same_missing_ids (lines : list string)
    (id_map : gmap string string) (w : World) :
  same_missing_ids w (read_id_correlation_loop lines id_map w).2.
Proof.
  revert id_map w. induction lines as [|line rest IH]; intros id_map w; [done|].
  simpl. destruct (re_split_separators (Py.strip line)) as [|old_id [|new_id fields]].
  - apply bind_rel; [apply _|done|]. intros _ w1 _. apply IH.
  - apply bind_rel; [apply _|done|]. intros _ w1 _. apply IH.
  - apply IH.
Qed.

Lemma load_id_map_same_missing_ids (text_of_dataset : Dataset → result string)
    (ID_correlation : option string) (w : World) :
  same_missing_ids w (load_id_map text_of_dataset ID_correlation w).2.
Proof.
  unfold load_id_map. destruct ID_correlation as [file_path|]; [|done].
  destruct (Py.truthy file_path) eqn:Hpath; [|done].
  rewrite fmap_snd. unfold read_id_correlation. rewrite Hpath.
  apply bind_rel; [apply _| |].
  - unfold open_read.
    destruct (fs w !! file_path) as [[|[ds|ds|bytes]]|]; try done.
    by destruct (Py.well_formed bytes).
  - intros text w1 _. apply read_id_correlation_loop_same_missing_ids.
Qed.

Lemma sorting_sort_dicom_same_missing_ids (sanitize_filepath : string → string)
    (decompress : Dataset → result Dataset) (schedule : list string → list string)
    (input_dir output_dir : string) (anonymize : bool)
    (id_map : option (gmap string string)) (decompress_flag : bool) (w : World) :
  same_missing_ids w
    (dicom_sorting_tool.sort_dicom sanitize_filepath decompress schedule
       input_dir output_dir anonymize id_map decompress_flag w).2.
Proof.
  unfold dicom_sorting_tool.sort_dicom.
  apply bind_rel; [apply _|done|]. intros present w1 _.
  apply bind_rel; [apply _| |].
  { destruct present; [done|apply os_makedirs_same_missing_ids]. }
  intros _ w2 _. unfold dicom_sorting_tool.copy_directory.
  apply bind_rel; [apply _|done|]. intros all_files w3 _.
  apply bind_rel; [apply _| |].
  - apply map_each_rel; [apply _..|]. intros file w4.
    apply in_worker_same_missing_ids.
  - intros futures w4 _. apply for_each_rel; [apply _..|]. by intros future w5.
Qed.

(** X7: the sorting tool never writes the log of unresolved ids: the ids
    are recorded inside the worker processes, whose globals the parent does
    not see, so on a fresh interpreter [main] is the loading of the map
    followed by [sort_dicom] and its set of unresolved ids stays empty. *)
Theorem sorting_main_never_logs (sanitize_filepath : string → string)
    (decompress : Dataset → result Dataset) (schedule : list string → list string)
    (text_of_dataset : Dataset → result string)
    (dicomin dicomout : string) (anonymize : bool)
    (ID_correlation : option string) (decompress_flag : bool) (w : World) :
  missing_ids w = ∅ →
  dicom_sorting_tool.main sanitize_filepath decompress schedule text_of_dataset
    dicomin dicomout anonymize ID_correlation decompress_flag w
  = (id_map ← load_id_map text_of_dataset ID_correlation;
     dicom_sorting_tool.sort_dicom sanitize_filepath decompress schedule
       dicomin dicomout anonymize id_map decompress_flag) w
  ∧ missing_ids
      (dicom_sorting_tool.main sanitize_filepath decompress schedule text_of_dataset
         dicomin dicomout anonymize ID_correlation decompress_flag w).2 = ∅.
Proof.
  intros Hempty.
  pose proof (load_id_map_same_missing_ids text_of_dataset ID_correlation w) as Hload.
  unfold dicom_sorting_tool.main, mbind, M_bind.
  destruct (load_id_map text_of_dataset ID_correlation w) as [[id_map|e] w1];
    simpl in Hload; unfold same_missing_ids in Hload;
    [|split; [done|simpl; congruence]].
  pose proof (sorting_sort_dicom_same_missing_ids sanitize_filepath decompress
                schedule dicomin dicomout anonymize id_map decompress_flag w1) as Hsort.
  destruct (dicom_sorting_tool.sort_dicom _ _ _ _ _ _ _ _ w1) as [[[]|e] w2];
    simpl in Hsort; unfold same_missing_ids in Hsort;
    [|split; [done|simpl; congruence]].
  assert (missing_ids w2 = ∅) as Hw2 by congruence.
  unfold log_missing_ids, mbind, M_bind, get_world.
  rewrite Hw2, bool_decide_true by done. done.
Qed.

Lemma sorting_main_never_logs_witness :
  missing_ids
    (dicom_sorting_tool.main (λ p, p) Ok (λ l, l) (λ _, Ok EmptyString)
       "in" "out" true None false sample_world).2 = ∅.
Proof.
  exact (proj2 (sorting_main_never_logs (λ p, p) Ok (λ l, l) (λ _, Ok EmptyString)
                  "in" "out" true None false sample_world eq_refl)).
Defined.


(** ** Files that are not read *)

Lemma app_prefix_cases (x y u v : string) :
  x +:+ y = u +:+ v →
  (∃ m, u = x +:+ m ∧ y = m +:+ v) ∨ (∃ m, x = u +:+ m ∧ v = m +:+ y).
Proof.
  revert u. induction x as [|c x IH]; intros u H.
  - left. exists u. by rewrite !app_nil_l in *.
  - destruct u as [|d u].
    + right. exists (String c x). by rewrite !app_nil_l in *.
    + rewrite !app_cons in H. injection H as <- H.
      destruct (IH u H) as [(m & -> & ->)|(m & -> & ->)]; [left|right];
        exists m; by rewrite app_cons.
Qed.

Lemma no_ascii_app (s t : string) : no_ascii (s +:+ t) = no_ascii s && no_ascii t.
Proof.
  induction s as [|c s IH]; [done|]. rewrite app_cons. simpl.
  by rewrite IH, andb_assoc.
Qed.

Lemma decode_first_app (x y : string) (r : N * nat) :
  Py.decode_first x = Some r → Py.decode_first (x +:+ y) = Some r.
Proof.
  destruct r as [cp n]. intros (Hs & t & -> & <-)%decode_first_sound.
  rewrite app_assoc_str. by apply decode_first_utf8.
Qed.

Lemma decode_first_length (x : string) (cp : N) (n : nat) :
  Py.decode_first x = Some (cp, n) → n ≤ String.length x.
Proof.
  intros (_ & t & -> & <-)%decode_first_sound. rewrite app_length_str. lia.
Qed.

(** A sequence that is not complete does not become so by an ASCII
    character that follows. *)
Lemma decode_first_app_ascii (x : string) (c : ascii) (t : string) :
  x ≠ EmptyString → (Py.byte c < 0x80)%N →
  Py.decode_first x = None → Py.decode_first (x +:+ String c t) = None.
Proof.
  intros Hx Hc Hnone.
  destruct (Py.decode_first (x +:+ String c t)) as [[cp n]|] eqn:Hd; [|done].
  apply decode_first_sound in Hd as (Hs & t' & Heq & Hn).
  apply app_prefix_cases in Heq as [(m & Hu & Hm)|(m & -> & _)].
  - destruct m as [|c' m].
    + rewrite app_nil_r in Hu. subst x.
      rewrite <- (app_nil_r (Py.utf8 cp)), decode_first_utf8 in Hnone by done.
      done.
    + rewrite app_cons in Hm. injection Hm as <- _.
      apply is_scalar_spec in Hs.
      destruct (N.lt_ge_cases cp 0x80) as [Hlt|Hge].
      * rewrite utf8_ascii in Hu by done. destruct x as [|d [|d' x]]; done.
      * pose proof (utf8_no_ascii cp Hge ltac:(lia)) as Hno.
        rewrite Hu, no_ascii_app in Hno. simpl in Hno.
        apply andb_true_iff in Hno as [_ [Hno%N.leb_le _]%andb_true_iff]. lia.
  - by rewrite decode_first_utf8 in Hnone.
Qed.

(** The code points of a string followed by text that starts with an ASCII
    character. *)
Lemma code_points_go_app_ascii (a : string) (c : ascii) (t : string) (k : nat) :
  (Py.byte c < 0x80)%N → k ≤ String.length a →
  Py.code_points_go k (a +:+ String c t)
  = Py.code_points_go k a ++ Py.code_points_go 0 (String c t).
Proof.
  intros Hc. revert k. induction a as [|d a IH]; intros k Hk.
  { simpl in Hk. by replace k with 0 by lia. }
  rewrite app_cons. destruct k as [|k].
  - rewrite !code_points_go_cons. rewrite <- app_cons.
    destruct (Py.decode_first (String d a)) as [[cp n]|] eqn:Hd.
    + rewrite (decode_first_app _ _ _ Hd).
      apply decode_first_length in Hd. simpl in Hd.
      rewrite IH by lia. done.
    + rewrite decode_first_app_ascii by done. by rewrite IH by lia.
  - simpl in Hk. apply IH. lia.
Qed.

Lemma code_points_app_ascii (a : string) (c : ascii) (t : string) :
  (Py.byte c < 0x80)%N →
  Py.code_points (a +:+ String c t)
  = Py.code_points a ++ Py.code_points (String c t).
Proof. intros Hc. apply code_points_go_app_ascii; [done|lia]. Qed.

(** *** Lower case *)

Lemma lower_points_cons (after_cased : bool) (cp : N) (l : list N) :
  Py.lower_points after_cased (cp :: l)
  = (if (cp =? 0x3A3)%N
     then [if after_cased && negb (Py.cased_ahead l) then 0x3C2 else 0x3C3]%N
     else Py.lower_point cp)
    ++ Py.lower_points (if Py.in_ranges Py.case_ignorable cp then after_cased
                        else Py.in_ranges Py.cased cp) l.
Proof. reflexivity. Qed.

Lemma lower_points_app (after_cased : bool) (l1 l2 : list N) :
  ∃ pre b, Py.lower_points after_cased (l1 ++ l2) = pre ++ Py.lower_points b l2.
Proof.
  revert after_cased. induction l1 as [|cp l1 IH]; intros after_cased.
  - by exists [], after_cased.
  - rewrite <- app_comm_cons, lower_points_cons.
    destruct (IH (if Py.in_ranges Py.case_ignorable cp then after_cased
                  else Py.in_ranges Py.cased cp)) as (pre & b & ->).
    eexists (_ ++ pre), b. by rewrite app_assoc.
Qed.

Lemma lower_points_no_sigma (after_cased : bool) (l : list N) :
  forallb (λ cp, (cp <? 0x80)%N) l = true →
  Py.lower_points after_cased l = flat_map Py.lower_point l.
Proof.
  revert after_cased. induction l as [|cp l IH]; intros after_cased; [done|].
  rewrite lower_points_cons. cbn [forallb flat_map].
  intros [Hcp%N.ltb_lt Hl]%andb_true_iff. rewrite IH by done.
  destruct (N.eqb_spec cp 0x3A3); [lia|done].
Qed.

Lemma simple_case_found (table : list (N * N * N * N)) (cp v : N) :
  Py.simple_case table cp = Some v →
  ∃ first last stride image,
    (first, last, stride, image) ∈ table
    ∧ (first ≤ cp ∧ cp ≤ last)%N ∧ v = (image + (cp - first))%N.
Proof.
  unfold Py.simple_case.
  destruct (find _ table) as [[[[first last] stride] image]|] eqn:Hfind; [|done].
  intros [= <-]. apply find_some in Hfind as [Hin Htest].
  apply andb_true_iff in Htest as [Hrange%in_range_spec _].
  exists first, last, stride, image. split; [by apply list_elem_of_In|done].
Qed.

(** The lower-case form of a code point outside ASCII, the Kelvin sign
    apart, has a code point outside ASCII in it. *)
Lemma lower_point_outside (cp : N) :
  (0x80 ≤ cp)%N → (cp ≤ 0x10FFFF)%N → cp ≠ 0x212A%N →
  ∃ x, x ∈ Py.lower_point cp ∧ (0x80 ≤ x)%N ∧ (x ≤ 0x10FFFF)%N.
Proof.
  intros Hlo Hhi Hkelvin. unfold Py.lower_point, Py.full_case.
  unfold Py.lowercase_special. cbn [find fst snd].
  destruct (N.eqb_spec 0x130 cp) as [<-|_].
  { exists 0x307%N. split; [|lia]. set_solver. }
  destruct (Py.simple_case Py.lowercase cp) as [v|] eqn:Hcase.
  2:{ exists cp. split; [by left|lia]. }
  exists v. split; [by left|].
  apply simple_case_found in Hcase
    as (first & last & stride & image & Hin & Hrange & ->).
  assert (forallb (λ g, let '(first, last, _, image) := g in
                        ((last <? 0x80) || (0x80 <=? image)
                         || ((first =? 0x212A) && (last =? 0x212A)))
                        && (image + (last - first) <=? 0x10FFFF))%N
            Py.lowercase = true) as Htable by (vm_compute; reflexivity).
  rewrite forallb_forall in Htable.
  specialize (Htable _ (proj1 (list_elem_of_In _ _) Hin)). simpl in Htable.
  apply andb_true_iff in Htable as [Himage Hbound%N.leb_le].
  apply orb_true_iff in Himage as [Himage|Himage];
    [apply orb_true_iff in Himage as [Himage%N.ltb_lt|Himage%N.leb_le]|].
  - lia.
  - lia.
  - apply andb_true_iff in Himage as [?%N.eqb_eq ?%N.eqb_eq]. lia.
Qed.

Lemma ascii_without_app (a : ascii) (s t : string) :
  ascii_without a (s +:+ t) = ascii_without a s && ascii_without a t.
Proof.
  induction s as [|c s IH]; [done|]. rewrite app_cons. simpl.
  by rewrite IH, !andb_assoc.
Qed.

Lemma encode_outside (a : ascii) (image : list N) (x : N) :
  x ∈ image → (0x80 ≤ x)%N → (x ≤ 0x10FFFF)%N →
  ascii_without a (Py.encode image) = false.
Proof.
  intros Hin Hlo Hhi. induction image as [|y image IH].
  { by apply not_elem_of_nil in Hin. }
  simpl. rewrite ascii_without_app.
  apply elem_of_cons in Hin as [<-|Hin]; [|by rewrite IH, andb_false_r].
  pose proof (utf8_no_ascii x Hlo Hhi) as Hno.
  destruct (utf8_cons x) as (c & u & Hu). rewrite Hu in Hno |- *. simpl in Hno |- *.
  apply andb_true_iff in Hno as [Hc%N.leb_le _].
  by rewrite (proj2 (N.ltb_ge _ _)) by lia.
Qed.

(** Text whose lower-case form is made of ASCII characters other than [k]
    is made of ASCII characters. *)
Lemma lower_points_ascii_inv (after_cased : bool) (l : list N) :
  Forall (λ cp, cp ≤ 0x10FFFF)%N l →
  ascii_without "k" (Py.encode (Py.lower_points after_cased l)) = true →
  forallb (λ cp, (cp <? 0x80)%N) l = true.
Proof.
  intros Hl. revert after_cased.
  induction Hl as [|cp l Hcp _ IH]; intros after_cased; [done|].
  rewrite lower_points_cons, encode_app, ascii_without_app.
  intros [Himage Hrest]%andb_true_iff. simpl.
  rewrite (IH _ Hrest), andb_true_r. apply N.ltb_lt.
  destruct (N.lt_ge_cases cp 0x80) as [|Hge]; [done|]. exfalso.
  destruct (N.eqb_spec cp 0x3A3) as [->|Hsigma].
  { rewrite (encode_outside "k" _ (if after_cased && negb (Py.cased_ahead l)
                                   then 0x3C2 else 0x3C3)%N) in Himage;
      [done|by left|by destruct (_ && _)..]. }
  destruct (N.eq_dec cp 0x212A%N) as [->|Hkelvin].
  { vm_compute in Himage. discriminate Himage. }
  destruct (lower_point_outside cp Hge Hcp Hkelvin) as (x & Hin & Hlo & Hhi).
  by rewrite (encode_outside "k" _ x) in Himage.
Qed.

Lemma encode_ascii (l : list N) :
  forallb (λ cp, (cp <? 0x80)%N) l = true → is_ascii (Py.encode l) = true.
Proof.
  induction l as [|cp l IH]; [done|]. simpl.
  intros [Hcp%N.ltb_lt Hl]%andb_true_iff.
  rewrite utf8_ascii by done. rewrite app_cons, app_nil_l. simpl.
  rewrite byte_of_ascii by lia. rewrite (proj2 (N.ltb_lt _ _)) by done.
  by apply IH.
Qed.

Lemma code_points_bounded (s : string) :
  Forall (λ cp, cp ≤ 0x10FFFF)%N (Py.code_points s).
Proof.
  apply Forall_forall. intros cp Hin.
  apply code_points_go_kinds in Hin as [Hs%is_scalar_spec|He%in_range_spec]; lia.
Qed.

Lemma has_non_dicom_extension_suffix (stem suffix : string) :
  Py.lower suffix ∈ non_dicom_extensions →
  has_non_dicom_extension (stem +:+ suffix) = true.
Proof.
  intros Hin.
  assert (ascii_without "k" (Py.lower suffix) = true) as Hplain.
  { unfold non_dicom_extensions in Hin. rewrite !elem_of_cons in Hin.
    destruct Hin as [->|[->|[->|[->|[->|[]%elem_of_nil]]]]]; reflexivity. }
  assert (suffix ≠ EmptyString) as Hne.
  { intros ->. unfold non_dicom_extensions in Hin. rewrite !elem_of_cons in Hin.
    destruct Hin as [?|[?|[?|[?|[?|[]%elem_of_nil]]]]]; discriminate. }
  pose proof (lower_points_ascii_inv false _ (code_points_bounded suffix) Hplain)
    as Hpoints.
  pose proof (encode_ascii _ Hpoints) as Hascii.
  rewrite encode_code_points in Hascii.
  destruct suffix as [|c suffix]; [done|].
  pose proof Hascii as [Hc%N.ltb_lt _]%andb_true_iff.
  unfold has_non_dicom_extension. apply existsb_exists.
  exists (Py.lower (String c suffix)). split; [by apply list_elem_of_In|].
  apply endswith_spec. unfold Py.lower at 1.
  rewrite code_points_app_ascii by done.
  destruct (lower_points_app false (Py.code_points stem)
              (Py.code_points (String c suffix))) as (pre & b & ->).
  exists (Py.encode pre). rewrite encode_app. f_equal. unfold Py.lower.
  by rewrite !lower_points_no_sigma by done.
Qed.

(** X8: a file whose name ends, in any mix of upper and lower case, with
    one of the five image extensions is passed over by the per-file function
    of each of the three tools: it is not read, nothing is printed and
    nothing is written. *)
Theorem non_dicom_extension_skipped (sanitize_filepath : string → string)
    (decompress : Dataset → result Dataset) (stem suffix : string)
    (dest_base_dir pattern : string) (anonymize : bool)
    (id_map : option (gmap string string)) (decompress_flag move force : bool)
    (w : World) :
  Py.lower suffix ∈ non_dicom_extensions →
  dicom_sorting_tool.copy_dicom_image sanitize_filepath decompress
    (stem +:+ suffix) dest_base_dir pattern anonymize id_map decompress_flag w
  = (Ok tt, w)
  ∧ DICOMDIR_creation_tool.copy_dicom_image sanitize_filepath
      (stem +:+ suffix) dest_base_dir anonymize id_map w
    = (Ok tt, w)
  ∧ dicom_sort_series_filtering.copy_or_move_dicom_image sanitize_filepath
      (stem +:+ suffix) dest_base_dir pattern anonymize id_map move force w
    = (Ok tt, w).
Proof.
  intros Hin. pose proof (has_non_dicom_extension_suffix stem _ Hin) as Hext.
  unfold dicom_sorting_tool.copy_dicom_image,
    DICOMDIR_creation_tool.copy_dicom_image,
    dicom_sort_series_filtering.copy_or_move_dicom_image.
  by rewrite Hext.
Qed.

Lemma non_dicom_extension_skipped_witness :
  dicom_sorting_tool.copy_dicom_image (λ p, p) Ok
    ("in/scan" +:+ ".JpEg") "out" "%PatientID%" true None false sample_world
  = (Ok tt, sample_world)
  ∧ DICOMDIR_creation_tool.copy_dicom_image (λ p, p)
      ("in/scan" +:+ ".JpEg") "out" true None sample_world
    = (Ok tt, sample_world)
  ∧ dicom_sort_series_filtering.copy_or_move_dicom_image (λ p, p)
      ("in/scan" +:+ ".JpEg") "out" "%PatientID%" true None true true sample_world
    = (Ok tt, sample_world).
Proof.
  apply (non_dicom_extension_skipped (λ p, p) Ok "in/scan" ".JpEg").
  change (".jpeg" ∈ non_dicom_extensions). unfold non_dicom_extensions.
  rewrite !elem_of_cons. auto.
Defined.


(** ** The filtering tool and the files it finds *)

Global Instance content_kept_refl : Reflexive content_kept.
Proof. intros w p c H. by exists p. Qed.

Global Instance content_kept_trans : Transitive content_kept.
Proof.
  intros w1 w2 w3 H12 H23 p c H. destruct (H23 p c H) as [q Hq]. by apply (H12 q).
Qed.

Lemma read_or_report_fs (src_file : string) (w : World) :
  fs (try_except (Some <$> dcmread src_file)
        (λ _, _ ← print ("Not a DICOM file: " +:+ src_file); mret None) w).2 = fs w.
Proof.
  unfold try_except, fmap, M_fmap, dcmread.
  by destruct (fs w !! src_file) as [[|[ds|ds|raw]]|].
Qed.

Lemma makedirs_go_content_kept (prefixes : list string) (w : World) :
  content_kept w (makedirs_go prefixes w).2.
Proof.
  revert w. induction prefixes as [|q rest IH]; intros w; [done|].
  simpl. destruct (fs w !! q) as [[|c]|] eqn:Hq.
  - apply IH.
  - by destruct rest.
  - etrans; [|apply IH]. intros p c. simpl. rewrite lookup_insert.
    case_decide; [done|]. intros Hp. by exists p.
Qed.

Lemma os_makedirs_content_kept (p : string) (w : World) :
  content_kept w (os_makedirs p w).2.
Proof.
  unfold os_makedirs. destruct (fs w !! p) as [[|c]|]; [done|..];
    apply makedirs_go_content_kept.
Qed.

(** What the per-file function of the filtering tool does to the file
    system is what [os.makedirs] and the final copy or move do. *)
Lemma copy_or_move_rel (R : World → World → Prop)
    `{!Reflexive R, !Transitive R} (sanitize_filepath : string → string)
    (move force : bool) :
  (∀ w w', fs w' = fs w → R w w') →
  (∀ p w, R w (os_makedirs p w).2) →
  (∀ src dst w, (force = false → fs w !! dst = None) →
     R w ((if move then shutil_move src dst else shutil_copy2 src dst) w).2) →
  ∀ src_file dest_base_dir pattern anonymize id_map w,
    R w (dicom_sort_series_filtering.copy_or_move_dicom_image sanitize_filepath
           src_file dest_base_dir pattern anonymize id_map move force w).2.
Proof.
  intros Hfs Hmk Hfinal src_file dest_base_dir pattern anonymize id_map w.
  unfold dicom_sort_series_filtering.copy_or_move_dicom_image.
  destruct (has_non_dicom_extension src_file); [done|].
  apply bind_rel; [done|apply Hfs, read_or_report_fs|].
  intros [ds|] w1 _; [|done].
  apply bind_rel; [done| |].
  { destruct (anonymize_if_requested anonymize id_map ds w1) as [r w2] eqn:Hanon.
    apply anonymize_if_requested_world in Hanon as (Hw2 & _). by apply Hfs. }
  intros ds' w2 _.
  apply bind_rel; [done|done|]. intros series_desc w3 _.
  apply bind_rel; [done|done|]. intros series_num w4 _.
  apply bind_rel; [done| |].
  { rewrite should_process_series_run. by apply Hfs. }
  intros accepted w5 _. destruct accepted; simpl; [|by apply Hfs].
  apply bind_rel; [done|done|]. intros sop_instance_uid w6 _.
  apply bind_rel; [done|done|]. intros filled w7 _.
  apply bind_rel; [done|apply Hmk|]. intros _ w8 _.
  apply bind_rel; [done|done|]. intros present w9 Hpresent.
  rewrite os_path_exists_run in Hpresent. injection Hpresent as <- <-.
  set (dst := posixpath.join _ _).
  assert (negb force && bool_decide (is_Some (fs w8 !! dst)) = false →
          R w8 ((if move then shutil_move src_file dst
                 else shutil_copy2 src_file dst) w8).2) as Hstep.
  { intros Hguard. apply Hfinal. intros ->. simpl in Hguard.
    apply bool_decide_eq_false in Hguard. by apply eq_None_not_Some. }
  destruct (negb force && bool_decide (is_Some (fs w8 !! dst))); [by apply Hfs|].
  specialize (Hstep eq_refl).
  destruct move; (apply bind_rel; [done|exact Hstep|]); intros _ w10 _; by apply Hfs.
Qed.

Lemma filtering_sort_dicom_rel (R : World → World → Prop)
    `{!Reflexive R, !Transitive R} (sanitize_filepath : string → string)
    (move force : bool) :
  (∀ w w', fs w' = fs w → R w w') →
  (∀ p w, R w (os_makedirs p w).2) →
  (∀ src dst w, (force = false → fs w !! dst = None) →
     R w ((if move then shutil_move src dst else shutil_copy2 src dst) w).2) →
  ∀ input_dir output_dir anonymize id_map w,
    R w (dicom_sort_series_filtering.sort_dicom sanitize_filepath
           input_dir output_dir anonymize id_map move force w).2.
Proof.
  intros Hfs Hmk Hfinal input_dir output_dir anonymize id_map w.
  unfold dicom_sort_series_filtering.sort_dicom.
  apply bind_rel; [done|done|]. intros present w1 _.
  apply bind_rel; [done| |].
  { destruct present; [done|apply Hmk]. }
  intros _ w2 _. unfold dicom_sort_series_filtering.copy_directory.
  apply bind_rel; [done|done|]. intros all_files w3 _.
  apply for_each_rel; [done..|]. intros file w4.
  by apply copy_or_move_rel.
Qed.

Lemma insert_content_kept (w : World) (src dst : string) (c : content)
    (f : gmap string node) :
  fs w !! src = Some (File c) →
  (∀ p n, f !! p = Some n → fs w !! p = Some n) →
  content_kept w (set_fs (<[dst := File c]> f) w).
Proof.
  intros Hsrc Hf p c0. simpl. rewrite lookup_insert.
  case_decide; [intros [= <-]; by exists src|].
  intros Hp%Hf. by exists p.
Qed.

Lemma shutil_copy2_content_kept (src dst : string) (w : World) :
  content_kept w (shutil_copy2 src dst w).2.
Proof.
  unfold shutil_copy2. set (real_dst := real_destination src dst w).
  destruct (fs w !! src) as [[|c]|] eqn:Hsrc; try done.
  case_decide; [done|].
  destruct (fs w !! real_dst) as [[|c']|]; [done|..].
  - by apply (insert_content_kept w src).
  - destruct (parent_is_directory real_dst w); [|done].
    by apply (insert_content_kept w src).
Qed.

Lemma shutil_move_content_kept (src dst : string) (w : World) :
  content_kept w (shutil_move src dst w).2.
Proof.
  assert (∀ p n, delete src (fs w) !! p = Some n → fs w !! p = Some n) as Hdel.
  { intros p n. rewrite lookup_delete. by case_decide. }
  unfold shutil_move.
  destruct (fs w !! src) as [[|c]|] eqn:Hsrc; try done.
  destruct (fs w !! dst) as [[|c']|].
  - case_bool_decide; [done|]. by apply (insert_content_kept w src).
  - by apply (insert_content_kept w src).
  - destruct (parent_is_directory dst w); [|done].
    by apply (insert_content_kept w src).
Qed.

(** X9: without the move and the force flag a run of the filtering tool
    leaves every file and directory it finds in place and unchanged; it
    only adds entries. *)
Theorem filtering_copy_keeps_existing (sanitize_filepath : string → string)
    (input_dir output_dir : string) (anonymize : bool)
    (id_map : option (gmap string string)) (w : World) :
  fs w ⊆ fs (dicom_sort_series_filtering.sort_dicom sanitize_filepath
               input_dir output_dir anonymize id_map false false w).2.
Proof.
  apply (filtering_sort_dicom_rel fs_grows).
  - intros w1 w2 Heq. unfold fs_grows. by rewrite Heq.
  - apply os_makedirs_grows.
  - intros src dst w1 Hfree. specialize (Hfree eq_refl).
    unfold fs_grows, shutil_copy2, real_destination. rewrite Hfree.
    cbv beta iota zeta. rewrite Hfree.
    destruct (fs w1 !! src) as [[|c]|]; [done| |done].
    case_decide; [done|].
    destruct (parent_is_directory dst w1); [|done].
    simpl. by apply insert_subseteq.
Qed.

(** X10: whatever the flags, every regular file found after a run of the
    filtering tool holds what some regular file held before the run: the
    tool stores copies of the files as they were read from disk, so the
    anonymised dataset, which only serves to compute the destination, never
    reaches the output. *)
Theorem filtering_stores_files_as_read (sanitize_filepath : string → string)
    (input_dir output_dir : string) (anonymize : bool)
    (id_map : option (gmap string string)) (move force : bool) (w : World) :
  content_kept w
    (dicom_sort_series_filtering.sort_dicom sanitize_filepath
       input_dir output_dir anonymize id_map move force w).2.
Proof.
  apply (filtering_sort_dicom_rel content_kept).
  - intros w1 w2 Heq p c. rewrite Heq. intros H. by exists p.
  - apply os_makedirs_content_kept.
  - intros src dst w1 _. destruct move.
    + apply shutil_move_content_kept.
    + apply shutil_copy2_content_kept.
Qed.










(** ** The image counter of the DICOMDIR tool *)

Lemma get_image_filename_run (directory : string) (w : World) :
  let n := default 0 (image_counter w !! directory) in
  DICOMDIR_creation_tool.get_image_filename directory w
  = (Ok ("IM" +:+ Py.format_0d 6 (n + 1)),
     set_image_counter (<[directory := n + 1]> (image_counter w)) w).
Proof.
  unfold DICOMDIR_creation_tool.get_image_filename, mbind, M_bind, get_world,
    modify_world, mret, M_ret.
  destruct (image_counter w !! directory) as [n|] eqn:Hd; simpl.
  - by rewrite Hd.
  - rewrite lookup_insert_eq. unfold set_image_counter. simpl.
    by rewrite insert_insert_eq.
Qed.

Lemma requests_for_lt (directory : string) (requests : list string) (i j : nat) :
  i ≤ j → requests !! j = Some directory →
  requests_for directory (take i requests)
  < requests_for directory (take (S j) requests).
Proof.
  revert i j. induction requests as [|d rest IH]; intros i j Hij Hj; [done|].
  destruct j as [|j]; simpl in Hj.
  - injection Hj as ->. assert (i = 0) as -> by lia. simpl.
    rewrite decide_True by done. lia.
  - destruct i as [|i]; simpl.
    + pose proof (IH 0 j ltac:(lia) Hj) as Hlt. simpl in Hlt. lia.
    + pose proof (IH i j ltac:(lia) Hj) as Hlt. simpl in Hlt. lia.
Qed.

Lemma image_filenames_run (requests : list string) (w : World) :
  ∃ names w',
    map_each DICOMDIR_creation_tool.get_image_filename requests w = (Ok names, w')
    ∧ ∀ i directory, requests !! i = Some directory →
        names !! i
        = Some ("IM" +:+ Py.format_0d 6
                  (default 0 (image_counter w !! directory)
                   + requests_for directory (take (S i) requests))).
Proof.
  revert w. induction requests as [|d rest IH]; intros w.
  { eexists _, _. split; [reflexivity|]. by intros i directory. }
  pose proof (get_image_filename_run d w) as Hstep. simpl in Hstep.
  set (w1 := set_image_counter _ w) in Hstep.
  destruct (IH w1) as (names & w' & Hrun & Hnames).
  exists (("IM" +:+ Py.format_0d 6 (default 0 (image_counter w !! d) + 1)) :: names), w'.
  split.
  { simpl. unfold mbind at 1, M_bind at 1. rewrite Hstep.
    unfold mbind, M_bind. by rewrite Hrun. }
  intros [|i] directory Hi; simpl in Hi.
  - injection Hi as ->. simpl. rewrite decide_True by done.
    by rewrite Nat.add_0_r.
  - change ((?x :: names) !! S i) with (names !! i). rewrite (Hnames i directory Hi).
    do 3 f_equal. change (take (S (S i)) (d :: rest)) with (d :: take (S i) rest).
    simpl requests_for. subst w1. simpl. case_decide as Hd.
    + subst d. rewrite lookup_insert_eq. simpl. lia.
    + by rewrite lookup_insert_ne.
Qed.

(** X12: [get_image_filename] never fails; its i-th answer in a run of
    requests is IM followed by the counter of the directory at the start of
    the run plus the number of requests made for that directory so far, in
    at least six digits, so two requests for one directory never get the
    same name. *)
Theorem image_filenames_numbered (requests : list string) (w : World) :
  ∃ names w',
    map_each DICOMDIR_creation_tool.get_image_filename requests w = (Ok names, w')
    ∧ (∀ i directory, requests !! i = Some directory →
         names !! i
         = Some ("IM" +:+ Py.format_0d 6
                   (default 0 (image_counter w !! directory)
                    + requests_for directory (take (S i) requests))))
    ∧ (∀ i j directory a b,
         i < j → requests !! i = Some directory → requests !! j = Some directory →
         names !! i = Some a → names !! j = Some b → a ≠ b).
Proof.
  destruct (image_filenames_run requests w) as (names & w' & Hrun & Hnames).
  exists names, w'. split; [done|]. split; [done|].
  intros i j directory a b Hij Hi Hj Ha Hb Hab.
  rewrite (Hnames i directory Hi) in Ha. rewrite (Hnames j directory Hj) in Hb.
  injection Ha as <-. injection Hb as <-.
  apply String.app_inj in Hab. apply format_0d_inj in Hab.
  pose proof (requests_for_lt directory requests (S i) j ltac:(lia) Hj). lia.
Qed.











(** ** The protocol-name tool and the file system *)

Lemma os_walk_files_spec (top p : string) (w : World) (all_files : list string) :
  os_walk_files top w = (Ok all_files, w) →
  p ∈ all_files
  ↔ Py.truthy top && Py.startswith p (posixpath.join top "") = true
    ∧ ∃ c, fs w !! p = Some (File c).
Proof.
  unfold os_walk_files, mbind, M_bind, get_world. intros [= <-].
  destruct (Py.truthy top); simpl.
  2:{ split; [by intros ?%elem_of_nil|by intros [? _]]. }
  rewrite list_elem_of_fmap. split.
  - intros ([q n] & -> & [Hq Hn%elem_of_map_to_list]%list_elem_of_filter).
    simpl in *. apply Is_true_true, andb_true_iff in Hq as [Hpre Hfile].
    split; [done|]. destruct n as [|c]; [done|]. by exists c.
  - intros (Hpre & c & Hp). exists (p, File c). split; [done|].
    apply list_elem_of_filter. split; [|by apply elem_of_map_to_list].
    simpl. rewrite Hpre. done.
Qed.

Lemma protocol_name_main_fs (forced_read : string → result Dataset)
    (save_error : Dataset → option exn) (schedule : list string → list string)
    (dicom_folder p : string) (w : World) :
  (∀ l, schedule l ≡ₚ l) →
  fs (modify_protocol_name.main forced_read save_error schedule dicom_folder w).2 !! p
  = if Py.truthy dicom_folder && Py.startswith p (posixpath.join dicom_folder "")
    then rewritten forced_read save_error p <$> fs w !! p
    else fs w !! p.
Proof.
  intros Hperm.
  destruct (os_walk_files_NoDup dicom_folder w) as (all_files & Hwalk & Hnodup).
  pose proof (os_walk_files_spec dicom_folder p w all_files Hwalk) as Hspec.
  assert ((if bool_decide (p ∈ all_files)
           then rewritten forced_read save_error p <$> fs w !! p else fs w !! p)
          = if Py.truthy dicom_folder
               && Py.startswith p (posixpath.join dicom_folder "")
            then rewritten forced_read save_error p <$> fs w !! p
            else fs w !! p) as <-.
  { case_bool_decide as Hin.
    - apply Hspec in Hin as [-> _]. done.
    - destruct (Py.truthy dicom_folder && _) eqn:Hpre; [|done].
      destruct (fs w !! p) as [[|c]|] eqn:Hp; [done| |done].
      destruct Hin. apply Hspec. eauto. }
  destruct (decide (all_files = [])) as [->|Hne].
  - unfold modify_protocol_name.main.
    unfold mbind at 1, M_bind at 1. by rewrite Hwalk.
  - destruct (protocol_name_main_run forced_read save_error schedule dicom_folder
                all_files w Hperm Hwalk Hnodup Hne) as (w1 & _ & -> & Hfs & _).
    simpl. apply Hfs.
Qed.

(** X14: what a run of the protocol-name tool does to the file system:
    every file below the folder that the forced reader decodes and the
    writer takes holds its dataset with ProtocolName set from the name of
    its parent folder, in the form in which it is read back, so that a blank
    at the end of the name is not in the stored value; every other entry,
    below the folder or elsewhere, stays as it is, in whatever order the
    pool takes the files; for the empty path no file is found. *)
Theorem protocol_name_run_on_files (forced_read : string → result Dataset)
    (save_error : Dataset → option exn) (schedule : list string → list string)
    (dicom_folder p : string) (w : World) :
  (∀ l, schedule l ≡ₚ l) →
  fs (modify_protocol_name.main forced_read save_error schedule dicom_folder w).2 !! p
  = if Py.truthy dicom_folder && Py.startswith p (posixpath.join dicom_folder "")
    then
      match fs w !! p with
      | Some (File c) =>
          match decoded forced_read c with
          | Some (is_dicom, ds) =>
              match save_error (with_protocol_name p ds) with
              | None =>
                  Some (File ((if is_dicom then Dicom else Loose)
                                (stored (with_protocol_name p ds))))
              | Some _ => Some (File c)
              end
          | None => Some (File c)
          end
      | other => other
      end
    else fs w !! p.
Proof.
  intros Hperm. rewrite protocol_name_main_fs by done.
  destruct (Py.truthy dicom_folder && _); [|done].
  destruct (fs w !! p) as [[|c]|]; try done. simpl.
  destruct (decoded forced_read c) as [[is_dicom ds]|]; [|done].
  by destruct (save_error _).
Qed.

Lemma protocol_name_run_on_files_witness :
  fs (modify_protocol_name.main lenient_reader willing_writer reverse "data"
        spaced_folder_world).2 !! "data/T1 /a.dcm"
  = Some (File (Dicom {["PatientID" := Text "P1"; "ProtocolName" := Text "T1"]}))
  ∧ fs (modify_protocol_name.main lenient_reader willing_writer reverse "data"
          spaced_folder_world).2 !! "other/b.dcm"
    = Some (File (Dicom sample_dataset))
  ∧ fs (modify_protocol_name.main lenient_reader willing_writer reverse ""
          spaced_folder_world).2 !! "data/T1 /a.dcm"
    = Some (File (Dicom {["PatientID" := Text "P1"]})).
Proof.
  split; [|split].
  - etrans; [apply (protocol_name_run_on_files lenient_reader willing_writer
                      reverse "data" "data/T1 /a.dcm" spaced_folder_world
                      reverse_Permutation)|].
    vm_compute. reflexivity.
  - etrans; [apply (protocol_name_run_on_files lenient_reader willing_writer
                      reverse "data" "other/b.dcm" spaced_folder_world
                      reverse_Permutation)|].
    reflexivity.
  - etrans; [apply (protocol_name_run_on_files lenient_reader willing_writer
                      reverse "" "data/T1 /a.dcm" spaced_folder_world
                      reverse_Permutation)|].
    reflexivity.
Defined.

Lemma rstrip_padding_twice (s : string) :
  rstrip_padding (rstrip_padding s) = rstrip_padding s.
Proof.
  induction s as [|c s IH]; [done|]. simpl.
  destruct (rstrip_padding s) as [|d r] eqn:Hr.
  - destruct (bool_decide (c = " "%char) || bool_decide (c = "000"%char)) eqn:Hc;
      [done|]. simpl. by rewrite Hc.
  - cbn [rstrip_padding] in IH |- *. by rewrite IH.
Qed.

Lemma stored_attribute_twice (a : attribute) :
  stored_attribute (stored_attribute a) = stored_attribute a.
Proof.
  destruct a as [s|items shown|outcome]; simpl; [|  |done].
  - by rewrite rstrip_padding_twice.
  - assert (rstrip_padding <$> (rstrip_padding <$> items) = rstrip_padding <$> items)
      as Hitems.
    { rewrite <- list_fmap_compose. apply list_fmap_ext. intros i s _. simpl.
      apply rstrip_padding_twice. }
    rewrite Hitems. by rewrite (decide_True (P := _ = _)) by done.
Qed.

Lemma stored_twice (ds : Dataset) : stored (stored ds) = stored ds.
Proof.
  unfold stored. rewrite <- map_fmap_compose. apply map_fmap_ext.
  intros name a _. apply stored_attribute_twice.
Qed.

(** A dataset that was stored with a new ProtocolName and is stored with it
    once more is the same. *)
Lemma stored_setattr_twice (ds : Dataset) (name value : string) :
  stored (setattr (stored (setattr ds name value)) name value)
  = stored (setattr ds name value).
Proof.
  unfold setattr, stored. rewrite !fmap_insert, insert_insert_eq.
  fold (stored ds). fold (stored (stored ds)). by rewrite stored_twice.
Qed.

Lemma new_protocol_name_stripped (p : string) (ds : Dataset) :
  Py.strip (posixpath.basename (posixpath.dirname p))
  = posixpath.basename (posixpath.dirname p) →
  new_protocol_name p ds = posixpath.basename (posixpath.dirname p).
Proof.
  intros Hstrip. unfold new_protocol_name. rewrite Hstrip.
  destruct (getattr_default ds "ProtocolName" (Str "")) as [v|e]; [|done].
  by destruct (truthy_value v).
Qed.

Lemma rewritten_twice (forced_read : string → result Dataset)
    (save_error : Dataset → option exn) (p : string) (n : node) :
  (∀ c is_dicom ds, n = File c → decoded forced_read c = Some (is_dicom, ds) →
     Py.strip (posixpath.basename (posixpath.dirname p))
     = posixpath.basename (posixpath.dirname p)) →
  rewritten forced_read save_error p (rewritten forced_read save_error p n)
  = rewritten forced_read save_error p n.
Proof.
  intros Hstrip. destruct n as [|c]; [done|]. simpl.
  destruct (decoded forced_read c) as [[is_dicom ds]|] eqn:Hc;
    [|simpl; by rewrite Hc].
  specialize (Hstrip c is_dicom ds eq_refl Hc).
  destruct (save_error (with_protocol_name p ds)) eqn:Hsave;
    [simpl; by rewrite Hc, Hsave|].
  assert (with_protocol_name p (stored (with_protocol_name p ds))
          = setattr (stored (setattr ds "ProtocolName"
                               (posixpath.basename (posixpath.dirname p))))
              "ProtocolName" (posixpath.basename (posixpath.dirname p))) as Hagain.
  { unfold with_protocol_name. by rewrite !new_protocol_name_stripped by done. }
  assert (stored (with_protocol_name p (stored (with_protocol_name p ds)))
          = stored (with_protocol_name p ds)) as Hsame.
  { rewrite Hagain, stored_setattr_twice. unfold with_protocol_name.
    by rewrite new_protocol_name_stripped by done. }
  destruct is_dicom; simpl;
    (destruct (save_error (with_protocol_name p
                             (stored (with_protocol_name p ds)))); [done|]);
    by rewrite Hsame.
Qed.

(** X15: when no folder that holds a file below the given folder which the
    forced read decodes has white space at either end of its name, a second
    run of the protocol-name tool leaves the file system as the first run
    left it. *)
Theorem protocol_name_second_run (forced_read : string → result Dataset)
    (save_error : Dataset → option exn) (schedule : list string → list string)
    (dicom_folder : string) (w : World) :
  (∀ l, schedule l ≡ₚ l) →
  (∀ p is_dicom ds,
     (dcmread_force forced_read p w).1 = Ok (is_dicom, ds) →
     Py.startswith p (posixpath.join dicom_folder "") = true →
     Py.strip (posixpath.basename (posixpath.dirname p))
     = posixpath.basename (posixpath.dirname p)) →
  fs (modify_protocol_name.main forced_read save_error schedule dicom_folder
        (modify_protocol_name.main forced_read save_error schedule
           dicom_folder w).2).2
  = fs (modify_protocol_name.main forced_read save_error schedule dicom_folder w).2.
Proof.
  intros Hperm Hstripped. apply map_eq. intros p.
  rewrite (protocol_name_main_fs forced_read save_error schedule dicom_folder p _
             Hperm).
  rewrite (protocol_name_main_fs forced_read save_error schedule dicom_folder p w
             Hperm).
  destruct (Py.truthy dicom_folder && _) eqn:Hpre; [|done].
  apply andb_true_iff in Hpre as [_ Hpre].
  destruct (fs w !! p) as [n|] eqn:Hp; [|done]. simpl. f_equal.
  apply rewritten_twice. intros c is_dicom ds -> Hc.
  apply (Hstripped p is_dicom ds); [|done].
  apply dcmread_force_ok. eauto.
Qed.

Lemma protocol_name_second_run_witness :
  fs (modify_protocol_name.main lenient_reader willing_writer reverse "in"
        (modify_protocol_name.main lenient_reader willing_writer reverse "in"
           sample_world).2).2
  = fs (modify_protocol_name.main lenient_reader willing_writer reverse "in"
          sample_world).2.
Proof.
  apply (protocol_name_second_run lenient_reader willing_writer reverse "in"
           sample_world reverse_Permutation).
  intros p is_dicom ds Hread Hpre.
  apply dcmread_force_ok in Hread as (c & Hp & _).
  apply elem_of_map_to_list in Hp. vm_compute in Hp.
  repeat (apply elem_of_cons in Hp as [Hp|Hp];
          [injection Hp as -> ?; try discriminate; try reflexivity|]).
  by apply not_elem_of_nil in Hp.
Defined.

